(** * RSSOS: site classification and content extraction

    A shallow embedding of the site detector ([SiteDetector]), of the
    content parser ([ContentParser]), of the keys of the cache manager
    ([CacheManager]) and of the request handler ([api/generate.js]) of the
    RSSOS feed generator, with the properties of its specification, and
    further properties of the code, stated and proved over the embedding.

    Conventions.
    - A JavaScript string is a [string]: one character per code unit.  The
      embedding is exact on ASCII text; the few non-ASCII literals of the
      source appear as their UTF-8 bytes, and whitespace means the ASCII
      members of the class [\s].
    - A JavaScript number that counts something is a [Z].
    - The libraries the program calls (the HTML parser and serializer behind
      [cheerio], [Date], [URL], [JSON.parse]) are a [Runtime] record that
      the definitions take as a parameter; the clock and the network are a
      [World].  The digest of [crypto] and the string and regular
      expression operations are written out.
    - The generator of the feeds ([RSSGenerator]) and the store behind the
      caches are parameters of the handler: the feeds a [Generator] writes
      and the answers of the caches ([CacheReads]). *)

From Stdlib Require Import List String Ascii ZArith Lia Bool Arith.
From Stdlib Require Import DecimalString FunctionalExtensionality.
Import ListNotations.
Local Open Scope string_scope.
Local Open Scope Z_scope.

Set Implicit Arguments.

(* ================================================================== *)
(** ** Strings as the program uses them *)

Module JsString.

Definition len (s : string) : Z := Z.of_nat (String.length s).

(** [s.startsWith(p)] *)
Definition startsWith (s p : string) : bool := String.prefix p s.

(** [s.includes(p)] *)
Fixpoint includes (s p : string) : bool :=
  String.prefix p s ||
  match s with
  | EmptyString => false
  | String _ s' => includes s' p
  end.

Definition lower_char (c : ascii) : ascii :=
  let n := nat_of_ascii c in
  if ((65 <=? n) && (n <=? 90))%nat then ascii_of_nat (n + 32) else c.

Definition upper_char (c : ascii) : ascii :=
  let n := nat_of_ascii c in
  if ((97 <=? n) && (n <=? 122))%nat then ascii_of_nat (n - 32) else c.

Fixpoint map_chars (f : ascii -> ascii) (s : string) : string :=
  match s with
  | EmptyString => EmptyString
  | String c s' => String (f c) (map_chars f s')
  end.

(** [s.toLowerCase()] *)
Definition toLowerCase (s : string) : string := map_chars lower_char s.

(** The class [\s], which is also what [trim] removes. *)
Definition is_space (c : ascii) : bool :=
  let n := nat_of_ascii c in
  (((9 <=? n) && (n <=? 13)) || (n =? 32))%nat.

Fixpoint trimStart (s : string) : string :=
  match s with
  | EmptyString => EmptyString
  | String c s' => if is_space c then trimStart s' else s
  end.

(** Drops the whitespace a string ends with: a character is kept when it
    is not a space or when something is kept after it. *)
Fixpoint trimEnd (s : string) : string :=
  match s with
  | EmptyString => EmptyString
  | String c s' =>
      match trimEnd s' with
      | EmptyString => if is_space c then EmptyString else String c EmptyString
      | r => String c r
      end
  end.

(** [s.trim()] *)
Definition trim (s : string) : string := trimEnd (trimStart s).

(** [s.replace(/\s+/g, ' ')]: every maximal run of whitespace becomes one
    space. *)
Fixpoint collapse_run (in_run : bool) (s : string) : string :=
  match s with
  | EmptyString => EmptyString
  | String c s' =>
      if is_space c
      then (if in_run then collapse_run true s'
            else String " "%char (collapse_run true s'))
      else String c (collapse_run false s')
  end.

Definition collapse_ws (s : string) : string := collapse_run false s.

Definition clampZ (n : Z) (s : string) : nat :=
  Z.to_nat (Z.min (Z.max 0 n) (len s)).

(** [s.substring(from, to)]: both ends are clamped to [0, s.length] and
    swapped when they come in the wrong order. *)
Definition substring (s : string) (from to : Z) : string :=
  let a := clampZ from s in
  let b := clampZ to s in
  String.substring (Nat.min a b) (Nat.max a b - Nat.min a b) s.

(** [s.slice(1)] *)
Definition slice1 (s : string) : string :=
  match s with
  | EmptyString => EmptyString
  | String _ s' => s'
  end.

(** [s.charAt(0)] *)
Definition charAt0 (s : string) : string :=
  match s with
  | EmptyString => EmptyString
  | String c _ => String c EmptyString
  end.

Definition toUpperCase (s : string) : string := map_chars upper_char s.

Fixpoint drop (n : nat) (s : string) : string :=
  match n, s with
  | O, _ => s
  | S n', String _ s' => drop n' s'
  | S _, EmptyString => EmptyString
  end.

(** [s.replace(p, r)] with a string pattern: the first occurrence only. *)
Fixpoint replace_first (s p r : string) : string :=
  if String.prefix p s then r ++ drop (String.length p) s
  else match s with
       | EmptyString => EmptyString
       | String c s' => String c (replace_first s' p r)
       end.

(** [s.replace(/\n/g, r)] *)
Fixpoint replace_newlines (s r : string) : string :=
  match s with
  | EmptyString => EmptyString
  | String c s' =>
      if (nat_of_ascii c =? 10)%nat then r ++ replace_newlines s' r
      else String c (replace_newlines s' r)
  end.

(** Whether a [>] occurs in the string. *)
Fixpoint has_gt (s : string) : bool :=
  match s with
  | EmptyString => false
  | String c s' => (nat_of_ascii c =? 62)%nat || has_gt s'
  end.

(** [s.replace(/<[^>]*>/g, '')]: [inside] says that an opening [<] whose
    closing [>] lies ahead has been read. *)
Fixpoint strip_tags_from (inside : bool) (s : string) : string :=
  match s with
  | EmptyString => EmptyString
  | String c s' =>
      if inside then
        (if (nat_of_ascii c =? 62)%nat then strip_tags_from false s'
         else strip_tags_from true s')
      else if ((nat_of_ascii c =? 60)%nat && has_gt s')%bool
           then strip_tags_from true s'
           else String c (strip_tags_from false s')
  end.

Definition strip_tags (s : string) : string := strip_tags_from false s.

(** An integer in decimal, as template strings print it. *)
Definition decimal (z : Z) : string :=
  NilZero.string_of_int (Z.to_int z).

End JsString.

(* ================================================================== *)
(** ** The MD5 digest ([crypto.createHash('md5')], RFC 1321) *)

Module MD5.

Definition w32 (x : Z) : Z := x mod 4294967296.

Definition rotl (x : Z) (n : Z) : Z :=
  w32 (Z.lor (Z.shiftl x n) (Z.shiftr x (32 - n))).

Definition not32 (x : Z) : Z := 4294967295 - x.

(** [floor(2^32 * abs(sin(i + 1)))] for [i = 0 .. 63]. *)
Definition K : list Z :=
  [ 3614090360; 3905402710; 606105819; 3250441966; 4118548399; 1200080426;
    2821735955; 4249261313; 1770035416; 2336552879; 4294925233; 2304563134;
    1804603682; 4254626195; 2792965006; 1236535329; 4129170786; 3225465664;
    643717713; 3921069994; 3593408605; 38016083; 3634488961; 3889429448;
    568446438; 3275163606; 4107603335; 1163531501; 2850285829; 4243563512;
    1735328473; 2368359562; 4294588738; 2272392833; 1839030562; 4259657740;
    2763975236; 1272893353; 4139469664; 3200236656; 681279174; 3936430074;
    3572445317; 76029189; 3654602809; 3873151461; 530742520; 3299628645;
    4096336452; 1126891415; 2878612391; 4237533241; 1700485571; 2399980690;
    4293915773; 2240044497; 1873313359; 4264355552; 2734768916; 1309151649;
    4149444226; 3174756917; 718787259; 3951481745 ].

Definition shifts : list Z :=
  [ 7; 12; 17; 22; 7; 12; 17; 22; 7; 12; 17; 22; 7; 12; 17; 22;
    5; 9; 14; 20; 5; 9; 14; 20; 5; 9; 14; 20; 5; 9; 14; 20;
    4; 11; 16; 23; 4; 11; 16; 23; 4; 11; 16; 23; 4; 11; 16; 23;
    6; 10; 15; 21; 6; 10; 15; 21; 6; 10; 15; 21; 6; 10; 15; 21 ].

Definition state : Type := (Z * Z * Z * Z)%type.

Definition init : state := (1732584193, 4023233417, 2562383102, 271733878).

(** One of the 64 operations of a block, on the words [m] of the block. *)
Definition step (m : list Z) (st : state) (i : nat) : state :=
  let '(a, b, c, d) := st in
  let '(f, g) :=
    if (i <? 16)%nat then (Z.lor (Z.land b c) (Z.land (not32 b) d), i)
    else if (i <? 32)%nat
         then (Z.lor (Z.land d b) (Z.land (not32 d) c), ((5 * i + 1) mod 16)%nat)
    else if (i <? 48)%nat
         then (Z.lxor (Z.lxor b c) d, ((3 * i + 5) mod 16)%nat)
    else (Z.lxor c (Z.lor b (not32 d)), ((7 * i) mod 16)%nat) in
  let f' := w32 (f + a + nth i K 0 + nth g m 0) in
  (d, w32 (b + rotl f' (nth i shifts 0)), b, c).

Definition block (st : state) (m : list Z) : state :=
  let '(a0, b0, c0, d0) := st in
  let '(a, b, c, d) := fold_left (step m) (seq 0 64) st in
  (w32 (a0 + a), w32 (b0 + b), w32 (c0 + c), w32 (d0 + d)).

(** The [n] low bytes of [x], least significant first. *)
Fixpoint le_bytes (n : nat) (x : Z) : list Z :=
  match n with
  | O => []
  | S n' => (x mod 256) :: le_bytes n' (x / 256)
  end.

Definition pad (msg : list Z) : list Z :=
  let n := List.length msg in
  msg ++ [128] ++ repeat 0 ((119 - n mod 64) mod 64)%nat
      ++ le_bytes 8 (8 * Z.of_nat n).

(** Bytes to 32-bit words, least significant byte first. *)
Fixpoint words (fuel : nat) (bs : list Z) : list Z :=
  match fuel, bs with
  | S f, b0 :: b1 :: b2 :: b3 :: r =>
      (b0 + 256 * b1 + 65536 * b2 + 16777216 * b3) :: words f r
  | _, _ => []
  end.

Fixpoint blocks (fuel : nat) (ws : list Z) : list (list Z) :=
  match fuel, ws with
  | S f, _ :: _ => firstn 16 ws :: blocks f (skipn 16 ws)
  | _, _ => []
  end.

Definition hex_digit (n : Z) : ascii :=
  if n <? 10 then ascii_of_nat (Z.to_nat (48 + n))
  else ascii_of_nat (Z.to_nat (87 + n)).

Definition hex_byte (b : Z) : string :=
  String (hex_digit (b / 16)) (String (hex_digit (b mod 16)) EmptyString).

Definition bytes_of (s : string) : list Z :=
  map (fun c => Z.of_nat (nat_of_ascii c)) (list_ascii_of_string s).

Definition digest (s : string) : state :=
  let bs := pad (bytes_of s) in
  let ws := words (List.length bs) bs in
  fold_left block (blocks (List.length ws) ws) init.

(** [createHash('md5').update(s).digest('hex')] *)
Definition hex (s : string) : string :=
  let '(a, b, c, d) := digest s in
  String.concat ""
    (map hex_byte (le_bytes 4 a ++ le_bytes 4 b ++ le_bytes 4 c ++ le_bytes 4 d)).

End MD5.

(* ================================================================== *)
(** ** Documents and selections ([cheerio]) *)

Module Dom.

Definition attrs : Type := list (string * string).

(** A parsed page: text and elements. *)
#[warnings="-register-all"] Inductive node : Type :=
| Text (s : string)
| Elem (tag : string) (a : attrs) (kids : list node).

Definition Document : Type := list node.

(** Induction over a page: a property of an element may rest on the
    property of each of its children. *)
Section NodeInduction.

Variable P : node -> Prop.
Hypothesis text_case : forall s, P (Text s).
Hypothesis elem_case : forall t a ks, Forall P ks -> P (Elem t a ks).

Fixpoint node_induction (n : node) : P n :=
  match n with
  | Text s => text_case s
  | Elem t a ks =>
      elem_case t a
        ((fix children (l : list node) : Forall P l :=
            match l with
            | [] => Forall_nil P
            | x :: r => Forall_cons x (node_induction x) (children r)
            end) ks)
  end.

End NodeInduction.

(** An element as a selection holds it: the element and the tags and
    attributes of its ancestors, the nearest first. *)
Record element : Type := mkElement {
  anc : list (string * attrs);
  tag : string;
  att : attrs;
  kids : list node
}.

Fixpoint get_attr (name : string) (a : attrs) : option string :=
  match a with
  | [] => None
  | (k, v) :: r => if String.eqb k name then Some v else get_attr name r
  end.

(** [el.attr(name, value)]: the attribute keeps its place when it is
    there and comes last when it is new. *)
Fixpoint set_attr (name value : string) (a : attrs) : attrs :=
  match a with
  | [] => [(name, value)]
  | (k, v) :: r =>
      if String.eqb k name then (k, value) :: r
      else (k, v) :: set_attr name value r
  end.

(** The words of a string: its maximal runs of characters that [sep]
    rejects. *)
Fixpoint split_acc (sep : ascii -> bool) (cur : string) (s : string)
  : list string :=
  match s with
  | EmptyString => if String.eqb cur "" then [] else [cur]
  | String c s' =>
      if sep c
      then (if String.eqb cur "" then split_acc sep "" s'
            else cur :: split_acc sep "" s')
      else split_acc sep (cur ++ String c EmptyString) s'
  end.

Definition split (sep : ascii -> bool) (s : string) : list string :=
  split_acc sep "" s.

Definition class_list (a : attrs) : list string :=
  match get_attr "class" a with
  | Some v => split JsString.is_space v
  | None => []
  end.

Definition has_class (c : string) (a : attrs) : bool :=
  existsb (String.eqb c) (class_list a).

(** *** Selectors

    The selectors of the program are lists (separated by commas) of
    chains of compound selectors (separated by spaces: the descendant
    combinator); a compound names a tag, an id, classes and attribute
    values. *)

Record compound : Type := mkCompound {
  c_tag : option string;
  c_id : option string;
  c_classes : list string;
  c_attrs : list (string * string)
}.

Definition complex : Type := list compound.
Definition selector : Type := list complex.

Definition any : compound := mkCompound None None [] [].

Definition opt_eqb (o : option string) (s : option string) : bool :=
  match o, s with
  | None, _ => true
  | Some x, Some y => String.eqb x y
  | Some _, None => false
  end.

Definition match_compound (c : compound) (e : string * attrs) : bool :=
  let '(t, a) := e in
  opt_eqb (c_tag c) (Some t)
  && opt_eqb (c_id c) (get_attr "id" a)
  && forallb (fun k => has_class k a) (c_classes c)
  && forallb (fun kv => opt_eqb (Some (snd kv)) (get_attr (fst kv) a))
       (c_attrs c).

(** The compounds left of the last one, innermost first, each matched by
    an ancestor further out than the one before. *)
Fixpoint anc_ok (ancestors : list (string * attrs)) (outer : list compound)
  : bool :=
  match outer with
  | [] => true
  | c :: cs =>
      match ancestors with
      | [] => false
      | e :: r =>
          if match_compound c e then anc_ok r cs else anc_ok r (c :: cs)
      end
  end.

Definition match_complex (cx : complex) (ancestors : list (string * attrs))
  (e : string * attrs) : bool :=
  match rev cx with
  | [] => false
  | last :: outer => match_compound last e && anc_ok ancestors outer
  end.

Definition matches (sel : selector) (ancestors : list (string * attrs))
  (e : string * attrs) : bool :=
  existsb (fun cx => match_complex cx ancestors e) sel.

(** The elements under a node that the selector matches, in document
    order.  [full] is the path to the document's root, [scoped] the part
    of it the selector may use. *)
Fixpoint select_node (sel : selector) (full scoped : list (string * attrs))
  (n : node) : list element :=
  match n with
  | Text _ => []
  | Elem t a ks =>
      (if matches sel scoped (t, a) then [mkElement full t a ks] else [])
      ++ flat_map (select_node sel ((t, a) :: full) ((t, a) :: scoped)) ks
  end.

(** [$(sel)] *)
Definition select (doc : Document) (sel : selector) : list element :=
  flat_map (select_node sel [] []) doc.

(** [el.find(sel)]: the matches are the descendants of the element; the
    element itself may stand for a compound left of the last one (the
    selection is the scope of the query and the scope is included), its
    ancestors may not. *)
Definition find (el : element) (sel : selector) : list element :=
  let self := (tag el, att el) in
  flat_map (select_node sel (self :: anc el) [self]) (kids el).

(** [el.is(sel)] *)
Definition is_ (el : element) (sel : selector) : bool :=
  matches sel (anc el) (tag el, att el).

Fixpoint node_text (n : node) : string :=
  match n with
  | Text s => s
  | Elem _ _ ks => String.concat "" (map node_text ks)
  end.

(** [el.text()] *)
Definition text (el : element) : string :=
  String.concat "" (map node_text (kids el)).

(** [selection.text()] *)
Definition text_all (l : list element) : string :=
  String.concat "" (map text l).

(** [selection.first()] *)
Definition first (l : list element) : list element := firstn 1 l.

(** [selection.attr(name)]: of the first element. *)
Definition attr (l : list element) (name : string) : option string :=
  match l with
  | [] => None
  | e :: _ => get_attr name (att e)
  end.

(** [selection.hasClass(c)] *)
Definition hasClass (l : list element) (c : string) : bool :=
  existsb (fun e => has_class c (att e)) l.

(** [selection.length] *)
Definition length (l : list element) : Z := Z.of_nat (List.length l).

(** *** Reading a selector literal *)

Inductive mode : Type :=
| MTag | MClass | MId | MAttrName | MAttrVal (name : string).

Definition flush (m : mode) (acc : string) (c : compound) : compound :=
  if String.eqb acc "" then c
  else match m with
       | MTag => mkCompound (Some acc) (c_id c) (c_classes c) (c_attrs c)
       | MClass =>
           mkCompound (c_tag c) (c_id c) (c_classes c ++ [acc]) (c_attrs c)
       | MId => mkCompound (c_tag c) (Some acc) (c_classes c) (c_attrs c)
       | _ => c
       end.

Definition add_attr (c : compound) (name value : string) : compound :=
  mkCompound (c_tag c) (c_id c) (c_classes c) (c_attrs c ++ [(name, value)]).

Fixpoint scan (m : mode) (acc : string) (s : string) (c : compound)
  : compound :=
  match s with
  | EmptyString => flush m acc c
  | String ch s' =>
      let n := nat_of_ascii ch in
      match m with
      | MAttrName =>
          if (n =? 61)%nat then scan (MAttrVal acc) "" s' c
          else scan MAttrName (acc ++ String ch EmptyString) s' c
      | MAttrVal name =>
          if ((n =? 34) || (n =? 39))%nat then scan m acc s' c
          else if (n =? 93)%nat then scan MTag "" s' (add_attr c name acc)
          else scan m (acc ++ String ch EmptyString) s' c
      | _ =>
          if (n =? 46)%nat then scan MClass "" s' (flush m acc c)
          else if (n =? 35)%nat then scan MId "" s' (flush m acc c)
          else if (n =? 91)%nat then scan MAttrName "" s' (flush m acc c)
          else scan m (acc ++ String ch EmptyString) s' c
      end
  end.

Definition parse_compound (s : string) : compound := scan MTag "" s any.

Definition is_comma (c : ascii) : bool := (nat_of_ascii c =? 44)%nat.

(** The selector a literal of the program denotes. *)
Definition css (s : string) : selector :=
  map (fun part => map parse_compound (split JsString.is_space part))
    (split is_comma s).

End Dom.

(* ================================================================== *)
(** ** What the program takes from its platform *)

(** The double quote, for the literals that hold one. *)
Definition dq : string := String (ascii_of_nat 34) EmptyString.

(** What a [throw] carries. *)
Inductive exn : Type :=
| TypeError (what : string)
| Error (message : string).

(** The outcome of code that may throw (of an [async] function: a promise
    that is fulfilled or rejected). *)
Inductive result (A : Type) : Type :=
| Ok (a : A)
| Err (e : exn).

Arguments Ok {A} a.
Arguments Err {A} e.

Definition bind {A B : Type} (r : result A) (k : A -> result B) : result B :=
  match r with
  | Ok a => k a
  | Err e => Err e
  end.

(** [try { body } catch (error) { handler }] *)
Definition try_catch {A : Type} (body : result A) (handler : exn -> A) : A :=
  match body with
  | Ok a => a
  | Err e => handler e
  end.

(** What the walk over a fetched payload reads of it.  A field the walk
    expects a string in is [NoValue] when it is [undefined], [null] or
    another value that counts as false, [StringValue] when it is a string,
    and [OtherValue] when it is any other value: calling a string method on
    that one throws. *)
Inductive StrField : Type :=
| NoValue
| StringValue (s : string)
| OtherValue.

(** [interaction.actions[0]]: [ActionMissing] when reading a property of it
    throws ([undefined], [null]). *)
Inductive FigmaAction : Type :=
| ActionMissing
| ActionOf (connectionURL : StrField).

(** An entry of [node.interactions]: [InteractionThrows] when reading its
    [actions] throws, [InteractionIdle] when [interaction.actions &&
    interaction.actions.length > 0] is false. *)
Inductive FigmaInteraction : Type :=
| InteractionThrows
| InteractionIdle
| InteractionFirst (action : FigmaAction).

(** A value of [jsonData.nodeById]: [NodeNull] when reading a property of
    it throws; [interactions] is empty unless [node.interactions] is an
    array; [type_is_TEXT] is [node.type === 'TEXT']. *)
Inductive FigmaNode : Type :=
| NodeNull
| NodeOf (interactions : list FigmaInteraction) (type_is_TEXT : bool)
    (characters : StrField).

(** A parsed payload: [None] when [jsonData && jsonData.nodeById] is false,
    else the entries of [nodeById] in the order of [Object.keys]. *)
Definition Payload : Type := option (list (string * FigmaNode)).

(** The libraries behind the program. *)
Record Runtime : Type := mkRuntime {
  (** [cheerio.load(html)] *)
  load : string -> Dom.Document;
  (** [.html()]: the markup of a list of nodes. *)
  serialize : list Dom.node -> string;
  (** [new Date(s).getTime()]; [None] is [NaN], an invalid date. *)
  Date_parse : string -> option Z;
  (** [date.toUTCString()] of a valid date. *)
  toUTCString : Z -> string;
  (** [new URL(s).origin]; [None] when [new URL(s)] throws. *)
  URL_origin : string -> option string;
  (** [response.json()] of a body; [None] when it throws. *)
  JSON_parse : string -> option Payload
}.

(** What [fetch] resolves to. *)
Record Response : Type := mkResponse {
  ok : bool;
  status : Z;
  body : string
}.

(** The clock and the network: [now k] is what the clock shows the [k]-th
    time the program reads it, [fetch u] how a request for [u] ends. *)
Record World : Type := mkWorld {
  now : nat -> Z;
  fetch : string -> result Response
}.

(* ================================================================== *)
(** ** The site detector ([SiteDetector]) *)

(** Selector rules: a JavaScript object from role names to selectors. *)
Definition Selectors : Type := list (string * Dom.selector).

Fixpoint rule (role : string) (s : Selectors) : option Dom.selector :=
  match s with
  | [] => None
  | (k, v) :: r => if String.eqb k role then Some v else rule role r
  end.

(** What a detector returns. *)
Record Detection : Type := mkDetection {
  r_type : string;
  r_platform : string;
  r_confidence : Z;
  r_selectors : Selectors;
  r_features : list string
}.

Record SiteInfo : Type := mkSiteInfo {
  url : string;
  type : string;
  platform : string;
  confidence : Z;
  selectors : Selectors;
  features : list string
}.

(** [Object.assign(siteInfo, result)] *)
Definition assign (siteInfo : SiteInfo) (r : Detection) : SiteInfo :=
  mkSiteInfo (url siteInfo) (r_type r) (r_platform r) (r_confidence r)
    (r_selectors r) (r_features r).

(** [value?.includes(p)], read as a condition. *)
Definition opt_includes (o : option string) (p : string) : bool :=
  match o with
  | Some v => JsString.includes v p
  | None => false
  end.

(** [value === s] *)
Definition opt_is (o : option string) (s : string) : bool :=
  match o with
  | Some v => String.eqb v s
  | None => false
  end.

Definition Detector : Type := Dom.Document -> string -> string -> Detection.

Definition detectWordPress : Detector := fun dom url html =>
  let confidence := 0 in
  let features := [] in
  let '(confidence, features) :=
    if JsString.includes html "wp-content" || JsString.includes html "wp-includes"
    then (confidence + 30, (features ++ ["wp-content-detected"])%list)
    else (confidence, features) in
  let '(confidence, features) :=
    if opt_includes
         (Dom.attr (Dom.select dom (Dom.css "meta[name='generator']")) "content")
         "WordPress"
    then (confidence + 40, (features ++ ["wp-generator-meta"])%list)
    else (confidence, features) in
  let confidence :=
    if Dom.hasClass (Dom.select dom (Dom.css "body")) "wp-admin-bar-front"
    then confidence + 20 else confidence in
  let selectors :=
    if confidence >? 50
    then [ ("articles", Dom.css ".post, article, .entry");
           ("title", Dom.css ".entry-title, .post-title, h1, h2.entry-title");
           ("content", Dom.css ".entry-content, .post-content, .content");
           ("date", Dom.css ".entry-date, .post-date, time");
           ("link", Dom.css ".entry-title a, .post-title a") ]
    else [] in
  mkDetection "blog" "wordpress" confidence selectors features.

Definition detectMedium : Detector := fun dom url html =>
  let confidence := 0 in
  let features := [] in
  let '(confidence, features) :=
    if JsString.includes url "medium.com"
    then (confidence + 60, (features ++ ["medium-domain"])%list)
    else (confidence, features) in
  let confidence :=
    if JsString.includes html "Medium"
       || opt_includes
            (Dom.attr (Dom.select dom (Dom.css "meta[property='al:web:url']"))
               "content")
            "medium.com"
    then confidence + 30 else confidence in
  let selectors :=
    if confidence >? 50
    then [ ("articles", Dom.css "article, .postArticle");
           ("title", Dom.css "h1, .graf--title");
           ("content", Dom.css ".section-content, .postArticle-content");
           ("date", Dom.css "time, .postMetaInline time");
           ("author", Dom.css ".postMetaInline a") ]
    else [] in
  mkDetection "blog" "medium" confidence selectors features.

Definition detectGitHub : Detector := fun dom url html =>
  let confidence := 0 in
  let features := [] in
  let '(confidence, features) :=
    if JsString.includes url "github.io" || JsString.includes url "github.com"
    then (confidence + 50, (features ++ ["github-domain"])%list)
    else (confidence, features) in
  let confidence :=
    if opt_is
         (Dom.attr (Dom.select dom (Dom.css "meta[property='og:site_name']"))
            "content")
         "GitHub"
    then confidence + 30 else confidence in
  let selectors :=
    if confidence >? 50
    then [ ("articles", Dom.css ".commit, .issue-item, .release");
           ("title", Dom.css ".commit-title, .issue-title, .release-title");
           ("content", Dom.css ".commit-desc, .issue-body, .release-body");
           ("date", Dom.css "time, .date") ]
    else [] in
  mkDetection "repository" "github" confidence selectors features.

Definition detectNews : Detector := fun dom url html =>
  let confidence := 0 in
  let features := [] in
  let newsSelectors := Dom.select dom (Dom.css ".article, .news-item, .story") in
  let '(confidence, features) :=
    if Dom.length newsSelectors >? 5
    then (confidence + 20, (features ++ ["multiple-articles"])%list)
    else (confidence, features) in
  let articleType :=
    Dom.attr (Dom.select dom (Dom.css "meta[property='og:type']")) "content" in
  let '(confidence, features) :=
    if opt_is articleType "article"
    then (confidence + 30, (features ++ ["article-meta"])%list)
    else (confidence, features) in
  let '(confidence, features) :=
    if JsString.includes html
         (dq ++ "@type" ++ dq ++ ":" ++ dq ++ "NewsArticle" ++ dq)
       || JsString.includes html
            (dq ++ "@type" ++ dq ++ ":" ++ dq ++ "Article" ++ dq)
    then (confidence + 40, (features ++ ["structured-data"])%list)
    else (confidence, features) in
  let selectors :=
    if confidence >? 30
    then [ ("articles", Dom.css "article, .article, .news-item, .story, .post");
           ("title", Dom.css "h1, h2, .headline, .title, .article-title");
           ("content", Dom.css ".article-content, .story-content, .content, .text");
           ("date", Dom.css "time, .date, .published, .timestamp");
           ("summary", Dom.css ".summary, .excerpt, .intro") ]
    else [] in
  mkDetection "news" "news" confidence selectors features.

Definition detectECommerce : Detector := fun dom url html =>
  let confidence := 0 in
  let features := [] in
  let '(confidence, features) :=
    if Dom.length (Dom.select dom (Dom.css ".product, .item, .goods")) >? 5
    then (confidence + 30, (features ++ ["product-listings"])%list)
    else (confidence, features) in
  let '(confidence, features) :=
    if JsString.includes html
         (dq ++ "@type" ++ dq ++ ":" ++ dq ++ "Product" ++ dq)
    then (confidence + 40, (features ++ ["product-structured-data"])%list)
    else (confidence, features) in
  let ecommerceKeywords := ["price"; "cart"; "buy"; "shop"; "product"] in
  let keywordMatches :=
    Z.of_nat (List.length
      (filter (fun keyword => JsString.includes (JsString.toLowerCase html) keyword)
         ecommerceKeywords)) in
  let confidence := confidence + keywordMatches * 5 in
  let selectors :=
    if confidence >? 25
    then [ ("articles", Dom.css ".product, .item, .goods, .listing");
           ("title", Dom.css ".product-title, .item-title, h1, h2");
           ("content", Dom.css ".description, .product-desc, .details");
           ("price", Dom.css ".price, .cost, .amount") ]
    else [] in
  mkDetection "ecommerce" "shop" confidence selectors features.

Definition detectPortfolio : Detector := fun dom url html =>
  let confidence := 0 in
  let features := [] in
  let portfolioKeywords := ["portfolio"; "work"; "project"; "case-study"; "design"] in
  let keywordMatches :=
    Z.of_nat (List.length
      (filter (fun keyword =>
                 JsString.includes (JsString.toLowerCase html) keyword
                 || JsString.includes (JsString.toLowerCase url) keyword)
         portfolioKeywords)) in
  let confidence := confidence + keywordMatches * 10 in
  let '(confidence, features) :=
    if Dom.length
         (Dom.select dom (Dom.css ".project, .work, .case-study, .portfolio-item"))
       >? 2
    then (confidence + 30, (features ++ ["project-listings"])%list)
    else (confidence, features) in
  let description :=
    match Dom.attr (Dom.select dom (Dom.css "meta[name='description']")) "content"
    with
    | Some v => JsString.toLowerCase v
    | None => ""
    end in
  let '(confidence, features) :=
    if existsb (fun word => JsString.includes description word)
         ["designer"; "portfolio"; "creative"; "artist"; "developer"]
    then (confidence + 20, (features ++ ["design-description"])%list)
    else (confidence, features) in
  let selectors :=
    if confidence >? 25
    then [ ("articles", Dom.css ".project, .work, .case-study, .portfolio-item");
           ("title", Dom.css ".project-title, .work-title, h1, h2, h3");
           ("content", Dom.css ".project-desc, .work-description, .description");
           ("image", Dom.css ".project-image, .work-image, img");
           ("link", Dom.css ".project-link, .work-link, a") ]
    else [] in
  mkDetection "portfolio" "portfolio" confidence selectors features.

(** The fallback. *)
Definition detectGeneric : Detector := fun dom url html =>
  let selectors :=
    [ ("articles", Dom.css "article, .post, .entry, .item, .content-item");
      ("title", Dom.css "h1, h2, .title, .headline, .entry-title");
      ("content", Dom.css ".content, .text, .description, .summary");
      ("date", Dom.css "time, .date, .published");
      ("link", Dom.css "a") ] in
  mkDetection "generic" "unknown" 10 selectors ["generic-fallback"].

(** [this.detectors], as the constructor fills it.  The class has no method
    [detectBlogger]: the second entry is [undefined], here [None]. *)
Definition detectors : list (option Detector) :=
  [ Some detectWordPress;
    None;
    Some detectMedium;
    Some detectGitHub;
    Some detectNews;
    Some detectECommerce;
    Some detectPortfolio;
    Some detectGeneric ].

(** The methods the class defines, in the order the constructor lists
    them. *)
Definition defined_detectors : list Detector :=
  [ detectWordPress; detectMedium; detectGitHub; detectNews; detectECommerce;
    detectPortfolio; detectGeneric ].

(** The rules the detector for WordPress supplies. *)
Definition wordpress_rules : Selectors :=
  [ ("articles", Dom.css ".post, article, .entry");
    ("title", Dom.css ".entry-title, .post-title, h1, h2.entry-title");
    ("content", Dom.css ".entry-content, .post-content, .content");
    ("date", Dom.css ".entry-date, .post-date, time");
    ("link", Dom.css ".entry-title a, .post-title a") ].

(** One turn of the loop of [detectSiteType]: the candidate replaces the
    running result when its confidence is greater. *)
Definition keep_best (siteInfo : SiteInfo) (r : Detection) : SiteInfo :=
  if r_confidence r >? confidence siteInfo then assign siteInfo r else siteInfo.

(** The loop over the detectors; [detector.call] on an entry that is
    [undefined] throws. *)
Fixpoint run_detectors (ds : list (option Detector)) (dom : Dom.Document)
  (url html : string) (siteInfo : SiteInfo) : result SiteInfo :=
  match ds with
  | [] => Ok siteInfo
  | None :: _ => Err (TypeError "Cannot read properties of undefined (reading 'call')")
  | Some detector :: rest =>
      run_detectors rest dom url html (keep_best siteInfo (detector dom url html))
  end.

Definition initial (url : string) : SiteInfo :=
  mkSiteInfo url "unknown" "unknown" 0 [] [].

Definition detectSiteType (rt : Runtime) (html url : string) : result SiteInfo :=
  let dom := load rt html in
  run_detectors detectors dom url html (initial url).

(* ================================================================== *)
(** ** The content parser ([ContentParser]) *)

(** A record of the feed.  [image], [author] and [category] are [None] when
    the strategy leaves the key out (or sets it to [null]). *)
Record Article : Type := mkArticle {
  title : string;
  link : string;
  description : string;
  content : string;
  pubDate : string;
  guid : string;
  image : option string;
  author : option string;
  category : option string
}.

Record ContentParser : Type := mkContentParser {
  siteInfo : SiteInfo;
  baseUrl : string
}.

(** [new ContentParser(siteInfo)] *)
Definition new_ContentParser (rt : Runtime) (siteInfo : SiteInfo)
  : result ContentParser :=
  match URL_origin rt (url siteInfo) with
  | Some origin => Ok (mkContentParser siteInfo origin)
  | None => Err (TypeError "Invalid URL")
  end.

(** Reading the clock: a computation takes the number of readings made so
    far and returns it advanced. *)
Definition Clock (A : Type) : Type := nat -> A * nat.

Definition ret {A : Type} (a : A) : Clock A := fun k => (a, k).

Definition seq_clock {A B : Type} (c : Clock A) (f : A -> Clock B) : Clock B :=
  fun k => let '(a, k') := c k in f a k'.

Notation "x <- c ;; f" := (seq_clock c (fun x => f))
  (at level 61, c at next level, right associativity).

(** [new Date().toUTCString()] *)
Definition Date_now_utc (rt : Runtime) (w : World) : Clock string :=
  fun k => (toUTCString rt (now w k), S k).

(** [Date.now()] *)
Definition Date_now (w : World) : Clock Z :=
  fun k => (now w k, S k).

(** [new Date(s).toUTCString()] *)
Definition Date_utc (rt : Runtime) (s : string) : string :=
  match Date_parse rt s with
  | Some t => toUTCString rt t
  | None => "Invalid Date"
  end.

(** A string or [undefined], read as a condition. *)
Definition truthy (o : option string) : bool :=
  match o with
  | Some s => negb (String.eqb s "")
  | None => false
  end.

(** [a || b] on strings. *)
Definition or_else (a b : string) : string :=
  if String.eqb a "" then b else a.

(** [!selector]: the rule is missing, or it is the empty selector. *)
Definition no_selector (o : option Dom.selector) : bool :=
  match o with
  | None => true
  | Some [] => true
  | Some _ => false
  end.

(** [$(selector)] on a rule that may be missing. *)
Definition select_rule (dom : Dom.Document) (o : option Dom.selector)
  : list Dom.element :=
  match o with
  | Some sel => Dom.select dom sel
  | None => []
  end.

Definition find_rule (el : Dom.element) (o : option Dom.selector)
  : list Dom.element :=
  match o with
  | Some sel => Dom.find el sel
  | None => []
  end.

Section Methods.

Variable rt : Runtime.
Variable w : World.
Variable this : ContentParser.

Definition resolveUrl (u : option string) : string :=
  match u with
  | None => url (siteInfo this)
  | Some u =>
      if String.eqb u "" then url (siteInfo this)
      else if JsString.startsWith u "http" then u
      else if JsString.startsWith u "//" then "https:" ++ u
      else if JsString.startsWith u "/" then baseUrl this ++ u
      else baseUrl this ++ "/" ++ u
  end.

Definition extractText (el : Dom.element) (selector : option Dom.selector)
  : string :=
  if no_selector selector then ""
  else
    match Dom.first (find_rule el selector) with
    | [] =>
        match selector with
        | Some sel => if Dom.is_ el sel then Dom.text el else ""
        | None => ""
        end
    | element :: _ => Dom.text element
    end.

Definition extractLink (el : Dom.element) (selector : option Dom.selector)
  : string :=
  if no_selector selector then url (siteInfo this)
  else
    let link :=
      match Dom.first (find_rule el selector) with
      | [] => Some ""
      | linkEl => Dom.attr linkEl "href"
      end in
    let link :=
      if truthy link then link
      else
        let anyLink := Dom.attr (Dom.first (Dom.find el (Dom.css "a"))) "href" in
        if truthy anyLink then anyLink else link in
    if truthy link then resolveUrl link else url (siteInfo this).

Definition extractImage (el : Dom.element) (selector : option Dom.selector)
  : option string :=
  if no_selector selector then None
  else
    match Dom.first (find_rule el selector) with
    | [] => None
    | imgEl =>
        let src :=
          if truthy (Dom.attr imgEl "src") then Dom.attr imgEl "src"
          else Dom.attr imgEl "data-src" in
        if truthy src then Some (resolveUrl src) else None
    end.

Definition extractDate (el : Dom.element) (selector : option Dom.selector)
  : option string :=
  if no_selector selector then None
  else
    match Dom.first (find_rule el selector) with
    | [] => None
    | dateEl =>
        if truthy (Dom.attr dateEl "datetime") then Dom.attr dateEl "datetime"
        else Some (Dom.text_all dateEl)
    end.

Definition generateSummary (text : string) (maxLength : Z) : string :=
  if String.eqb text "" then ""
  else
    let clean := JsString.trim (JsString.collapse_ws text) in
    if JsString.len clean >? maxLength
    then JsString.substring clean 0 maxLength ++ "..."
    else clean.

Definition generateGuid (identifier : string) : string :=
  let hash := MD5.hex (identifier ++ url (siteInfo this)) in
  "rssos-" ++ JsString.substring hash 0 16.

Definition capitalize (str : string) : string :=
  JsString.toUpperCase (JsString.charAt0 str) ++ JsString.slice1 str.

Definition generatePortfolioContent (title content : string)
  (image : option string) : string :=
  let html := "<h2>" ++ title ++ "</h2>" in
  let html :=
    match image with
    | Some src =>
        if String.eqb src "" then html
        else html ++ "<img src=" ++ dq ++ src ++ dq ++ " alt=" ++ dq ++ title
               ++ dq ++ " style=" ++ dq
               ++ "max-width: 100%; height: auto; margin: 10px 0;" ++ dq ++ "/>"
    | None => html
    end in
  if String.eqb content "" then html else html ++ "<p>" ++ content ++ "</p>".

Definition generateFigmaProjectContent (projectName projectUrl : string)
  : string :=
  "
      <h2>" ++ capitalize projectName ++ " - Design Project</h2>
      <p>This project showcases innovative design work and creative problem-solving approaches.</p>
      <h3>Key Highlights:</h3>
      <ul>
        <li>User-centered design approach</li>
        <li>Innovative visual solutions</li>
        <li>Comprehensive research and testing</li>
        <li>Modern, clean aesthetic</li>
      </ul>
      <p><a href=" ++ dq ++ baseUrl this ++ projectUrl ++ dq ++ ">View full project details →</a></p>
    ".

Definition generateProductContent (title content price : string) : string :=
  let html := "<h2>" ++ title ++ "</h2>" in
  let html :=
    if String.eqb price "" then html
    else html ++ "<p><strong>Price: " ++ price ++ "</strong></p>" in
  if String.eqb content "" then html else html ++ "<p>" ++ content ++ "</p>".

(** [date ? new Date(date).toUTCString() : new Date().toUTCString()] *)
Definition pubDate_of (date : option string) : Clock string :=
  match date with
  | Some d => if String.eqb d "" then Date_now_utc rt w else ret (Date_utc rt d)
  | None => Date_now_utc rt w
  end.

(** [$(...).each((index, element) => ...)] for a body that pushes at most
    one record an element. *)
Fixpoint each (body : Z -> Dom.element -> Clock (option Article)) (index : Z)
  (els : list Dom.element) : Clock (list Article) :=
  match els with
  | [] => ret []
  | element :: rest =>
      pushed <- body index element ;;
      articles <- each body (index + 1) rest ;;
      ret (match pushed with
           | Some a => a :: articles
           | None => articles
           end)
  end.

End Methods.

(** *** The pattern that finds the embedded data *)

Module Pattern.

(** A pattern is a sequence of literals, of greedy runs [[^c]*] and of the
    two ends of its capture group. *)
Inductive item : Type :=
| Lit (s : string)
| StarNot (c : ascii)
| Open
| Close.

(** Matching at the start of [s], backtracking over the runs from the
    longest; [start] is the text at the opening of the group, the result
    what the group captured. *)
Fixpoint match_here (items : list item) : string -> string -> string -> option string :=
  match items with
  | [] => fun _ _ captured => Some captured
  | Lit l :: rest =>
      fun s start captured =>
        if String.prefix l s
        then match_here rest (JsString.drop (String.length l) s) start captured
        else None
  | StarNot c :: rest =>
      fix star (s start captured : string) : option string :=
        match s with
        | String ch s' =>
            if Ascii.eqb ch c then match_here rest s start captured
            else match star s' start captured with
                 | Some r => Some r
                 | None => match_here rest s start captured
                 end
        | EmptyString => match_here rest s start captured
        end
  | Open :: rest => fun s _ captured => match_here rest s s captured
  | Close :: rest =>
      fun s start _ =>
        match_here rest s start
          (String.substring 0 (String.length start - String.length s) start)
  end.

(** The leftmost match. *)
Fixpoint search (items : list item) (s : string) : option string :=
  match match_here items s "" "" with
  | Some captured => Some captured
  | None =>
      match s with
      | EmptyString => None
      | String _ s' => search items s'
      end
  end.

End Pattern.

(** [/"preload"[^>]*href="([^"]*\/_json\/[^"]*\.json)"/] *)
Definition jsonUrlPattern : list Pattern.item :=
  [ Pattern.Lit (dq ++ "preload" ++ dq);
    Pattern.StarNot ">"%char;
    Pattern.Lit ("href=" ++ dq);
    Pattern.Open;
    Pattern.StarNot (ascii_of_nat 34);
    Pattern.Lit "/_json/";
    Pattern.StarNot (ascii_of_nat 34);
    Pattern.Lit ".json";
    Pattern.Close;
    Pattern.Lit dq ].

(** *** The strategies *)

(** A computation that reads the clock and may throw. *)
Definition Try (A : Type) : Type := nat -> result A * nat.

Definition pure {A : Type} (a : A) : Try A := fun k => (Ok a, k).

Definition throw {A : Type} (e : exn) : Try A := fun k => (Err e, k).

Definition lift {A : Type} (c : Clock A) : Try A :=
  fun k => let '(a, k') := c k in (Ok a, k').

Definition and_then {A B : Type} (c : Try A) (f : A -> Try B) : Try B :=
  fun k =>
    match c k with
    | (Ok a, k') => f a k'
    | (Err e, k') => (Err e, k')
    end.

(** [xs.forEach(x => ...)] for a body that changes a state and may throw. *)
Fixpoint forEach {X S : Type} (body : X -> S -> Try S) (xs : list X) (s : S)
  : Try S :=
  match xs with
  | [] => pure s
  | x :: rest => and_then (body x s) (forEach body rest)
  end.

(** [array.slice(0, n)] *)
Definition slice0 {A : Type} (n : nat) (l : list A) : list A := firstn n l.

(** [set.has(x)] on a set of strings. *)
Definition has (set : list string) (x : string) : bool :=
  existsb (String.eqb x) set.

Section Strategies.

Variable rt : Runtime.
Variable w : World.
Variable this : ContentParser.

Let selectors_ : Selectors := selectors (siteInfo this).

(** The body of the loop of [parseGenericContent]. *)
Definition generic_item (index : Z) (el : Dom.element)
  : Clock (option Article) :=
  let title := extractText el (rule "title" selectors_) in
  let content := extractText el (rule "content" selectors_) in
  let link := extractLink this el (rule "link" selectors_) in
  let date := extractDate el (rule "date" selectors_) in
  if negb (String.eqb title "") && (JsString.len title >? 5)
  then
    pubDate <- pubDate_of rt w date ;;
    ret (Some (mkArticle (JsString.trim title) link
                 (generateSummary content 200) content pubDate
                 (generateGuid this (or_else link title))
                 None None None))
  else ret None.

Definition parseGenericContent (dom : Dom.Document) (html : string)
  : Clock (list Article) :=
  each generic_item 0
    (select_rule dom (rule "articles" selectors_)).

(** The records and the keys seen so far, while a payload is walked. *)
Definition FigmaState : Type := (list Article * list string)%type.

Definition figma_interaction (nodeId : string) (interaction : FigmaInteraction)
  (st : FigmaState) : Try FigmaState :=
  let '(articles, processedItems) := st in
  match interaction with
  | InteractionThrows =>
      throw (TypeError "Cannot read properties of null (reading 'actions')")
  | InteractionIdle => pure st
  | InteractionFirst ActionMissing =>
      throw (TypeError "Cannot read properties of undefined (reading 'connectionURL')")
  | InteractionFirst (ActionOf NoValue) => pure st
  | InteractionFirst (ActionOf OtherValue) =>
      throw (TypeError "action.connectionURL.startsWith is not a function")
  | InteractionFirst (ActionOf (StringValue connectionURL)) =>
      if negb (String.eqb connectionURL "")
         && JsString.startsWith connectionURL "/"
         && negb (JsString.includes connectionURL "http")
         && (JsString.len connectionURL >? 1)
      then
        let projectName :=
          JsString.replace_first (JsString.replace_first connectionURL "/" "")
            "-" " " in
        let projectKey := "project-" ++ projectName in
        if negb (String.eqb projectName "")
           && negb (has processedItems projectKey)
           && (JsString.len projectName <? 30)
        then
          and_then (lift (Date_now_utc rt w)) (fun pubDate =>
          and_then (lift (Date_now w)) (fun stamp =>
          pure ((articles ++
                 [mkArticle
                    (capitalize projectName ++ " - Portfolio Project")
                    (baseUrl this ++ connectionURL)
                    ("Explore the " ++ projectName
                       ++ " project featuring innovative design work, UX research, and creative solutions.")
                    (generateFigmaProjectContent this projectName connectionURL)
                    pubDate
                    ("figma-project-" ++ nodeId ++ "-" ++ JsString.decimal stamp)
                    None None (Some "Design")])%list,
                projectKey :: processedItems)))
        else pure st
      else pure st
  end.

Definition figma_text (nodeId : string) (characters : string)
  (st : FigmaState) : Try FigmaState :=
  let '(articles, processedItems) := st in
  let text := JsString.trim characters in
  let lower := JsString.toLowerCase text in
  if (JsString.len text >? 30) && (JsString.len text <? 200)
     && (JsString.includes lower "design" || JsString.includes lower "project"
         || JsString.includes lower "developed" || JsString.includes lower "led")
  then
    let textKey := "text-" ++ JsString.substring text 0 20 in
    if negb (has processedItems textKey)
    then
      let title :=
        if JsString.len text >? 60
        then JsString.substring text 0 57 ++ "..." else text in
      and_then (lift (Date_now_utc rt w)) (fun pubDate =>
      and_then (lift (Date_now w)) (fun stamp =>
      pure ((articles ++
             [mkArticle
                (JsString.trim (JsString.replace_newlines title " "))
                (url (siteInfo this))
                (JsString.trim (JsString.replace_newlines text " "))
                ("<p>" ++ JsString.replace_newlines text "</p><p>" ++ "</p>")
                pubDate
                ("figma-text-" ++ nodeId ++ "-" ++ JsString.decimal stamp)
                None None (Some "Design")])%list,
            textKey :: processedItems)))
    else pure st
  else pure st.

Definition figma_node (entry : string * FigmaNode) (st : FigmaState)
  : Try FigmaState :=
  let '(nodeId, node) := entry in
  match node with
  | NodeNull =>
      throw (TypeError "Cannot read properties of null (reading 'interactions')")
  | NodeOf interactions type_is_TEXT characters =>
      and_then (forEach (figma_interaction nodeId) interactions st) (fun st =>
      if type_is_TEXT
      then match characters with
           | NoValue => pure st
           | StringValue c =>
               if String.eqb c "" then pure st else figma_text nodeId c st
           | OtherValue => throw (TypeError "node.characters.trim is not a function")
           end
      else pure st)
  end.

(** The body of the [try] of [parseFigmaBasedSite]: [None] is the early
    [return this.parseGenericContent($, html)] of a page with no link to
    its data, [Some articles] what the walk collected. *)
Definition figma_try (html : string) : Try (option (list Article)) :=
  match Pattern.search jsonUrlPattern html with
  | None => pure None
  | Some path =>
      let jsonUrl := baseUrl this ++ path in
      match fetch w jsonUrl with
      | Err e => throw e
      | Ok jsonResponse =>
          if negb (ok jsonResponse)
          then throw (Error ("Failed to fetch JSON: "
                               ++ JsString.decimal (status jsonResponse)))
          else
            match JSON_parse rt (body jsonResponse) with
            | None => throw (Error "invalid json response body")
            | Some None => pure (Some [])
            | Some (Some nodeById) =>
                and_then (forEach figma_node nodeById ([], []))
                  (fun st => pure (Some (fst st)))
            end
      end
  end.

Definition parseFigmaBasedSite (dom : Dom.Document) (html : string)
  : Clock (list Article) :=
  fun k =>
    match figma_try html k with
    | (Err error, k') => parseGenericContent dom html k'
    | (Ok None, k') => parseGenericContent dom html k'
    | (Ok (Some articles), k') =>
        if (0 <? List.length articles)%nat
        then (slice0 10 articles, k')
        else parseGenericContent dom html k'
    end.

(** The body of the loop of [parsePortfolioContent]. *)
Definition portfolio_item (index : Z) (el : Dom.element)
  : Clock (option Article) :=
  let title :=
    or_else (extractText el (rule "title" selectors_))
      ("Project " ++ JsString.decimal (index + 1)) in
  let content := or_else (extractText el (rule "content" selectors_)) "" in
  let link := extractLink this el (rule "link" selectors_) in
  let image := extractImage this el (rule "image" selectors_) in
  if negb (String.eqb title "")
  then
    pubDate <- Date_now_utc rt w ;;
    ret (Some (mkArticle (JsString.trim title) link
                 (or_else (JsString.trim content)
                    ("View details of " ++ title))
                 (generatePortfolioContent title content image)
                 pubDate
                 (generateGuid this (or_else link title))
                 image None None))
  else ret None.

Definition parsePortfolioContent (dom : Dom.Document) (html : string)
  : Clock (list Article) :=
  if JsString.includes html "_json/" && JsString.includes html ".json"
  then parseFigmaBasedSite dom html
  else
    articles <-
      each portfolio_item 0
        (select_rule dom (rule "articles" selectors_)) ;;
    ret (slice0 20 articles).

(** The body of the loop of [parseNewsContent]. *)
Definition news_item (index : Z) (el : Dom.element)
  : Clock (option Article) :=
  let title := extractText el (rule "title" selectors_) in
  let content := extractText el (rule "content" selectors_) in
  let summary :=
    or_else (extractText el (rule "summary" selectors_))
      (generateSummary content 150) in
  let link := extractLink this el (rule "link" selectors_) in
  let date := extractDate el (rule "date" selectors_) in
  if negb (String.eqb title "")
  then
    pubDate <- pubDate_of rt w date ;;
    ret (Some (mkArticle (JsString.trim title) link summary content pubDate
                 (generateGuid this (or_else link title))
                 None None (Some "News")))
  else ret None.

Definition parseNewsContent (dom : Dom.Document) (html : string)
  : Clock (list Article) :=
  each news_item 0
    (select_rule dom (rule "articles" selectors_)).

(** The body of the loop of [parseECommerceContent]. *)
Definition ecommerce_item (index : Z) (el : Dom.element)
  : Clock (option Article) :=
  let title := extractText el (rule "title" selectors_) in
  let content := extractText el (rule "content" selectors_) in
  let link := extractLink this el (rule "link" selectors_) in
  let price := extractText el (rule "price" selectors_) in
  if negb (String.eqb title "")
  then
    pubDate <- Date_now_utc rt w ;;
    ret (Some (mkArticle (JsString.trim title) link
                 (or_else content "Product details"
                    ++ (if String.eqb price "" then "" else " - " ++ price))
                 (generateProductContent title content price)
                 pubDate
                 (generateGuid this (or_else link title))
                 None None (Some "Product")))
  else ret None.

Definition parseECommerceContent (dom : Dom.Document) (html : string)
  : Clock (list Article) :=
  each ecommerce_item 0
    (select_rule dom (rule "articles" selectors_)).

(** The body of the loop of [parseRepositoryContent]. *)
Definition repository_item (index : Z) (el : Dom.element)
  : Clock (option Article) :=
  let title := extractText el (rule "title" selectors_) in
  let content := extractText el (rule "content" selectors_) in
  let link := extractLink this el (rule "link" selectors_) in
  let date := extractDate el (rule "date" selectors_) in
  if negb (String.eqb title "")
  then
    pubDate <- pubDate_of rt w date ;;
    ret (Some (mkArticle (JsString.trim title) link
                 (or_else content title) content pubDate
                 (generateGuid this (or_else link title))
                 None None (Some "Repository")))
  else ret None.

Definition parseRepositoryContent (dom : Dom.Document) (html : string)
  : Clock (list Article) :=
  each repository_item 0
    (select_rule dom (rule "articles" selectors_)).

End Strategies.

(** Whether the [try] of [parseFigmaBasedSite] ended with records of its
    own. *)
Definition figma_found (r : result (option (list Article))) : bool :=
  match r with
  | Ok (Some (_ :: _)) => true
  | _ => false
  end.

(** *** The Movable Type strategy and its secondary fetches *)

(** [$(sel).remove()]: the tree without the elements the selector matches. *)
Fixpoint remove_node (sel : Dom.selector) (ancestors : list (string * Dom.attrs))
  (n : Dom.node) : list Dom.node :=
  match n with
  | Dom.Text _ => [n]
  | Dom.Elem t a ks =>
      if Dom.matches sel ancestors (t, a) then []
      else [Dom.Elem t a (flat_map (remove_node sel ((t, a) :: ancestors)) ks)]
  end.

Definition remove (sel : Dom.selector) (dom : Dom.Document) : Dom.Document :=
  flat_map (remove_node sel []) dom.

(** [$(sel).each(...)] for a body that only rewrites the attributes of its
    element. *)
Fixpoint rewrite_node (sel : Dom.selector) (f : Dom.attrs -> Dom.attrs)
  (ancestors : list (string * Dom.attrs)) (n : Dom.node) : Dom.node :=
  match n with
  | Dom.Text _ => n
  | Dom.Elem t a ks =>
      Dom.Elem t (if Dom.matches sel ancestors (t, a) then f a else a)
        (map (rewrite_node sel f ((t, a) :: ancestors)) ks)
  end.

Definition rewrite (sel : Dom.selector) (f : Dom.attrs -> Dom.attrs)
  (dom : Dom.Document) : Dom.Document :=
  map (rewrite_node sel f []) dom.

Definition fix_img (a : Dom.attrs) : Dom.attrs :=
  let src := Dom.get_attr "src" a in
  let a :=
    match src with
    | Some s =>
        if negb (String.eqb s "") && negb (JsString.startsWith s "http")
        then
          if JsString.startsWith s "/"
          then Dom.set_attr "src" ("https://www.ruanyifeng.com" ++ s) a
          else Dom.set_attr "src" ("https://www.ruanyifeng.com/blog/" ++ s) a
        else a
    | None => a
    end in
  Dom.set_attr "style" "max-width: 100%; height: auto;" a.

Definition fix_link (a : Dom.attrs) : Dom.attrs :=
  match Dom.get_attr "href" a with
  | Some h =>
      if negb (String.eqb h "") && negb (JsString.startsWith h "http")
         && negb (JsString.startsWith h "mailto")
      then
        if JsString.startsWith h "/"
        then Dom.set_attr "href" ("https://www.ruanyifeng.com" ++ h) a
        else a
      else a
  | None => a
  end.

(** The store of [parseMovableTypeBlog]: the records with their
    [needsFullContent] mark, which the loop of the secondary fetches
    reaches by position, and the links seen. *)
Definition Marked : Type := (Article * bool)%type.
Definition MtState : Type := (list Marked * list string)%type.

Fixpoint each_with {S : Type} (body : Dom.element -> S -> Clock S)
  (els : list Dom.element) (s : S) : Clock S :=
  match els with
  | [] => ret s
  | element :: rest => s' <- body element s ;; each_with body rest s'
  end.

(** [list[i] = x] *)
Fixpoint set_nth {A : Type} (i : nat) (x : A) (l : list A) : list A :=
  match l, i with
  | [], _ => []
  | _ :: r, O => x :: r
  | y :: r, S i' => y :: set_nth i' x r
  end.

Section MovableType.

Variable rt : Runtime.
Variable w : World.
Variable this : ContentParser.

Definition cleanRuanyifengContent (content : string) : string :=
  if String.eqb content "" then content
  else
    let dom := load rt content in
    let dom :=
      remove (Dom.css ".asset-footer, .entry-footer, .comments, #comments, .trackbacks, .related-posts")
        dom in
    let dom := remove (Dom.css "script, style, .advertisement") dom in
    let dom := rewrite (Dom.css "img") fix_img dom in
    let dom := rewrite (Dom.css "a") fix_link dom in
    serialize rt dom.

(** The loop over [contentSelectors]: the markup of the first selector that
    finds an element with markup in it. *)
Fixpoint first_content (page : Dom.Document) (contentSelectors : list Dom.selector)
  : string :=
  match contentSelectors with
  | [] => ""
  | selector :: rest =>
      match Dom.select page selector with
      | contentEl :: _ =>
          let markup := serialize rt (Dom.kids contentEl) in
          if String.eqb markup "" then first_content page rest else markup
      | [] => first_content page rest
      end
  end.

Definition paragraphs_of (page : Dom.Document) : list string :=
  flat_map (fun element =>
      let text := JsString.trim (Dom.text element) in
      if (JsString.len text >? 20) && negb (JsString.includes text "留言")
         && negb (JsString.includes text "Email")
      then ["<p>" ++ text ++ "</p>"] else [])
    (Dom.select page (Dom.css "p")).

(** The body of the [try] of [fetchRuanyifengArticleContent]. *)
Definition fetch_article_try (articleUrl : string) : result (option string) :=
  bind (fetch w articleUrl) (fun response =>
    if negb (ok response)
    then Err (Error ("HTTP " ++ JsString.decimal (status response)))
    else
      let html := body response in
      let page := load rt html in
      let content :=
        first_content page
          [ Dom.css ".asset-body"; Dom.css ".entry-content";
            Dom.css ".asset-content"; Dom.css "#main .asset-body";
            Dom.css "#content .entry-content" ] in
      let content :=
        if String.eqb content ""
        then
          let title :=
            JsString.trim
              (Dom.text_all
                 (Dom.first (Dom.select page (Dom.css "h1, .asset-name, .entry-title")))) in
          let paragraphs := paragraphs_of page in
          if (0 <? List.length paragraphs)%nat
          then "<h2>" ++ title ++ "</h2>" ++ String (ascii_of_nat 10) ""
                 ++ String.concat (String (ascii_of_nat 10) "") (slice0 10 paragraphs)
          else content
        else content in
      if String.eqb content "" || (JsString.len content <? 100)
      then Ok None
      else Ok (Some (cleanRuanyifengContent content))).

(** [fetchRuanyifengArticleContent]: [None] is [null]. *)
Definition fetchRuanyifengArticleContent (articleUrl : string) : option string :=
  try_catch (fetch_article_try articleUrl) (fun error => None).

Definition valid_date_or (dateText : string) (pubDate : string) : string :=
  if String.eqb dateText "" then pubDate
  else match Date_parse rt dateText with
       | Some t => toUTCString rt t
       | None => pubDate
       end.

(** The body of the first loop of [parseMovableTypeBlog].  The text of
    [$('<div>').html(content)] is the text of the nodes [content] parses
    to. *)
Definition mt_entry (el : Dom.element) (st : MtState) : Clock MtState :=
  let '(articles, processedLinks) := st in
  let titleEl :=
    Dom.find el (Dom.css ".asset-name.entry-title a, .asset-name.entry-title") in
  let title :=
    if Dom.length titleEl >? 0 then JsString.trim (Dom.text_all titleEl) else "" in
  let link :=
    if existsb (fun e => Dom.is_ e (Dom.css "a")) titleEl
    then resolveUrl this (Dom.attr titleEl "href")
    else url (siteInfo this) in
  let contentEl := Dom.find el (Dom.css ".asset-content, .asset-body, .entry-content") in
  let content :=
    match contentEl with
    | first :: _ => serialize rt (Dom.kids first)
    | [] => ""
    end in
  let dateEl := Dom.find el (Dom.css ".asset-date, .published, time") in
  pubDate <- Date_now_utc rt w ;;
  let pubDate :=
    if Dom.length dateEl >? 0
    then
      let dateText :=
        if truthy (Dom.attr dateEl "datetime")
        then match Dom.attr dateEl "datetime" with Some d => d | None => "" end
        else Dom.text_all dateEl in
      valid_date_or dateText pubDate
    else pubDate in
  if negb (String.eqb title "") && negb (has processedLinks link)
  then
    ret ((articles ++
          [(mkArticle title link
              (generateSummary
                 (if String.eqb content "" then title
                  else String.concat "" (map Dom.node_text (load rt content)))
                 200)
              (or_else content ("<p>" ++ title ++ "</p>"))
              pubDate
              (generateGuid this link)
              None (Some "阮一峰") (Some "Blog"),
            String.eqb content "" || (JsString.len content <? 500))])%list,
         link :: processedLinks)
  else ret st.

(** The body of its second loop. *)
Definition mt_recent (el : Dom.element) (st : MtState) : Clock MtState :=
  let '(articles, processedLinks) := st in
  let linkEl := Dom.find el (Dom.css "a") in
  if Dom.length linkEl >? 0
  then
    let title := JsString.trim (Dom.text_all linkEl) in
    let link := resolveUrl this (Dom.attr linkEl "href") in
    let dateSpan := Dom.first (Dom.find el (Dom.css "span")) in
    pubDate <- Date_now_utc rt w ;;
    let pubDate :=
      if Dom.length dateSpan >? 0
      then
        let dateText :=
          JsString.trim (JsString.replace_first (Dom.text_all dateSpan) "»" "") in
        if String.eqb dateText "" then pubDate
        else valid_date_or (dateText ++ " 00:00:00") pubDate
      else pubDate in
    if negb (String.eqb title "") && negb (has processedLinks link)
       && negb (JsString.includes title "更多文章")
    then
      ret ((articles ++
            [(mkArticle title link
                ("阮一峰的网络日志：" ++ title)
                ("<h2>" ++ title ++ "</h2><p>这是阮一峰网络日志的一篇文章。</p>")
                pubDate
                (generateGuid this link)
                None (Some "阮一峰") (Some "Blog"),
              true)])%list,
           link :: processedLinks)
    else ret st
  else ret st.

(** [articles.filter(article => article.needsFullContent).slice(0, 5)], as
    the positions of its records in [articles]. *)
Definition articlesToFetch (articles : list Marked) : list nat :=
  slice0 5
    (map fst
       (filter (fun p => snd (snd p))
          (combine (seq 0 (List.length articles)) articles))).

(** The [try] of the loop of the secondary fetches, on one record: the
    record with the content that was fetched, or the record as it was. *)
Definition enriched (article : Article) : Article :=
  try_catch
    (match fetchRuanyifengArticleContent (link article) with
     | Some fullContent =>
         if String.eqb fullContent "" then Ok article
         else Ok (mkArticle (title article) (link article)
                    (generateSummary (JsString.strip_tags fullContent) 300)
                    fullContent (pubDate article) (guid article)
                    (image article) (author article) (category article))
     | None => Ok article
     end)
    (fun error => article).

(** One turn of that loop, on the record at position [i] of the store; its
    mark is taken off. *)
Definition enrich (articles : list Marked) (i : nat) : list Marked :=
  match nth_error articles i with
  | None => articles
  | Some (article, _) => set_nth i (enriched article, false) articles
  end.

(** The two loops of [parseMovableTypeBlog]: the records of the entries
    and of the list of recent posts, marked. *)
Definition mt_candidates (dom : Dom.Document) : Clock (list Marked) :=
  st <- each_with mt_entry (Dom.select dom (Dom.css ".entry-asset")) ([], []) ;;
  st <- each_with mt_recent
          (Dom.select dom (Dom.css "#homepage .module-list-item")) st ;;
  ret (fst st).

Definition parseMovableTypeBlog (dom : Dom.Document) (html : string)
  : Clock (list Article) :=
  articles <- mt_candidates dom ;;
  let articles := fold_left enrich (articlesToFetch articles) articles in
  ret (slice0 20 (map fst articles)).

(** The body of the loop of [parseBlogContent]. *)
Definition blog_item (index : Z) (el : Dom.element)
  : Clock (option Article) :=
  let title := extractText el (rule "title" (selectors (siteInfo this))) in
  let content := extractText el (rule "content" (selectors (siteInfo this))) in
  let link := extractLink this el (rule "link" (selectors (siteInfo this))) in
  let date := extractDate el (rule "date" (selectors (siteInfo this))) in
  if negb (String.eqb title "")
  then
    pubDate <- pubDate_of rt w date ;;
    ret (Some (mkArticle (JsString.trim title) link
                 (generateSummary content 200) content pubDate
                 (generateGuid this (or_else link title))
                 None
                 (Some (or_else (extractText el (rule "author" (selectors (siteInfo this))))
                          "Unknown"))
                 None))
  else ret None.

Definition parseBlogContent (dom : Dom.Document) (html : string)
  : Clock (list Article) :=
  if String.eqb (platform (siteInfo this)) "movable-type"
  then parseMovableTypeBlog dom html
  else
    each blog_item 0
      (select_rule dom (rule "articles" (selectors (siteInfo this)))).

(** [parseContent(html)]; the clock has been read [k] times before. *)
Definition parseContent (html : string) : Clock (list Article) :=
  let dom := load rt html in
  let t := type (siteInfo this) in
  if String.eqb t "portfolio" then parsePortfolioContent rt w this dom html
  else if String.eqb t "blog" then parseBlogContent dom html
  else if String.eqb t "news" then parseNewsContent rt w this dom html
  else if String.eqb t "ecommerce" then parseECommerceContent rt w this dom html
  else if String.eqb t "repository" then parseRepositoryContent rt w this dom html
  else parseGenericContent rt w this dom html.

End MovableType.

(** What a caller does with a classification: [new ContentParser(siteInfo)],
    then [parseContent(html)]. *)
Definition extract (rt : Runtime) (w : World) (siteInfo : SiteInfo)
  (html : string) (k : nat) : result (list Article * nat) :=
  bind (new_ContentParser rt siteInfo) (fun parser =>
    Ok (parseContent rt w parser html k)).

(* ================================================================== *)
(** ** The keys of the cache manager ([CacheManager]) *)

(** [new URL(url)] with its hash emptied and the parameters [params]
    deleted, written back by [toString()]; [None] when [new URL] throws. *)
Definition UrlCleaner : Type := list string -> string -> option string.

Section CacheKeys.

Variable URL_without : UrlCleaner.

Definition normalizeUrl (url : string) : string :=
  try_catch
    (match URL_without ["utm_source"; "utm_medium"; "utm_campaign"; "fbclid"] url with
     | Some written => Ok (JsString.toLowerCase written)
     | None => Err (TypeError "Invalid URL")
     end)
    (fun error => JsString.toLowerCase url).

Definition generateCacheKey (url : string) (type : string) : string :=
  let normalizedUrl := normalizeUrl url in
  type ++ ":" ++ normalizedUrl.

(** One of the four loops of [getCachedUrls], over the keys of a cache in
    the order [forEach] visits them. *)
Definition cached_urls (prefix : string) (keys : list string) : list string :=
  flat_map (fun key =>
              if JsString.startsWith key prefix
              then [JsString.replace_first key prefix ""]
              else [])
    keys.

End CacheKeys.

(* ================================================================== *)
(** ** The request handler ([api/generate.js]) *)

(** A request: its method and the parameters [url] and [refresh] of its
    query, [None] when the parameter is absent. *)
Record Request : Type := mkRequest {
  method : string;
  query_url : option string;
  query_refresh : option string
}.

(** How a response ends: [res.end()], [res.json(object)], [res.send(text)]. *)
Inductive Body : Type :=
| Ended
| Json (fields : list (string * string))
| Sent (text : string).

Record Reply : Type := mkReply {
  code : Z;
  headers : list (string * string);
  payload : Body
}.

(** What a request leaves in the caches, with the time stamp of each
    entry. *)
Inductive CacheWrite : Type :=
| CacheHTML (url html : string) (timestamp : Z)
| CacheSiteInfo (url : string) (siteInfo : SiteInfo) (timestamp : Z)
| CacheRSS (url content : string) (timestamp : Z)
| AddToErrorCache (url message : string) (timestamp : Z).

(** What the caches answer while a request is served. *)
Record CacheReads : Type := mkCacheReads {
  isInErrorCache : string -> bool;
  getCachedRSS : string -> option string;
  getCachedHTML : string -> option string;
  getCachedSiteInfo : string -> option SiteInfo
}.

(** The generator of the feeds ([RSSGenerator]); [generateErrorRSS] is
    taken not to throw. *)
Record Generator : Type := mkGenerator {
  generateRSS : list Article -> SiteInfo -> Try string;
  generateEmptyRSS : string -> SiteInfo -> Try string;
  generateErrorRSS : exn -> string -> Clock string;
  validateRSS : string -> Try bool
}.

(** [error.message] *)
Definition message_of (e : exn) : string :=
  match e with
  | TypeError m => m
  | Error m => m
  end.

Definition cors : list (string * string) :=
  [ ("Access-Control-Allow-Origin", "*");
    ("Access-Control-Allow-Methods", "GET, HEAD, OPTIONS");
    ("Access-Control-Allow-Headers", "Content-Type") ].

Definition rss_type : string * string :=
  ("Content-Type", "application/rss+xml; charset=utf-8").

(** [Buffer.byteLength(text, 'utf-8')] as a header value. *)
Definition byteLength (text : string) : string := JsString.decimal (JsString.len text).

Section Handler.

Variable rt : Runtime.
Variable w : World.
Variable rssGenerator : Generator.
Variable cacheManager : CacheReads.
(** [htmlResponse.statusText] of the response to a request for a URL. *)
Variable statusText : string -> string.

(** [res.status(code).end()] for [HEAD], [res.status(code).send(text)]
    otherwise. *)
Definition finish (req : Request) (status : Z) (hs : list (string * string))
  (text : string) : Reply :=
  mkReply status hs (if String.eqb (method req) "HEAD" then Ended else Sent text).

(** The part of the handler that makes a feed: the outcome of its
    statements, what they left in the caches, and the clock. *)
Definition generate_fresh (req : Request) (url : string) (k : nat)
  : result Reply * list CacheWrite * nat :=
  let refresh := truthy (query_refresh req) in
  let '(html, writes, k) :=
    match (if refresh then None else getCachedHTML cacheManager url) with
    | Some html => (Ok html, [], k)
    | None =>
        match fetch w url with
        | Err e => (Err e, [], k)
        | Ok htmlResponse =>
            if negb (ok htmlResponse)
            then (Err (Error ("HTTP " ++ JsString.decimal (status htmlResponse)
                                ++ ": " ++ statusText url)), [], k)
            else (Ok (body htmlResponse),
                  [CacheHTML url (body htmlResponse) (now w k)], S k)
        end
    end in
  match html with
  | Err e => (Err e, writes, k)
  | Ok html =>
      let '(siteInfo, writes, k) :=
        match (if refresh then None else getCachedSiteInfo cacheManager url) with
        | Some siteInfo => (Ok siteInfo, writes, k)
        | None =>
            match detectSiteType rt html url with
            | Err e => (Err e, writes, k)
            | Ok siteInfo =>
                (Ok siteInfo,
                 (writes ++ [CacheSiteInfo url siteInfo (now w k)])%list, S k)
            end
        end in
      match siteInfo with
      | Err e => (Err e, writes, k)
      | Ok siteInfo =>
          match new_ContentParser rt siteInfo with
          | Err e => (Err e, writes, k)
          | Ok contentParser =>
              let '(articles, k) := parseContent rt w contentParser html k in
              let '(rssXML, k) :=
                (if (0 <? List.length articles)%nat
                 then generateRSS rssGenerator articles siteInfo
                 else generateEmptyRSS rssGenerator url siteInfo) k in
              match rssXML with
              | Err e => (Err e, writes, k)
              | Ok rssXML =>
                  let '(valid, k) := validateRSS rssGenerator rssXML k in
                  match valid with
                  | Err e => (Err e, writes, k)
                  | Ok false => (Err (Error "Generated RSS XML is invalid"), writes, k)
                  | Ok true =>
                      (Ok (finish req 200
                             (cors ++
                              [ rss_type;
                                ("Cache-Control", "public, max-age=1800");
                                ("X-Cache", "MISS");
                                ("X-Site-Type",
                                 (type siteInfo ++ "/" ++ platform siteInfo)%string);
                                ("X-Articles-Found",
                                 JsString.decimal (Z.of_nat (List.length articles)));
                                ("Content-Length", byteLength rssXML) ])%list
                             rssXML),
                       (writes ++ [CacheRSS url rssXML (now w k)])%list, S k)
                  end
              end
          end
      end
  end.

Definition handler (req : Request) (k : nat) : Reply * list CacheWrite * nat :=
  if String.eqb (method req) "OPTIONS" then (mkReply 200 cors Ended, [], k)
  else if negb (String.eqb (method req) "GET")
          && negb (String.eqb (method req) "HEAD")
  then (mkReply 405 cors (Json [("error", "Method not allowed")]), [], k)
  else
    match query_url req with
    | None =>
        (mkReply 400 cors
           (Json [ ("error", "Missing URL parameter");
                   ("usage", "GET /api/generate?url=https://example.com") ]),
         [], k)
    | Some url =>
        if String.eqb url ""
        then (mkReply 400 cors
                (Json [ ("error", "Missing URL parameter");
                        ("usage", "GET /api/generate?url=https://example.com") ]),
              [], k)
        else
          match URL_origin rt url with
          | None =>
              (mkReply 400 cors
                 (Json [("error", "Invalid URL format"); ("provided", url)]),
               [], k)
          | Some _ =>
              if isInErrorCache cacheManager url
              then
                let '(errorRSS, k) :=
                  generateErrorRSS rssGenerator
                    (Error "URL temporarily unavailable due to previous errors")
                    url k in
                (finish req 200
                   (cors ++ [rss_type; ("Cache-Control", "public, max-age=300")])%list
                   errorRSS,
                 [], k)
              else
                match (if truthy (query_refresh req) then None
                       else getCachedRSS cacheManager url) with
                | Some content =>
                    (finish req 200
                       (cors ++
                        [ rss_type; ("Cache-Control", "public, max-age=1800");
                          ("X-Cache", "HIT");
                          ("Content-Length", byteLength content) ])%list
                       content,
                     [], k)
                | None =>
                    match generate_fresh req url k with
                    | (Ok reply, writes, k) => (reply, writes, k)
                    | (Err error, writes, k) =>
                        let writes :=
                          (writes ++
                           [AddToErrorCache url (message_of error) (now w k)])%list in
                        let '(errorRSS, k) :=
                          generateErrorRSS rssGenerator error url (S k) in
                        (finish req 500
                           (cors ++
                            [ rss_type; ("Cache-Control", "public, max-age=300");
                              ("Content-Length", byteLength errorRSS) ])%list
                           errorRSS,
                         writes, k)
                    end
                end
          end
    end.

End Handler.

(** The requests of a process, one after the other: each comes with what
    the caches answer while it is served.  The run returns the reply to
    each request with what the request wrote to the caches. *)
Fixpoint serve (rt : Runtime) (w : World) (rssGenerator : Generator)
  (statusText : string -> string) (requests : list (Request * CacheReads))
  (k : nat) : list (Reply * list CacheWrite) * nat :=
  match requests with
  | [] => ([], k)
  | (req, cacheManager) :: rest =>
      let '(reply, writes, k) :=
        handler rt w rssGenerator cacheManager statusText req k in
      let '(served, k) := serve rt w rssGenerator statusText rest k in
      ((reply, writes) :: served, k)
  end.

(* ================================================================== *)
(** ** A platform and pages for the examples

    The examples below run the definitions on small pages.  They use a
    platform that gives what the real one gives on the inputs of the
    examples: pages are parsed by table, markup is written tag by tag,
    and the few dates and time stamps are listed. *)

Module Sample.

Definition table {A : Type} (t : list (string * A)) (default : A) (key : string) : A :=
  match find (fun e => String.eqb (fst e) key) t with
  | Some e => snd e
  | None => default
  end.

(** The elements that are written without a closing tag. *)
Definition void (t : string) : bool :=
  existsb (String.eqb t) ["img"; "meta"; "link"; "br"; "hr"; "input"].

Fixpoint write_node (n : Dom.node) : string :=
  match n with
  | Dom.Text s => s
  | Dom.Elem t a ks =>
      "<" ++ t
        ++ String.concat ""
             (map (fun kv => " " ++ fst kv ++ "=" ++ dq ++ snd kv ++ dq) a)
        ++ ">"
        ++ (if void t then ""
            else String.concat "" (map write_node ks) ++ "</" ++ t ++ ">")
  end.

Definition write (l : list Dom.node) : string :=
  String.concat "" (map write_node l).

(** The origin of [scheme://host/...] for the two web schemes. *)
Fixpoint host_of (s : string) : string :=
  match s with
  | EmptyString => EmptyString
  | String c s' =>
      if (nat_of_ascii c =? 47)%nat then EmptyString else String c (host_of s')
  end.

Definition origin (s : string) : option string :=
  if String.prefix "https://" s
  then (let h := host_of (JsString.drop 8 s) in
        if String.eqb h "" then None else Some ("https://" ++ h))
  else if String.prefix "http://" s
  then (let h := host_of (JsString.drop 7 s) in
        if String.eqb h "" then None else Some ("http://" ++ h))
  else None.

Definition utc (t : Z) : string :=
  if t =? 0 then "Thu, 01 Jan 1970 00:00:00 GMT"
  else if t =? 1000 then "Thu, 01 Jan 1970 00:00:01 GMT"
  else if t =? 1705276800000 then "Mon, 15 Jan 2024 00:00:00 GMT"
  else if t =? 1727222400000 then "Wed, 25 Sep 2024 00:00:00 GMT"
  else "Thu, 01 Jan 1970 00:00:02 GMT".

Definition dates : list (string * option Z) :=
  [ ("2024-01-15", Some 1705276800000); ("2024-09-25", Some 1727222400000) ].

Definition runtime (pages : list (string * Dom.Document))
  (payloads : list (string * option Payload)) : Runtime :=
  mkRuntime (table pages []) write (table dates None) utc origin
    (table payloads None).

(** A world whose clock stands at [t] and whose network is down. *)
Definition offline (t : Z) : World :=
  mkWorld (fun _ => t) (fun _ => Err (Error "network")).

(** A world that answers the requests of a table and no other. *)
Definition online (t : Z) (answers : list (string * Response)) : World :=
  mkWorld (fun _ => t)
    (fun u => match find (fun e => String.eqb (fst e) u) answers with
              | Some e => Ok (snd e)
              | None => Err (Error "network")
              end).

(** The page of the test of the detector for WordPress, with a link in its
    title. *)
Definition wp_html : string :=
  "<html><head><meta name='generator' content='WordPress 6.0'></head><body><article class='post'><h2 class='entry-title'><a href='/hello-world'>Blog Post</a></h2></article></body></html>".

Definition wp_dom : Dom.Document :=
  [ Dom.Elem "html" []
      [ Dom.Elem "head" []
          [ Dom.Elem "meta" [("name", "generator"); ("content", "WordPress 6.0")] [] ];
        Dom.Elem "body" []
          [ Dom.Elem "article" [("class", "post")]
              [ Dom.Elem "h2" [("class", "entry-title")]
                  [ Dom.Elem "a" [("href", "/hello-world")]
                      [ Dom.Text "Blog Post" ] ] ] ] ] ].

Definition wp_url : string := "https://example-blog.com".

(** The same page with a style sheet of the theme, which names
    [wp-content]. *)
Definition wp2_html : string :=
  "<html><head><meta name='generator' content='WordPress 6.0'><link rel='stylesheet' href='/wp-content/themes/x/style.css'></head><body><article class='post'><h2 class='entry-title'><a href='/hello-world'>Blog Post</a></h2></article></body></html>".

Definition wp2_dom : Dom.Document :=
  [ Dom.Elem "html" []
      [ Dom.Elem "head" []
          [ Dom.Elem "meta" [("name", "generator"); ("content", "WordPress 6.0")] [];
            Dom.Elem "link"
              [("rel", "stylesheet"); ("href", "/wp-content/themes/x/style.css")] [] ];
        Dom.Elem "body" []
          [ Dom.Elem "article" [("class", "post")]
              [ Dom.Elem "h2" [("class", "entry-title")]
                  [ Dom.Elem "a" [("href", "/hello-world")]
                      [ Dom.Text "Blog Post" ] ] ] ] ] ].

(** A page of that theme whose article has the class [post-title] itself
    and an anchor before its heading. *)
Definition wp3_html : string :=
  "<html><head><meta name='generator' content='WordPress 6.0'><link rel='stylesheet' href='/wp-content/themes/x/style.css'></head><body><article class='post-title'><a href='/first'>First</a><h2 class='entry-title'><a href='/second'>Second</a></h2></article></body></html>".

Definition wp3_dom : Dom.Document :=
  [ Dom.Elem "html" []
      [ Dom.Elem "head" []
          [ Dom.Elem "meta" [("name", "generator"); ("content", "WordPress 6.0")] [];
            Dom.Elem "link"
              [("rel", "stylesheet"); ("href", "/wp-content/themes/x/style.css")] [] ];
        Dom.Elem "body" []
          [ Dom.Elem "article" [("class", "post-title")]
              [ Dom.Elem "a" [("href", "/first")] [ Dom.Text "First" ];
                Dom.Elem "h2" [("class", "entry-title")]
                  [ Dom.Elem "a" [("href", "/second")] [ Dom.Text "Second" ] ] ] ] ] ].

(** A page with two posts that link to the same address. *)
Definition twins_html : string :=
  "<html><body><article><h1>First post</h1><a href='/post'>more</a></article><article><h1>Second post</h1><a href='/post'>more</a></article></body></html>".

Definition twins_dom : Dom.Document :=
  [ Dom.Elem "html" []
      [ Dom.Elem "body" []
          [ Dom.Elem "article" []
              [ Dom.Elem "h1" [] [ Dom.Text "First post" ];
                Dom.Elem "a" [("href", "/post")] [ Dom.Text "more" ] ];
            Dom.Elem "article" []
              [ Dom.Elem "h1" [] [ Dom.Text "Second post" ];
                Dom.Elem "a" [("href", "/post")] [ Dom.Text "more" ] ] ] ] ].

(** A news page with [n] stories. *)
Definition story_html : string := "<article><h1>News item</h1></article>".

Definition story : Dom.node :=
  Dom.Elem "article" [] [ Dom.Elem "h1" [] [ Dom.Text "News item" ] ].

Definition news_html (n : nat) : string :=
  "<html><head><script type='application/ld+json'>{" ++ dq ++ "@type" ++ dq
    ++ ":" ++ dq ++ "NewsArticle" ++ dq ++ "}</script></head><body>"
    ++ String.concat "" (repeat story_html n) ++ "</body></html>".

Definition news_dom (n : nat) : Dom.Document :=
  [ Dom.Elem "html" []
      [ Dom.Elem "head" []
          [ Dom.Elem "script" [("type", "application/ld+json")]
              [ Dom.Text ("{" ++ dq ++ "@type" ++ dq ++ ":" ++ dq ++ "NewsArticle"
                            ++ dq ++ "}") ] ];
        Dom.Elem "body" [] (repeat story n) ] ].

Definition site : string := "https://example.com".

(** The rules of the generic detector, and classifications as the loop of
    the coordinator builds them. *)
Definition generic_info (u : string) : SiteInfo :=
  assign (initial u) (detectGeneric [] u "").

Definition wp_info : SiteInfo :=
  assign (initial wp_url) (detectWordPress wp_dom wp_url wp_html).

Definition wp2_info : SiteInfo :=
  assign (initial wp_url) (detectWordPress wp2_dom wp_url wp2_html).

Definition wp3_info : SiteInfo :=
  assign (initial wp_url) (detectWordPress wp3_dom wp_url wp3_html).

Definition news_info (n : nat) : SiteInfo :=
  assign (initial site) (detectNews (news_dom n) site (news_html n)).

(** A classification for the Movable Type strategy, with the generic
    rules. *)
Definition movable_info (u : string) : SiteInfo :=
  mkSiteInfo u "blog" "movable-type" 60 (selectors (generic_info u)) [].

Definition pages : list (string * Dom.Document) :=
  [ (wp_html, wp_dom); (wp2_html, wp2_dom); (twins_html, twins_dom);
    (news_html 21, news_dom 21) ].

Definition rt : Runtime := runtime pages [].

Definition wp3_rt : Runtime := runtime [ (wp3_html, wp3_dom) ] [].

(** The front page of a Movable Type blog with two recent posts, and the
    page of the first of them.  The second cannot be fetched. *)
Definition mt_url : string := "https://www.ruanyifeng.com/blog/".

Definition mt_html : string :=
  "<html><body><div id='homepage'><ul><li class='module-list-item'><a href='/blog/2024/01/a.html'>Post A</a></li><li class='module-list-item'><a href='/blog/2024/01/b.html'>Post B</a></li></ul></div></body></html>".

Definition mt_dom : Dom.Document :=
  [ Dom.Elem "html" []
      [ Dom.Elem "body" []
          [ Dom.Elem "div" [("id", "homepage")]
              [ Dom.Elem "ul" []
                  [ Dom.Elem "li" [("class", "module-list-item")]
                      [ Dom.Elem "a" [("href", "/blog/2024/01/a.html")]
                          [ Dom.Text "Post A" ] ];
                    Dom.Elem "li" [("class", "module-list-item")]
                      [ Dom.Elem "a" [("href", "/blog/2024/01/b.html")]
                          [ Dom.Text "Post B" ] ] ] ] ] ] ].

Definition post_body : list Dom.node :=
  [ Dom.Elem "p" []
      [ Dom.Text "A first paragraph that is long enough to count as the full text of the post, with some more words." ];
    Dom.Elem "img" [("src", "/images/a.png")] [] ].

Definition post_html : string :=
  "<html><body><div class='asset-body'><p>A first paragraph that is long enough to count as the full text of the post, with some more words.</p><img src='/images/a.png'></div></body></html>".

Definition post_dom : Dom.Document :=
  [ Dom.Elem "html" []
      [ Dom.Elem "body" []
          [ Dom.Elem "div" [("class", "asset-body")] post_body ] ] ].

(** The markup of the post, parsed again by itself, is a document. *)
Definition post_alone : Dom.Document :=
  [ Dom.Elem "html" [] [ Dom.Elem "head" [] []; Dom.Elem "body" [] post_body ] ].

Definition mt_rt : Runtime :=
  runtime
    [ (mt_html, mt_dom); (post_html, post_dom); (write post_body, post_alone) ] [].

Definition mt_world : World :=
  online 0 [ ("https://www.ruanyifeng.com/blog/2024/01/a.html",
              mkResponse true 200 post_html) ].

Definition mt_parser : ContentParser :=
  mkContentParser (movable_info mt_url) "https://www.ruanyifeng.com".

(** The pages and classifications of the parsing tests of the repository
    (without the indentation of their markup). *)
Definition blog_test_html : string :=
  "<article><h2 class='entry-title'><a href='/post1'>Test Article</a></h2><div class='entry-content'>This is the article content.</div><time class='published' datetime='2024-09-25'>September 25, 2024</time></article>".

Definition blog_test_dom : Dom.Document :=
  [ Dom.Elem "html" []
      [ Dom.Elem "head" [] [];
        Dom.Elem "body" []
          [ Dom.Elem "article" []
              [ Dom.Elem "h2" [("class", "entry-title")]
                  [ Dom.Elem "a" [("href", "/post1")] [ Dom.Text "Test Article" ] ];
                Dom.Elem "div" [("class", "entry-content")]
                  [ Dom.Text "This is the article content." ];
                Dom.Elem "time" [("class", "published"); ("datetime", "2024-09-25")]
                  [ Dom.Text "September 25, 2024" ] ] ] ] ].

Definition blog_test_info : SiteInfo :=
  mkSiteInfo "https://blog.example.com" "blog" "wordpress" 0
    [ ("articles", Dom.css "article"); ("title", Dom.css ".entry-title");
      ("content", Dom.css ".entry-content"); ("link", Dom.css "a");
      ("date", Dom.css ".published") ] [].

Definition portfolio_test_html : string :=
  "<div class='project'><h3 class='project-title'>Design Project</h3><p class='project-description'>A modern web design project</p><a href='/project/design'>View Project</a><img src='/images/project.jpg' alt='Project Image' /></div>".

Definition portfolio_test_dom : Dom.Document :=
  [ Dom.Elem "html" []
      [ Dom.Elem "head" [] [];
        Dom.Elem "body" []
          [ Dom.Elem "div" [("class", "project")]
              [ Dom.Elem "h3" [("class", "project-title")] [ Dom.Text "Design Project" ];
                Dom.Elem "p" [("class", "project-description")]
                  [ Dom.Text "A modern web design project" ];
                Dom.Elem "a" [("href", "/project/design")] [ Dom.Text "View Project" ];
                Dom.Elem "img" [("src", "/images/project.jpg"); ("alt", "Project Image")]
                  [] ] ] ] ].

Definition portfolio_test_info : SiteInfo :=
  mkSiteInfo "https://portfolio.example.com" "portfolio" "portfolio" 0
    [ ("articles", Dom.css ".project"); ("title", Dom.css ".project-title");
      ("content", Dom.css ".project-description"); ("link", Dom.css "a");
      ("image", Dom.css "img") ] [].

Definition test_rt : Runtime :=
  runtime [ (blog_test_html, blog_test_dom);
            (portfolio_test_html, portfolio_test_dom) ] [].

(** A portfolio page that links to its embedded data, and the data: one
    node, whose interaction opens [/my-project]. *)
Definition quoted (s : string) : string := dq ++ s ++ dq.

Definition figma_html : string :=
  "<html><head><link rel=" ++ quoted "preload" ++ " href="
    ++ quoted "/_json/abc/home.json" ++ "></head><body></body></html>".

Definition figma_dom : Dom.Document :=
  [ Dom.Elem "html" []
      [ Dom.Elem "head" []
          [ Dom.Elem "link" [("rel", "preload"); ("href", "/_json/abc/home.json")] [] ];
        Dom.Elem "body" [] [] ] ].

Definition figma_json : string :=
  "{" ++ quoted "nodeById" ++ ":{" ++ quoted "1:2" ++ ":{" ++ quoted "interactions"
    ++ ":[{" ++ quoted "actions" ++ ":[{" ++ quoted "connectionURL" ++ ":"
    ++ quoted "/my-project" ++ "}]}]}}}".

Definition figma_payload : Payload :=
  Some [ ("1:2",
          NodeOf [ InteractionFirst (ActionOf (StringValue "/my-project")) ]
            false NoValue) ].

Definition figma_rt : Runtime :=
  runtime [ (figma_html, figma_dom) ] [ (figma_json, Some figma_payload) ].

Definition figma_world (t : Z) : World :=
  online t [ ("https://portfolio.example.com/_json/abc/home.json",
              mkResponse true 200 figma_json) ].

Definition figma_parser : ContentParser :=
  mkContentParser portfolio_test_info "https://portfolio.example.com".

(** A portfolio page that links to embedded data and lists a project in
    its markup, with the classification the detector for portfolios gives
    it. *)
Definition listed_url : string := "https://portfolio.example.com".

Definition listed_html : string :=
  "<html><head><link rel=" ++ quoted "preload" ++ " href="
    ++ quoted "/_json/abc/home.json"
    ++ "></head><body><div class='project'><h3 class='project-title'>Design Project</h3><a class='project-link' href='/project/design'>View Project</a></div></body></html>".

Definition listed_dom : Dom.Document :=
  [ Dom.Elem "html" []
      [ Dom.Elem "head" []
          [ Dom.Elem "link" [("rel", "preload"); ("href", "/_json/abc/home.json")] [] ];
        Dom.Elem "body" []
          [ Dom.Elem "div" [("class", "project")]
              [ Dom.Elem "h3" [("class", "project-title")] [ Dom.Text "Design Project" ];
                Dom.Elem "a" [("class", "project-link"); ("href", "/project/design")]
                  [ Dom.Text "View Project" ] ] ] ] ].

Definition listed_info : SiteInfo :=
  assign (initial listed_url) (detectPortfolio listed_dom listed_url listed_html).

Definition listed_parser : ContentParser :=
  mkContentParser listed_info "https://portfolio.example.com".

(** A news page whose only story has no headline, with the classification
    the detector for news gives it. *)
Definition untitled_html : string :=
  "<html><head><script type='application/ld+json'>{" ++ quoted "@type" ++ ":"
    ++ quoted "NewsArticle"
    ++ "}</script></head><body><article><p>A story without a headline.</p></article></body></html>".

Definition untitled_dom : Dom.Document :=
  [ Dom.Elem "html" []
      [ Dom.Elem "head" []
          [ Dom.Elem "script" [("type", "application/ld+json")]
              [ Dom.Text ("{" ++ quoted "@type" ++ ":" ++ quoted "NewsArticle" ++ "}") ] ];
        Dom.Elem "body" []
          [ Dom.Elem "article" []
              [ Dom.Elem "p" [] [ Dom.Text "A story without a headline." ] ] ] ] ].

Definition untitled_info : SiteInfo :=
  assign (initial site) (detectNews untitled_dom site untitled_html).

Definition untitled_parser : ContentParser :=
  mkContentParser untitled_info "https://example.com".

Definition fallback_rt : Runtime :=
  runtime [ (listed_html, listed_dom); (untitled_html, untitled_dom) ] [].

(** The classification of the blog parsing test, with the platform the
    test suite expects for the Movable Type blog it fetches. *)
Definition movable_test_info : SiteInfo :=
  mkSiteInfo (url blog_test_info) (type blog_test_info) "movable-type"
    (confidence blog_test_info) (selectors blog_test_info) [].

(** Caches with no entry, and a generator of feeds for the examples: it
    writes the message of an error, or the titles of the records. *)
Definition no_entry : CacheReads :=
  mkCacheReads (fun _ => false) (fun _ => None) (fun _ => None) (fun _ => None).

Definition feed_of (titles : list string) : string :=
  "<rss><channel>"
    ++ String.concat "" (map (fun t => "<item>" ++ t ++ "</item>") titles)
    ++ "</channel></rss>".

Definition sample_generator : Generator :=
  mkGenerator
    (fun articles _ => pure (feed_of (map title articles)))
    (fun _ _ => pure (feed_of []))
    (fun error _ => ret (feed_of [message_of error]))
    (fun rssXML => pure (JsString.startsWith rssXML "<rss>")).

(** Caches that hold the errors of [urls] and nothing else. *)
Definition error_only (urls : list string) : CacheReads :=
  mkCacheReads (fun u => existsb (String.eqb u) urls) (fun _ => None)
    (fun _ => None) (fun _ => None).

(** A page whose story is dated with a word. *)
Definition stale_html : string :=
  "<html><body><article><h1>Dated story</h1><time>yesterday</time></article></body></html>".

Definition stale_dom : Dom.Document :=
  [ Dom.Elem "html" []
      [ Dom.Elem "body" []
          [ Dom.Elem "article" []
              [ Dom.Elem "h1" [] [ Dom.Text "Dated story" ];
                Dom.Elem "time" [] [ Dom.Text "yesterday" ] ] ] ] ].

Definition stale_rt : Runtime := runtime [ (stale_html, stale_dom) ] [].

End Sample.

(* ================================================================== *)
(** ** Notions the properties are stated with *)

(** Whether the generic strategy takes an element: it has a title of more
    than five characters. *)
Definition generic_takes (this : ContentParser) (el : Dom.element) : bool :=
  let title := extractText el (rule "title" (selectors (siteInfo this))) in
  negb (String.eqb title "") && (JsString.len title >? 5).

(** The text is ASCII: the characters on which a string of the program and
    its embedding agree one to one, white space included. *)
Definition ascii_text (s : string) : bool :=
  forallb (fun c => (nat_of_ascii c <? 128)%nat) (list_ascii_of_string s).

(** Every character. *)
Definition all_chars : list ascii := map ascii_of_nat (seq 0 256).

(** Every string of at most [n] characters. *)
Fixpoint strings_upto (n : nat) : list string :=
  match n with
  | O => [EmptyString]
  | S n' =>
      EmptyString
      :: flat_map (fun s => map (fun c => String c s) all_chars) (strings_upto n')
  end.

(** The string of [n] letters [a]. *)
Fixpoint pad_a (n : nat) : string :=
  match n with
  | O => EmptyString
  | S n' => String "a" (pad_a n')
  end.

(** The links of the records of a store. *)
Definition links (l : list Marked) : list string := map (fun m => link (fst m)) l.

(** The records have distinct links, all of them among the links seen. *)
Definition mt_inv (st : MtState) : Prop :=
  NoDup (links (fst st)) /\ forall m, In m (fst st) -> In (link (fst m)) (snd st).

(** A turn of either loop keeps the state or appends one record, whose
    link was not seen before. *)
Definition appends (st st' : MtState) : Prop :=
  st' = st
  \/ exists a flag,
       st' = ((fst st ++ [(a, flag)])%list, link a :: snd st)
       /\ has (snd st) (link a) = false.

(** What the loop does to a marked record it reaches. *)
Definition fetched (rt : Runtime) (w : World) (m : Marked) : Marked :=
  (enriched rt w (fst m), false).

(** The request for the embedded data fails, is refused, or is answered
    with a payload that does not parse. *)
Definition payload_fails (rt : Runtime) (w : World) (u : string) : Prop :=
  match fetch w u with
  | Err _ => True
  | Ok response => ok response = false \/ JSON_parse rt (body response) = None
  end.

(** A record with its date blanked. *)
Definition undated (a : Article) : Article :=
  mkArticle (title a) (link a) (description a) (content a) "" (guid a)
    (image a) (author a) (category a).

(** A marked record with its date blanked. *)
Definition unmark (m : Marked) : Marked := (undated (fst m), snd m).

(** The page goes to the strategy of the embedded data. *)
Definition embedded_data (this : ContentParser) (html : string) : bool :=
  String.eqb (type (siteInfo this)) "portfolio"
  && (JsString.includes html "_json/" && JsString.includes html ".json").

(** Two stores of the Movable Type strategy that differ in dates only. *)
Definition same_store (st1 st2 : MtState) : Prop :=
  map unmark (fst st1) = map unmark (fst st2) /\ snd st1 = snd st2.

(** A digit of a hexadecimal number in lower case. *)
Definition is_hex (c : ascii) : bool :=
  let n := nat_of_ascii c in
  (((48 <=? n) && (n <=? 57)) || ((97 <=? n) && (n <=? 102)))%nat.

(** Every character of the string passes [p]. *)
Fixpoint every (p : ascii -> bool) (s : string) : bool :=
  match s with
  | EmptyString => true
  | String c s' => p c && every p s'
  end.

(** Any character but [ch]. *)
Definition is_not (ch : ascii) (x : ascii) : bool := negb (Ascii.eqb x ch).

(** The link of a record is not empty, and its identifier is that of its
    link. *)
Definition linked (this : ContentParser) (a : Article) : Prop :=
  link a <> "" /\ guid a = generateGuid this (link a).

(** The record links to the site itself. *)
Definition site_linked (this : ContentParser) (a : Article) : Prop :=
  link a = url (siteInfo this) /\ guid a = generateGuid this (url (siteInfo this)).

(** The link and the image of a record are absolute addresses. *)
Definition absolute (a : Article) : Prop :=
  JsString.startsWith (link a) "http" = true
  /\ forall src, image a = Some src -> JsString.startsWith src "http" = true.

(** The date of the record is the writing of a time. *)
Definition dated (rt : Runtime) (a : Article) : Prop :=
  exists t, pubDate a = toUTCString rt t.

(** What every record of the Movable Type strategy has. *)
Definition mt_record (this : ContentParser) (a : Article) : Prop :=
  title a <> "" /\ link a <> "" /\ guid a = generateGuid this (link a)
  /\ content a <> "" /\ author a = Some "阮一峰" /\ category a = Some "Blog"
  /\ image a = None.

(** The fields that the secondary fetch leaves alone. *)
Definition kept_fields (a : Article)
  : string * string * string * string * option string * option string
    * option string :=
  (title a, link a, pubDate a, guid a, image a, author a, category a).

(** What every record of the walk over the embedded data has: a record of
    a project links to a path of the site, a record of a text to the page
    itself. *)
Definition figma_record (this : ContentParser) (a : Article) : Prop :=
  category a = Some "Design" /\ author a = None /\ image a = None
  /\ ((exists p,
         link a = baseUrl this ++ p /\ JsString.startsWith p "/" = true
         /\ JsString.includes p "http" = false)
      \/ (link a = url (siteInfo this)
          /\ (String.length (title a) <= 60)%nat
          /\ (String.length (description a) < 200)%nat)).

Definition figma_records (this : ContentParser) (st : FigmaState) : Prop :=
  Forall (figma_record this) (fst st).

(** The style and the site that [cleanRuanyifengContent] writes. *)
Definition img_style : string := "max-width: 100%; height: auto;".

Definition blog_site : string := "https://www.ruanyifeng.com".

(** The elements that [cleanRuanyifengContent] removes. *)
Definition footers : Dom.selector :=
  Dom.css ".asset-footer, .entry-footer, .comments, #comments, .trackbacks, .related-posts".

Definition scripts : Dom.selector := Dom.css "script, style, .advertisement".

(** The document that [cleanRuanyifengContent] writes out. *)
Definition cleaned (rt : Runtime) (content : string) : Dom.Document :=
  rewrite (Dom.css "a") fix_link
    (rewrite (Dom.css "img") fix_img
       (remove scripts (remove footers (load rt content)))).

(** A selector that asks for no attribute value: it reads tags, ids and
    classes only. *)
Definition plain (sel : Dom.selector) : bool :=
  forallb (forallb (fun c => match Dom.c_attrs c with [] => true | _ => false end))
    sel.

(** Two elements with the same tag, id and classes. *)
Definition alike (e e' : string * Dom.attrs) : Prop :=
  fst e = fst e'
  /\ Dom.get_attr "id" (snd e) = Dom.get_attr "id" (snd e')
  /\ Dom.get_attr "class" (snd e) = Dom.get_attr "class" (snd e').

(** The selector that is the name of a tag. *)
Definition tag_only (t : string) : Dom.selector :=
  [[Dom.mkCompound (Some t) None [] []]].

(** Whether a write is one of a feed, of a classification, or of an error
    for [url]. *)
Definition is_CacheRSS (c : CacheWrite) : bool :=
  match c with CacheRSS _ _ _ => true | _ => false end.

Definition is_CacheSiteInfo (c : CacheWrite) : bool :=
  match c with CacheSiteInfo _ _ _ => true | _ => false end.

Definition is_error_of (url : string) (c : CacheWrite) : bool :=
  match c with
  | AddToErrorCache u _ _ => String.eqb u url
  | _ => false
  end.

(** The request names a URL that parses. *)
Definition names_url (rt : Runtime) (req : Request) : bool :=
  match query_url req with
  | Some url =>
      negb (String.eqb url "")
      && match URL_origin rt url with Some _ => true | None => false end
  | None => false
  end.

(** The reply carries a feed of the site: one it made ([X-Cache: MISS]) or
    one of the cache ([X-Cache: HIT]). *)
Definition carries_feed (reply : Reply) : bool :=
  existsb (fun h => String.eqb (fst h) "X-Cache") (headers reply).

(** The caches answer with a feed or with a classification only when one
    was written before. *)
Definition holds_written (written : list CacheWrite) (cacheManager : CacheReads)
  : Prop :=
  (forall url, getCachedRSS cacheManager url <> None ->
     existsb is_CacheRSS written = true)
  /\ (forall url, getCachedSiteInfo cacheManager url <> None ->
        existsb is_CacheSiteInfo written = true).

(** A run of requests whose caches hold [written] at its start and answer,
    at each request, from what was written until then. *)
Fixpoint from_caches (rt : Runtime) (w : World) (rssGenerator : Generator)
  (statusText : string -> string) (requests : list (Request * CacheReads))
  (written : list CacheWrite) (k : nat) : Prop :=
  match requests with
  | [] => True
  | (req, cacheManager) :: rest =>
      holds_written written cacheManager
      /\ let '(_, writes, k) :=
           handler rt w rssGenerator cacheManager statusText req k in
         from_caches rt w rssGenerator statusText rest (written ++ writes)%list k
  end.

(* ================================================================== *)
(** * Properties *)

(** ** The embedding on known values

    The digest on the test suite of RFC 1321, the string operations, the
    pattern of the embedded data, and the unit and parsing tests of the
    repository, run on the embedding. *)

Example md5_empty : MD5.hex "" = "d41d8cd98f00b204e9800998ecf8427e".
Proof. vm_compute. reflexivity. Qed.

Example md5_abc : MD5.hex "abc" = "900150983cd24fb0d6963f7d28e17f72".
Proof. vm_compute. reflexivity. Qed.

Example md5_message_digest :
  MD5.hex "message digest" = "f96b697d7cb7938d525a2f31aaf161d0".
Proof. vm_compute. reflexivity. Qed.

Example md5_digits :
  MD5.hex "12345678901234567890123456789012345678901234567890123456789012345678901234567890"
  = "57edf4a22be3c955ac49da2e2107b67a".
Proof. vm_compute. reflexivity. Qed.

Example trim_collapse :
  JsString.trim (JsString.collapse_ws "  a 	 b   ") = "a b".
Proof. reflexivity. Qed.

Example strip_tags_example :
  JsString.strip_tags "<p>a<b>c</b> 1 < 2</p> x < y" = "ac 1  x < y".
Proof. reflexivity. Qed.

Example replace_first_example :
  JsString.replace_first (JsString.replace_first "/my-cool-app" "/" "") "-" " "
  = "my cool-app".
Proof. reflexivity. Qed.

Example json_link_found :
  Pattern.search jsonUrlPattern
    ("<link rel=" ++ dq ++ "preload" ++ dq ++ " as=" ++ dq ++ "fetch" ++ dq
       ++ " href=" ++ dq ++ "/_json/abc/home.json" ++ dq ++ "><a href=" ++ dq
       ++ "/x" ++ dq ++ ">")
  = Some "/_json/abc/home.json".
Proof. vm_compute. reflexivity. Qed.

(** The test of the identifiers: equal for equal seeds, different for the
    two seeds of the test, with the prefix. *)
Example guid_test :
  let parser :=
    mkContentParser (mkSiteInfo "https://example.com" "blog" "" 0 [] [])
      "https://example.com" in
  generateGuid parser "test-article" = "rssos-ab35aebcb093df62"
  /\ generateGuid parser "different-article" = "rssos-6f417a95ecd0f4c1".
Proof. vm_compute. split; reflexivity. Qed.

(** The test of the summary. *)
Example summary_test :
  generateSummary "Short text" 100 = "Short text"
  /\ generateSummary "AAAAAAAAAAAAAAAAAAAA" 10 = "AAAAAAAAAA...".
Proof. vm_compute. split; reflexivity. Qed.

(** The test that parses a post of a blog. *)
(** A descendant selector under [find]: the element the search starts
    from may stand for a compound left of the last one; an ancestor of it
    may not, and the element is no match itself. *)
Example find_includes_its_scope :
  let first_ := Dom.Elem "a" [("href", "/first")] [Dom.Text "First"] in
  let second := Dom.Elem "a" [("href", "/second")] [Dom.Text "Second"] in
  let heading := Dom.Elem "h2" [("class", "entry-title")] [second] in
  let article :=
    Dom.mkElement [("body", []); ("html", [])] "article" [("class", "post-title")]
      [first_; heading] in
  let h2 :=
    Dom.mkElement [("article", [("class", "post-title")]); ("body", []); ("html", [])]
      "h2" [("class", "entry-title")] [second] in
  map (fun e => Dom.get_attr "href" (Dom.att e))
    (Dom.find article (Dom.css ".entry-title a, .post-title a"))
  = [Some "/first"; Some "/second"]
  /\ map (fun e => Dom.get_attr "href" (Dom.att e))
       (Dom.find h2 (Dom.css ".entry-title a"))
     = [Some "/second"]
  /\ Dom.find h2 (Dom.css ".post-title a") = []
  /\ Dom.find h2 (Dom.css ".entry-title") = [].
Proof. vm_compute. repeat split. Qed.

Example blog_parsing_test :
  parseContent Sample.test_rt (Sample.offline 0)
    (mkContentParser Sample.blog_test_info "https://blog.example.com")
    Sample.blog_test_html 0%nat
  = ([ mkArticle "Test Article" "https://blog.example.com/post1"
         "This is the article content." "This is the article content."
         "Wed, 25 Sep 2024 00:00:00 GMT" "rssos-d43c3f3e7f042a47"
         None (Some "Unknown") None ],
     0%nat).
Proof. vm_compute. reflexivity. Qed.

(** The test that parses a project of a portfolio. *)
Example portfolio_parsing_test :
  parseContent Sample.test_rt (Sample.offline 0)
    (mkContentParser Sample.portfolio_test_info "https://portfolio.example.com")
    Sample.portfolio_test_html 0%nat
  = ([ mkArticle "Design Project" "https://portfolio.example.com/project/design"
         "A modern web design project"
         ("<h2>Design Project</h2><img src=" ++ dq
            ++ "https://portfolio.example.com/images/project.jpg" ++ dq ++ " alt="
            ++ dq ++ "Design Project" ++ dq ++ " style=" ++ dq
            ++ "max-width: 100%; height: auto; margin: 10px 0;" ++ dq
            ++ "/><p>A modern web design project</p>")
         "Thu, 01 Jan 1970 00:00:00 GMT" "rssos-e7aaae83aec8afa4"
         (Some "https://portfolio.example.com/images/project.jpg") None None ],
     1%nat).
Proof. vm_compute. reflexivity. Qed.

(** ** Strings *)

Lemma length_append (a b : string) :
  String.length (a ++ b) = (String.length a + String.length b)%nat.
Proof.
  induction a as [|c a IH]; simpl; [reflexivity | now rewrite IH].
Qed.

Lemma substring_0_length (n : nat) (s : string) :
  (n <= String.length s)%nat -> String.length (String.substring 0 n s) = n.
Proof.
  revert s; induction n as [|n IH]; intros s Hn.
  - destruct s; reflexivity.
  - destruct s as [|c s]; simpl in *; [lia|].
    rewrite IH; [reflexivity | lia].
Qed.

Lemma substring_prefix_length (s : string) (n : nat) :
  (n <= String.length s)%nat ->
  String.length (JsString.substring s 0 (Z.of_nat n)) = n.
Proof.
  intros Hn. unfold JsString.substring, JsString.clampZ, JsString.len.
  replace (Z.to_nat (Z.min (Z.max 0 0) (Z.of_nat (String.length s)))) with 0%nat by lia.
  replace (Z.to_nat (Z.min (Z.max 0 (Z.of_nat n)) (Z.of_nat (String.length s))))
    with n by lia.
  rewrite Nat.min_0_l, Nat.max_0_l, Nat.sub_0_r.
  now apply substring_0_length.
Qed.

(** What [substring(0, n)] keeps is never longer than [n]. *)
Lemma substring_0_le (n : nat) (s : string) :
  (String.length (String.substring 0 n s) <= n)%nat.
Proof.
  revert s; induction n as [|n IH]; intros s.
  - destruct s; simpl; lia.
  - destruct s as [|c s]; simpl; [lia|]. specialize (IH s). lia.
Qed.

Lemma prefix_empty (s : string) : String.prefix "" s = true.
Proof. destruct s; reflexivity. Qed.

Lemma prefix_append (p s : string) : String.prefix p (p ++ s) = true.
Proof.
  induction p as [|c p IH]; simpl; [apply prefix_empty|].
  destruct (ascii_dec c c) as [_|H]; [exact IH | now elim H].
Qed.

Lemma prefix_refl (s : string) : String.prefix s s = true.
Proof.
  induction s as [|c s IH]; simpl; [reflexivity|].
  destruct (ascii_dec c c) as [_|H]; [exact IH | now elim H].
Qed.

Lemma includes_suffix (p s : string) : JsString.includes (p ++ s) s = true.
Proof.
  induction p as [|c p IH].
  - destruct s as [|c s]; [reflexivity|].
    cbn [append]. unfold JsString.includes; fold JsString.includes.
    now rewrite prefix_refl.
  - cbn [append]. unfold JsString.includes; fold JsString.includes.
    rewrite IH. apply orb_true_r.
Qed.

Lemma includes_self (s : string) : JsString.includes s s = true.
Proof. exact (includes_suffix "" s). Qed.

(** ** The summary ([generateSummary]) *)

(** C9.  For a text whose form with whitespace collapsed and trimmed is
    longer than [maxLength], [generateSummary] returns the first
    [maxLength] characters of that form followed by the marker ["..."], a
    string of length [maxLength + 3]; for a text whose collapsed form is no
    longer than [maxLength] it returns the collapsed form unchanged.
    [maxLength] ranges over the lengths, the natural numbers. *)
Theorem generateSummary_bound :
  forall (text : string) (maxLength : nat),
    let clean := JsString.trim (JsString.collapse_ws text) in
    ((maxLength < String.length clean)%nat ->
       generateSummary text (Z.of_nat maxLength)
         = JsString.substring clean 0 (Z.of_nat maxLength) ++ "..."
       /\ String.length (generateSummary text (Z.of_nat maxLength))
          = (maxLength + 3)%nat)
    /\ ((String.length clean <= maxLength)%nat ->
       generateSummary text (Z.of_nat maxLength) = clean).
Proof.
  intros text maxLength clean. unfold generateSummary.
  destruct (String.eqb_spec text "") as [->|Hne].
  - split; intro H; [simpl in H; lia | reflexivity].
  - fold clean. unfold JsString.len. split; intro H.
    + replace (Z.of_nat (String.length clean) >? Z.of_nat maxLength) with true
        by (symmetry; rewrite Z.gtb_ltb; apply Z.ltb_lt; lia).
      split; [reflexivity|].
      rewrite length_append, substring_prefix_length by lia. reflexivity.
    + replace (Z.of_nat (String.length clean) >? Z.of_nat maxLength) with false
        by (symmetry; rewrite Z.gtb_ltb; apply Z.ltb_ge; lia).
      reflexivity.
Qed.

Lemma generateSummary_bound_witness :
  generateSummary "  The quick   brown fox " 9 = "The quick..."
  /\ String.length (generateSummary "  The quick   brown fox " 9) = 12%nat
  /\ generateSummary " a   b " 200 = "a b".
Proof.
  destruct (generateSummary_bound "  The quick   brown fox " 9) as [Hlong _].
  destruct (generateSummary_bound " a   b " 200) as [_ Hshort].
  split; [| split].
  - destruct Hlong as [H _]; [vm_compute; lia | exact H].
  - destruct Hlong as [_ H]; [vm_compute; lia | exact H].
  - apply Hshort. vm_compute. lia.
Defined.

(** ** The coordinator ([detectSiteType]) *)

(** C1.  [detectSiteType] throws on every page: the second entry of
    [this.detectors] is [undefined], and the loop calls it after the
    detector for WordPress has run.  No classification is returned, for an
    empty document as for any other. *)
Theorem detectSiteType_throws :
  forall (rt : Runtime) (html url : string),
    detectSiteType rt html url
    = Err (TypeError "Cannot read properties of undefined (reading 'call')").
Proof. intros rt html url. reflexivity. Qed.

(** C6.  The coordinator chooses no result.  On every page its loop
    compares the candidate of the detector for WordPress with the running
    result, by the strict comparison of [keep_best], and throws at the
    second entry of [this.detectors], which is [undefined]: the six
    detectors after it are never called and no result is returned.  The
    last of them, the generic one, outputs confidence 10 on every page; a
    chosen result of confidence no smaller than every detector's output
    would have confidence 10 at least, and there is none. *)
Theorem coordinator_chooses_nothing :
  forall (rt : Runtime) (html url : string),
    let dom := load rt html in
    (forall s, detectSiteType rt html url <> Ok s)
    /\ (exists rest,
          detectors = Some detectWordPress :: None :: rest
          /\ In (Some detectGeneric) rest
          /\ detectSiteType rt html url
             = run_detectors (None :: rest) dom url html
                 (keep_best (initial url) (detectWordPress dom url html)))
    /\ r_confidence (detectGeneric dom url html) = 10.
Proof.
  intros rt html url dom. split; [intros s H; discriminate H|]. split.
  - eexists. split; [reflexivity|]. split; [|reflexivity]. simpl. auto 10.
  - reflexivity.
Qed.

(** ** The constructor of the parser *)

(** C10.  Constructing a parser evaluates [new URL(siteInfo.url).origin]:
    when the URL of [siteInfo] does not parse, the constructor throws, and
    so does [extract], before any strategy runs; when it parses, the parser
    holds its origin and no step of [extract] throws. *)
Theorem new_ContentParser_needs_url :
  forall (rt : Runtime) (w : World) (siteInfo : SiteInfo) (html : string) (k : nat),
    (URL_origin rt (url siteInfo) = None ->
       new_ContentParser rt siteInfo = Err (TypeError "Invalid URL")
       /\ extract rt w siteInfo html k = Err (TypeError "Invalid URL"))
    /\ (forall origin, URL_origin rt (url siteInfo) = Some origin ->
          new_ContentParser rt siteInfo = Ok (mkContentParser siteInfo origin)
          /\ extract rt w siteInfo html k
             = Ok (parseContent rt w (mkContentParser siteInfo origin) html k)).
Proof.
  intros rt w siteInfo html k. unfold extract, new_ContentParser.
  split; [intros -> | intros origin ->]; split; reflexivity.
Qed.

Lemma new_ContentParser_needs_url_witness :
  extract (Sample.runtime [] []) (Sample.offline 0)
    (mkSiteInfo "example.com/blog" "generic" "unknown" 10 [] []) "" 0
  = Err (TypeError "Invalid URL").
Proof.
  apply (new_ContentParser_needs_url (Sample.runtime [] []) (Sample.offline 0)
           (mkSiteInfo "example.com/blog" "generic" "unknown" 10 [] []) "" 0).
  reflexivity.
Defined.

(** ** Loops over the matched elements *)

Lemma each_cons (body : Z -> Dom.element -> Clock (option Article)) (index : Z)
  (element : Dom.element) (rest : list Dom.element) (k : nat) :
  each body index (element :: rest) k
  = (match fst (body index element k) with
     | Some a => a :: fst (each body (index + 1) rest (snd (body index element k)))
     | None => fst (each body (index + 1) rest (snd (body index element k)))
     end,
     snd (each body (index + 1) rest (snd (body index element k)))).
Proof.
  simpl. unfold seq_clock, ret.
  destruct (body index element k) as [pushed k1]. simpl.
  destruct (each body (index + 1) rest k1) as [articles k2]. reflexivity.
Qed.

(** Every element for which the body pushes a record has its record in
    the result. *)
Lemma each_In (body : Z -> Dom.element -> Clock (option Article))
  (P : Article -> Prop) (el : Dom.element) :
  (forall i k, exists a, fst (body i el k) = Some a /\ P a) ->
  forall els index k,
    In el els -> exists a, In a (fst (each body index els k)) /\ P a.
Proof.
  intros Hbody els. induction els as [|e els IH]; intros index k Hin; [destruct Hin|].
  rewrite each_cons. cbn [fst].
  destruct Hin as [->|Hin].
  - destruct (Hbody index k) as (a & -> & HP). exists a. split; [now left | exact HP].
  - destruct (IH (index + 1) (snd (body index e k)) Hin) as (a & Ha & HP).
    exists a. split; [|exact HP].
    destruct (fst (body index e k)); [now right | exact Ha].
Qed.

(** The records come from elements for which the body pushes one. *)
Lemma each_from (body : Z -> Dom.element -> Clock (option Article)) :
  forall els index k a,
    In a (fst (each body index els k)) ->
    exists el i k', In el els /\ fst (body i el k') = Some a.
Proof.
  induction els as [|e els IH]; intros index k a Hin; [destruct Hin|].
  rewrite each_cons in Hin. cbn [fst] in Hin.
  destruct (fst (body index e k)) as [a0|] eqn:E.
  - destruct Hin as [<-|Hin].
    + exists e, index, k. split; [now left | exact E].
    + destruct (IH _ _ _ Hin) as (el & i & k' & Hel & Hb).
      exists el, i, k'. split; [now right | exact Hb].
  - destruct (IH _ _ _ Hin) as (el & i & k' & Hel & Hb).
    exists el, i, k'. split; [now right | exact Hb].
Qed.

(** A loop pushes at most one record an element. *)
Lemma each_length (body : Z -> Dom.element -> Clock (option Article)) :
  forall els index k,
    (List.length (fst (each body index els k)) <= List.length els)%nat.
Proof.
  induction els as [|e els IH]; intros index k; [simpl; lia|].
  rewrite each_cons. cbn [fst].
  specialize (IH (index + 1) (snd (body index e k))).
  destruct (fst (body index e k)); simpl; lia.
Qed.

(** A loop whose body pushes a record for every element returns as many
    records as there are elements. *)
Lemma each_length_all (body : Z -> Dom.element -> Clock (option Article)) :
  forall els index k,
    (forall el i k', In el els -> fst (body i el k') <> None) ->
    List.length (fst (each body index els k)) = List.length els.
Proof.
  induction els as [|e els IH]; intros index k Hall; [reflexivity|].
  rewrite each_cons. cbn [fst].
  destruct (fst (body index e k)) eqn:E.
  - simpl. f_equal. apply IH. intros el i k' Hin. apply Hall. now right.
  - exfalso. apply (Hall e index k); [now left | exact E].
Qed.

(** A loop whose body pushes nothing returns nothing. *)
Lemma each_nil (body : Z -> Dom.element -> Clock (option Article)) :
  forall els index k,
    (forall el i k', In el els -> fst (body i el k') = None) ->
    fst (each body index els k) = [].
Proof.
  induction els as [|e els IH]; intros index k Hall; [reflexivity|].
  rewrite each_cons. cbn [fst].
  rewrite (Hall e index k) by now left.
  apply IH. intros el i k' Hin. apply Hall. now right.
Qed.

(** ** Links *)

Lemma append_assoc (a b c : string) : (a ++ b) ++ c = a ++ b ++ c.
Proof. induction a as [|x a IH]; simpl; [reflexivity | now rewrite IH]. Qed.

(** A resolved link ends with the address it was resolved from. *)
Lemma resolveUrl_includes (this : ContentParser) (href : string) :
  href <> "" -> JsString.includes (resolveUrl this (Some href)) href = true.
Proof.
  intro Hne. unfold resolveUrl.
  destruct (String.eqb_spec href "") as [E|_]; [contradiction|].
  destruct (JsString.startsWith href "http"); [apply includes_self|].
  destruct (JsString.startsWith href "//"); [apply includes_suffix|].
  destruct (JsString.startsWith href "/"); [apply includes_suffix|].
  rewrite <- append_assoc. apply includes_suffix.
Qed.

Lemma truthy_Some (s : string) : s <> "" -> truthy (Some s) = true.
Proof.
  intro H. unfold truthy. now destruct (String.eqb_spec s "").
Qed.

(** The link of an element whose rule finds an anchor with an address is
    that address, resolved. *)
Lemma extractLink_first (this : ContentParser) (el : Dom.element)
  (sel : Dom.selector) (anchor : Dom.element) (rest : list Dom.element)
  (href : string) :
  no_selector (Some sel) = false ->
  Dom.find el sel = anchor :: rest ->
  Dom.get_attr "href" (Dom.att anchor) = Some href ->
  href <> "" ->
  extractLink this el (Some sel) = resolveUrl this (Some href).
Proof.
  intros Hsel Hfind Hattr Hne. unfold extractLink. rewrite Hsel.
  cbn [find_rule]. rewrite Hfind. cbn [Dom.first firstn Dom.attr]. cbv zeta.
  rewrite Hattr, !(truthy_Some Hne). reflexivity.
Qed.

(** ** The scenario of a WordPress page *)

Lemma detectWordPress_result (dom : Dom.Document) (url html : string) :
  Dom.attr (Dom.select dom (Dom.css "meta[name='generator']")) "content"
  = Some "WordPress 6.0" ->
  let c := 40
           + (if JsString.includes html "wp-content"
                 || JsString.includes html "wp-includes" then 30 else 0)
           + (if Dom.hasClass (Dom.select dom (Dom.css "body")) "wp-admin-bar-front"
              then 20 else 0) in
  let r := detectWordPress dom url html in
  r_type r = "blog" /\ r_platform r = "wordpress" /\ r_confidence r = c
  /\ r_selectors r = (if c >? 50 then wordpress_rules else []).
Proof.
  intros Hgen. unfold detectWordPress. rewrite Hgen.
  change (opt_includes (Some "WordPress 6.0") "WordPress") with true.
  destruct (JsString.includes html "wp-content" || JsString.includes html "wp-includes");
    destruct (Dom.hasClass (Dom.select dom (Dom.css "body")) "wp-admin-bar-front");
    repeat split.
Qed.

(** C8, as amended.  On a page whose generator tag reads "WordPress 6.0"
    the detector for WordPress answers blog, wordpress, with a confidence of
    at least 40: exactly 40 and no selector rules when the markup names
    neither [wp-content] nor [wp-includes] and the body lacks the class
    [wp-admin-bar-front], at least 70 when the markup names one of the two.
    When its confidence exceeds 50 and its answer is the classification,
    every node matched by the rule for articles whose title text is ASCII
    and not blank gives a record with that title, not empty, and with a
    link that contains the address of the first anchor the link rule finds
    in it. *)
Theorem wordpress_scenario :
  forall (rt : Runtime) (w : World) (html url : string),
    Dom.attr (Dom.select (load rt html) (Dom.css "meta[name='generator']")) "content"
    = Some "WordPress 6.0" ->
    let r := detectWordPress (load rt html) url html in
    r_type r = "blog" /\ r_platform r = "wordpress" /\ 40 <= r_confidence r
    /\ (JsString.includes html "wp-content" = false ->
        JsString.includes html "wp-includes" = false ->
        Dom.hasClass (Dom.select (load rt html) (Dom.css "body")) "wp-admin-bar-front"
        = false ->
        r_confidence r = 40 /\ r_selectors r = [])
    /\ (JsString.includes html "wp-content" = true
        \/ JsString.includes html "wp-includes" = true ->
        70 <= r_confidence r)
    /\ (50 < r_confidence r ->
        forall (this : ContentParser) (k : nat) (el : Dom.element),
          siteInfo this = assign (initial url) r ->
          In el (Dom.select (load rt html) (Dom.css ".post, article, .entry")) ->
          ascii_text
            (extractText el
               (Some (Dom.css ".entry-title, .post-title, h1, h2.entry-title")))
          = true ->
          JsString.trim
            (extractText el
               (Some (Dom.css ".entry-title, .post-title, h1, h2.entry-title")))
          <> "" ->
          exists a,
            In a (fst (parseContent rt w this html k))
            /\ title a <> ""
            /\ title a
               = JsString.trim
                   (extractText el
                      (Some (Dom.css ".entry-title, .post-title, h1, h2.entry-title")))
            /\ forall anchor rest href,
                 Dom.find el (Dom.css ".entry-title a, .post-title a") = anchor :: rest ->
                 Dom.get_attr "href" (Dom.att anchor) = Some href ->
                 href <> "" ->
                 link a = resolveUrl this (Some href)
                 /\ JsString.includes (link a) href = true).
Proof.
  intros rt w html url Hgen r.
  destruct (detectWordPress_result (load rt html) url html Hgen)
    as (Ht & Hp & Hc & Hs).
  fold r in Ht, Hp, Hc, Hs.
  split; [exact Ht|]. split; [exact Hp|]. split.
  { rewrite Hc.
    destruct (JsString.includes html "wp-content" || JsString.includes html "wp-includes");
      destruct (Dom.hasClass _ _); lia. }
  split.
  { intros H1 H2 H3. rewrite Hs, Hc, H1, H2, H3. split; reflexivity. }
  split.
  { intros H. rewrite Hc.
    replace (JsString.includes html "wp-content" || JsString.includes html "wp-includes")
      with true by (destruct H as [-> | ->]; [reflexivity | now rewrite orb_true_r]).
    destruct (Dom.hasClass _ _); lia. }
  intros Hconf this k el Hsi Hin _ Htitle.
  assert (Hrules : selectors (siteInfo this) = wordpress_rules).
  { rewrite Hsi. cbn [assign selectors]. rewrite Hs.
    replace (40 + (if JsString.includes html "wp-content"
                      || JsString.includes html "wp-includes" then 30 else 0)
             + (if Dom.hasClass (Dom.select (load rt html) (Dom.css "body"))
                     "wp-admin-bar-front" then 20 else 0) >? 50) with true;
      [reflexivity|].
    symmetry. rewrite Z.gtb_ltb. apply Z.ltb_lt. rewrite <- Hc. exact Hconf. }
  assert (Htype : type (siteInfo this) = "blog") by (rewrite Hsi; exact Ht).
  assert (Hplat : platform (siteInfo this) = "wordpress") by (rewrite Hsi; exact Hp).
  unfold parseContent. rewrite Htype. cbn [String.eqb Ascii.eqb Bool.eqb].
  unfold parseBlogContent. rewrite Hplat, Hrules.
  cbn [String.eqb Ascii.eqb Bool.eqb].
  change (select_rule (load rt html) (rule "articles" wordpress_rules))
    with (Dom.select (load rt html) (Dom.css ".post, article, .entry")).
  apply each_In with (el := el); [|exact Hin].
  intros i k'. unfold blog_item. rewrite Hrules.
  change (rule "title" wordpress_rules)
    with (Some (Dom.css ".entry-title, .post-title, h1, h2.entry-title")).
  change (rule "link" wordpress_rules)
    with (Some (Dom.css ".entry-title a, .post-title a")).
  set (tsel := Some (Dom.css ".entry-title, .post-title, h1, h2.entry-title")) in *.
  assert (Hne : extractText el tsel <> "").
  { intro E. rewrite E in Htitle. now apply Htitle. }
  cbv zeta.
  destruct (String.eqb_spec (extractText el tsel) "") as [E|_]; [contradiction|].
  cbn [negb]. unfold seq_clock.
  destruct (pubDate_of rt w (extractDate el (rule "date" wordpress_rules)) k')
    as [d k''].
  eexists. split; [reflexivity|]. cbn [title link].
  split; [exact Htitle|]. split; [reflexivity|].
  intros anchor rest href Hfind Hattr Hhref.
  rewrite (extractLink_first this el (Dom.css ".entry-title a, .post-title a")
             eq_refl Hfind Hattr Hhref).
  split; [reflexivity | now apply resolveUrl_includes].
Qed.

Lemma wordpress_scenario_witness :
  (exists a,
     In a (fst (parseContent Sample.rt (Sample.offline 0)
                  (mkContentParser Sample.wp2_info "https://example-blog.com")
                  Sample.wp2_html 0%nat))
     /\ title a <> ""
     /\ JsString.includes (link a) "/hello-world" = true)
  /\ (exists a,
        In a (fst (parseContent Sample.wp3_rt (Sample.offline 0)
                     (mkContentParser Sample.wp3_info "https://example-blog.com")
                     Sample.wp3_html 0%nat))
        /\ title a = "Second"
        /\ link a = "https://example-blog.com/first").
Proof.
  split.
  - pose (post := [("class", "post")] : Dom.attrs).
    pose (heading := [("class", "entry-title")] : Dom.attrs).
    pose (anchor := Dom.mkElement
                      [("h2", heading); ("article", post); ("body", []); ("html", [])]
                      "a" [("href", "/hello-world")] [Dom.Text "Blog Post"]).
    pose (el := Dom.mkElement [("body", []); ("html", [])] "article" post
                  [Dom.Elem "h2" heading
                     [Dom.Elem "a" [("href", "/hello-world")] [Dom.Text "Blog Post"]]]).
    assert (Hgen : Dom.attr (Dom.select (load Sample.rt Sample.wp2_html)
                               (Dom.css "meta[name='generator']")) "content"
                   = Some "WordPress 6.0") by (vm_compute; reflexivity).
    destruct (wordpress_scenario Sample.rt (Sample.offline 0) Sample.wp2_html
                Sample.wp_url Hgen) as (_ & _ & _ & _ & _ & Hext).
    destruct (Hext ltac:(vm_compute; reflexivity)
                (mkContentParser Sample.wp2_info "https://example-blog.com") 0%nat el
                ltac:(vm_compute; reflexivity)
                ltac:(vm_compute; auto)
                ltac:(vm_compute; reflexivity)
                ltac:(vm_compute; discriminate))
      as (a & Hin & Hne & _ & Hlink).
    exists a. split; [exact Hin|]. split; [exact Hne|].
    destruct (Hlink anchor [] "/hello-world"
                ltac:(vm_compute; reflexivity) ltac:(reflexivity)
                ltac:(discriminate)) as [_ H].
    exact H.
  - pose (post := [("class", "post-title")] : Dom.attrs).
    pose (heading := [("class", "entry-title")] : Dom.attrs).
    pose (second := Dom.Elem "a" [("href", "/second")] [Dom.Text "Second"]).
    pose (first_ := Dom.mkElement [("article", post); ("body", []); ("html", [])]
                      "a" [("href", "/first")] [Dom.Text "First"]).
    pose (rest := [ Dom.mkElement
                      [("h2", heading); ("article", post); ("body", []); ("html", [])]
                      "a" [("href", "/second")] [Dom.Text "Second"] ]).
    pose (el := Dom.mkElement [("body", []); ("html", [])] "article" post
                  [Dom.Elem "a" [("href", "/first")] [Dom.Text "First"];
                   Dom.Elem "h2" heading [second]]).
    assert (Hgen : Dom.attr (Dom.select (load Sample.wp3_rt Sample.wp3_html)
                               (Dom.css "meta[name='generator']")) "content"
                   = Some "WordPress 6.0") by (vm_compute; reflexivity).
    destruct (wordpress_scenario Sample.wp3_rt (Sample.offline 0) Sample.wp3_html
                Sample.wp_url Hgen) as (_ & _ & _ & _ & _ & Hext).
    destruct (Hext ltac:(vm_compute; reflexivity)
                (mkContentParser Sample.wp3_info "https://example-blog.com") 0%nat el
                ltac:(vm_compute; reflexivity)
                ltac:(vm_compute; auto)
                ltac:(vm_compute; reflexivity)
                ltac:(vm_compute; discriminate))
      as (a & Hin & _ & Ht & Hlink).
    exists a. split; [exact Hin|]. split.
    + rewrite Ht. vm_compute. reflexivity.
    + destruct (Hlink first_ rest "/first"
                  ltac:(vm_compute; reflexivity) ltac:(reflexivity)
                  ltac:(discriminate)) as [H _].
      rewrite H. vm_compute. reflexivity.
Defined.

(** C8, as stated, fails on the page of the detector's own test: the
    coordinator throws; the candidate of the detector for WordPress has
    confidence 40 and no selector rules, it is the best candidate of the
    detectors the class defines, and the parser extracts nothing with
    it. *)
Lemma wordpress_scenario_counterexample :
  detectSiteType Sample.rt Sample.wp_html Sample.wp_url
  = Err (TypeError "Cannot read properties of undefined (reading 'call')")
  /\ detectWordPress Sample.wp_dom Sample.wp_url Sample.wp_html
     = mkDetection "blog" "wordpress" 40 [] ["wp-generator-meta"]
  /\ run_detectors (map Some defined_detectors) Sample.wp_dom Sample.wp_url
       Sample.wp_html (initial Sample.wp_url)
     = Ok Sample.wp_info
  /\ confidence Sample.wp_info = 40
  /\ extract Sample.rt (Sample.offline 0) Sample.wp_info Sample.wp_html 0
     = Ok ([], 0%nat).
Proof. vm_compute. repeat split. Qed.

(** ** How many records a strategy returns *)

(** The bounds the code has: the standard portfolio strategy and the
    Movable Type strategy return at most 20 records, the strategy of the
    embedded data at most 10 of its own. *)
Lemma caps_in_the_code (rt : Runtime) (w : World) (this : ContentParser)
  (dom : Dom.Document) (html : string) (k : nat) :
  (JsString.includes html "_json/" && JsString.includes html ".json" = false ->
     (List.length (fst (parsePortfolioContent rt w this dom html k)) <= 20)%nat)
  /\ (List.length (fst (parseMovableTypeBlog rt w this dom html k)) <= 20)%nat
  /\ (figma_found (fst (figma_try rt w this html k)) = true ->
        (List.length (fst (parseFigmaBasedSite rt w this dom html k)) <= 10)%nat).
Proof.
  split; [|split].
  - intros E. unfold parsePortfolioContent. rewrite E. unfold seq_clock, ret.
    destruct (each _ _ _ _) as [articles k']. apply firstn_le_length.
  - unfold parseMovableTypeBlog, seq_clock, ret.
    destruct (mt_candidates _ _ _ _ _) as [articles k1]. apply firstn_le_length.
  - unfold parseFigmaBasedSite, figma_found.
    destruct (figma_try rt w this html k) as [[[[|a l]|]|e] k']; cbn [fst];
      try discriminate.
    intros _. apply firstn_le_length.
Qed.

(** The strategies for blogs, news, shops and repositories and the generic
    one return one record for every matched element with a title: here the
    news strategy, on elements that all have one. *)
Lemma parseNewsContent_length (rt : Runtime) (w : World) (this : ContentParser)
  (dom : Dom.Document) (html : string) (k : nat) :
  let els := select_rule dom (rule "articles" (selectors (siteInfo this))) in
  (forall el, In el els ->
     extractText el (rule "title" (selectors (siteInfo this))) <> "") ->
  List.length (fst (parseNewsContent rt w this dom html k)) = List.length els.
Proof.
  intros els Htitles. unfold parseNewsContent. apply each_length_all.
  intros el i k' Hin. specialize (Htitles el Hin). unfold news_item. cbv zeta.
  destruct (String.eqb_spec (extractText el (rule "title" (selectors (siteInfo this)))) "")
    as [E|_]; [contradiction|].
  cbn [negb]. unfold seq_clock. destruct (pubDate_of _ _ _ _). discriminate.
Qed.

(** C4.  A news page with 21 stories gives 21 records: the news strategy
    returns its list as it is, with no cap. *)
Theorem news_strategy_exceeds_cap :
  exists articles k,
    extract Sample.rt (Sample.offline 0) (Sample.news_info 21)
      (Sample.news_html 21) 0
    = Ok (articles, k)
    /\ type (Sample.news_info 21) = "news"
    /\ List.length articles = 21%nat.
Proof.
  eexists. eexists. split; [vm_compute; reflexivity|]. split; reflexivity.
Qed.

(** ** Falling back to the generic strategy *)

(** A loop that returns nothing pushed nothing. *)
Lemma each_nil_body (body : Z -> Dom.element -> Clock (option Article)) :
  forall els index k,
    fst (each body index els k) = [] ->
    forall el, In el els -> exists i k', fst (body i el k') = None.
Proof.
  induction els as [|e els IH]; intros index k Hnil el Hin; [destruct Hin|].
  rewrite each_cons in Hnil. cbn [fst] in Hnil.
  destruct (fst (body index e k)) eqn:E; [discriminate|].
  destruct Hin as [<-|Hin].
  - now exists index, k.
  - now apply (IH _ _ Hnil).
Qed.

Lemma parseGenericContent_nil (rt : Runtime) (w : World) (this : ContentParser)
  (dom : Dom.Document) (html : string) (k : nat) :
  (forall el,
     In el (select_rule dom (rule "articles" (selectors (siteInfo this)))) ->
     generic_takes this el = false) ->
  fst (parseGenericContent rt w this dom html k) = [].
Proof.
  intros Hno. unfold parseGenericContent. apply each_nil.
  intros el i k' Hin. specialize (Hno el Hin). unfold generic_takes in Hno.
  unfold generic_item. cbv zeta in *. rewrite Hno. reflexivity.
Qed.

Lemma firstn_nil_inv {A : Type} (n : nat) (l : list A) :
  firstn (S n) l = [] -> l = [].
Proof. destruct l; simpl; [reflexivity | discriminate]. Qed.

(** Closes a goal from [Hb], which says that a body whose element has a
    title pushed nothing. *)
Ltac pushes Hb :=
  exfalso; cbn [negb andb] in Hb; unfold seq_clock, ret in Hb;
  repeat match type of Hb with
         | context [pubDate_of ?a ?b ?c ?d] => destruct (pubDate_of a b c d)
         | context [Date_now_utc ?a ?b ?c] => destruct (Date_now_utc a b c)
         end;
  discriminate Hb.

(** From a loop that returned nothing to what its body did on [el], whose
    title is not empty. *)
Ltac titled Hnil el Hin :=
  let i := fresh "i" in
  let k2 := fresh "k" in
  destruct (each_nil_body _ _ _ _ Hnil el Hin) as (i & k2 & Hb);
  cbv beta delta [generic_item portfolio_item news_item ecommerce_item
                  repository_item blog_item] zeta in Hb;
  match type of Hb with
  | context [String.eqb (extractText el ?r) ""] =>
      destruct (String.eqb_spec (extractText el r) "") as [?|_];
      [contradiction|]
  end.

(** C5, as amended.  On the path of the embedded data, a [try] that ends
    without records of its own hands the page to the generic strategy.
    Every other strategy but the one for Movable Type returns nothing only
    on a page on which the generic strategy returns nothing as well. *)
Theorem fallback_to_generic :
  forall (rt : Runtime) (w : World) (this : ContentParser) (html : string)
         (k : nat),
    (type (siteInfo this) = "portfolio" ->
     JsString.includes html "_json/" && JsString.includes html ".json" = true ->
     figma_found (fst (figma_try rt w this html k)) = false ->
     parseContent rt w this html k
     = parseGenericContent rt w this (load rt html) html
         (snd (figma_try rt w this html k)))
    /\ (~ (type (siteInfo this) = "blog"
           /\ platform (siteInfo this) = "movable-type") ->
        fst (parseContent rt w this html k) = [] ->
        forall k', fst (parseGenericContent rt w this (load rt html) html k') = []).
Proof.
  intros rt w this html k. split.
  { intros Ht Hjson Hnone. unfold parseContent. rewrite Ht.
    cbn [String.eqb Ascii.eqb Bool.eqb].
    unfold parsePortfolioContent. rewrite Hjson.
    unfold parseFigmaBasedSite, figma_found in *.
    destruct (figma_try rt w this html k) as [[[[|a l]|]|e] k1]; cbn [fst snd] in *;
      try reflexivity; discriminate. }
  intros Hmt Hnil k'.
  apply parseGenericContent_nil. intros el Hin. unfold generic_takes. cbv zeta.
  destruct (String.eqb_spec (extractText el (rule "title" (selectors (siteInfo this)))) "")
    as [E|E]; [reflexivity|]. cbn [negb andb].
  unfold parseContent in Hnil.
  destruct (String.eqb_spec (type (siteInfo this)) "portfolio") as [Ep|_].
  { unfold parsePortfolioContent in Hnil.
    destruct (JsString.includes html "_json/" && JsString.includes html ".json").
    - unfold parseFigmaBasedSite in Hnil.
      destruct (figma_try rt w this html k) as [[[[|a l]|]|e] k1]; cbn [fst] in Hnil;
        try discriminate Hnil; unfold parseGenericContent in Hnil;
        titled Hnil el Hin; cbn [negb andb] in *;
        (destruct (JsString.len
                     (extractText el (rule "title" (selectors (siteInfo this)))) >? 5);
         [pushes Hb | reflexivity]).
    - unfold seq_clock, ret in Hnil.
      destruct (each _ _ _ _) as [articles k1] eqn:Heach. cbn [fst] in Hnil.
      apply firstn_nil_inv in Hnil. subst articles.
      apply (f_equal fst) in Heach. cbn [fst] in Heach.
      destruct (each_nil_body _ _ _ _ Heach el Hin) as (i & k2 & Hb).
      unfold portfolio_item in Hb. cbv zeta in Hb. unfold or_else in Hb at 1.
      destruct (String.eqb_spec
                  (extractText el (rule "title" (selectors (siteInfo this)))) "")
        as [E'|_]; try contradiction.
      unfold or_else in Hb at 1.
      destruct (String.eqb_spec
                  (extractText el (rule "title" (selectors (siteInfo this)))) "")
        as [E'|_]; try contradiction.
      pushes Hb. }
  destruct (String.eqb_spec (type (siteInfo this)) "blog") as [Eb|_].
  { unfold parseBlogContent in Hnil.
    destruct (String.eqb_spec (platform (siteInfo this)) "movable-type") as [Em|_];
      [exfalso; apply Hmt; now split|].
    titled Hnil el Hin. pushes Hb. }
  destruct (String.eqb _ "news").
  { unfold parseNewsContent in Hnil. titled Hnil el Hin. pushes Hb. }
  destruct (String.eqb _ "ecommerce").
  { unfold parseECommerceContent in Hnil. titled Hnil el Hin. pushes Hb. }
  destruct (String.eqb _ "repository").
  { unfold parseRepositoryContent in Hnil. titled Hnil el Hin. pushes Hb. }
  unfold parseGenericContent in Hnil.
  titled Hnil el Hin; cbn [negb andb] in *.
  destruct (JsString.len (extractText el (rule "title" (selectors (siteInfo this)))) >? 5);
    [pushes Hb | reflexivity].
Qed.

Lemma fallback_to_generic_witness :
  fst (parseContent Sample.fallback_rt (Sample.offline 0) Sample.listed_parser
         Sample.listed_html 0%nat)
  = [ mkArticle "Design Project" "https://portfolio.example.com/project/design"
        "" "" "Thu, 01 Jan 1970 00:00:00 GMT" "rssos-e7aaae83aec8afa4"
        None None None ]
  /\ fst (parseGenericContent Sample.fallback_rt (Sample.offline 0)
            Sample.untitled_parser Sample.untitled_dom Sample.untitled_html 7%nat)
     = [].
Proof.
  split.
  - destruct (fallback_to_generic Sample.fallback_rt (Sample.offline 0)
                Sample.listed_parser Sample.listed_html 0%nat) as [H _].
    rewrite H; vm_compute; reflexivity.
  - destruct (fallback_to_generic Sample.fallback_rt (Sample.offline 0)
                Sample.untitled_parser Sample.untitled_html 0%nat) as [_ H].
    apply H.
    + vm_compute. intros [E _]. discriminate E.
    + vm_compute. reflexivity.
Defined.

(** C5, as stated, fails for the Movable Type strategy.  The classification
    is that of the blog parsing test, with the platform that sends a blog
    to this strategy; the page is the page of that test.  The strategy
    finds none of its zones on the page and returns nothing, where the
    generic strategy, with the rules of the same classification, returns
    the record of the article. *)
Lemma fallback_to_generic_counterexample :
  type Sample.movable_test_info = "blog"
  /\ platform Sample.movable_test_info = "movable-type"
  /\ selectors Sample.movable_test_info = selectors Sample.blog_test_info
  /\ parseContent Sample.test_rt (Sample.offline 0)
       (mkContentParser Sample.movable_test_info "https://blog.example.com")
       Sample.blog_test_html 0%nat
     = ([], 0%nat)
  /\ (forall (rules : Selectors) (c : Z) (features : list string),
        fst (parseContent Sample.test_rt (Sample.offline 0)
               (mkContentParser
                  (mkSiteInfo "https://blog.example.com" "blog" "movable-type" c
                     rules features)
                  "https://blog.example.com")
               Sample.blog_test_html 0%nat)
        = [])
  /\ fst (parseGenericContent Sample.test_rt (Sample.offline 0)
            (mkContentParser Sample.movable_test_info "https://blog.example.com")
            Sample.blog_test_dom Sample.blog_test_html 0%nat)
     = [ mkArticle "Test Article" "https://blog.example.com/post1"
           "This is the article content." "This is the article content."
           "Wed, 25 Sep 2024 00:00:00 GMT" "rssos-d43c3f3e7f042a47"
           None None None ].
Proof.
  repeat split; intros; vm_compute; reflexivity.
Qed.

(** ** Identifiers *)

Lemma append_inv_head (p a b : string) : p ++ a = p ++ b -> a = b.
Proof.
  induction p as [|c p IH]; simpl; intro H; [exact H|].
  injection H as H. now apply IH.
Qed.

Lemma all_chars_complete (c : ascii) : In c all_chars.
Proof.
  unfold all_chars. rewrite <- (ascii_nat_embedding c).
  apply in_map, in_seq. pose proof (nat_ascii_bounded c). lia.
Qed.

Lemma strings_upto_complete (n : nat) (s : string) :
  (String.length s <= n)%nat -> In s (strings_upto n).
Proof.
  revert s. induction n as [|n IH]; intros [|c s] H; cbn [String.length] in H.
  - now left.
  - lia.
  - now left.
  - cbn [strings_upto]. right. apply in_flat_map. exists s.
    split; [apply IH; lia|]. apply in_map_iff. exists c.
    split; [reflexivity | apply all_chars_complete].
Qed.

(** Two members of a list without repetition meet under [f] when the
    images of the list repeat. *)
Lemma collision (f : string -> string) (l : list string) :
  NoDup l -> ~ NoDup (map f l) ->
  exists x y, In x l /\ In y l /\ x <> y /\ f x = f y.
Proof.
  induction l as [|a l IH]; intros Hl Hm.
  - exfalso. apply Hm. constructor.
  - inversion Hl as [|? ? Ha Hl']; subst.
    destruct (in_dec string_dec (f a) (map f l)) as [Hin|Hnin].
    + apply in_map_iff in Hin. destruct Hin as (y & Hy & Hyl).
      exists a, y. repeat split; [now left | now right | | now symmetry].
      intros ->. contradiction.
    + destruct IH as (x & y & Hx & Hy & Hne & Hf); [exact Hl'| |].
      * intro Hn. apply Hm. simpl. now constructor.
      * exists x, y. repeat split; auto; now right.
Qed.

Lemma pad_a_length (n : nat) : String.length (pad_a n) = n.
Proof. induction n; simpl; congruence. Qed.

Lemma pad_a_NoDup (n : nat) : NoDup (map pad_a (seq 0 n)).
Proof.
  apply NoDup_map_NoDup_ForallPairs; [|apply seq_NoDup].
  intros x y _ _ H. apply (f_equal String.length) in H.
  now rewrite !pad_a_length in H.
Qed.

Lemma js_substring_le (s : string) (n : nat) :
  (String.length (JsString.substring s 0 (Z.of_nat n)) <= n)%nat.
Proof.
  unfold JsString.substring, JsString.clampZ.
  replace (Z.to_nat (Z.min (Z.max 0 0) (JsString.len s))) with 0%nat
    by (unfold JsString.len; lia).
  rewrite Nat.min_0_l, Nat.max_0_l, Nat.sub_0_r.
  etransitivity; [apply substring_0_le|]. unfold JsString.len. lia.
Qed.

(** Identifiers have 16 characters after their prefix, and there are more
    seeds than that: two seeds share one. *)
Lemma generateGuid_collides (this : ContentParser) :
  exists seed1 seed2,
    seed1 <> seed2 /\ generateGuid this seed1 = generateGuid this seed2.
Proof.
  set (f := fun seed => JsString.substring (MD5.hex (seed ++ url (siteInfo this))) 0 16).
  set (seeds := map pad_a (seq 0 (S (List.length (strings_upto 16))))).
  destruct (@collision f seeds) as (x & y & _ & _ & Hne & Hf).
  - apply pad_a_NoDup.
  - intro Hnd.
    assert (Hincl : incl (map f seeds) (strings_upto 16)).
    { intros s Hs. apply in_map_iff in Hs. destruct Hs as (x & <- & _).
      apply strings_upto_complete. exact (js_substring_le _ 16). }
    pose proof (NoDup_incl_length Hnd Hincl) as Hlen.
    unfold seeds in Hlen. rewrite !length_map, length_seq in Hlen. lia.
  - exists x, y. split; [exact Hne|]. unfold generateGuid. fold (f x) (f y).
    now rewrite Hf.
Qed.

Lemma has_In (set : list string) (x : string) : has set x = true <-> In x set.
Proof.
  unfold has. rewrite existsb_exists. split.
  - intros (y & Hy & E). apply String.eqb_eq in E. now subst.
  - intro H. exists x. split; [exact H | apply String.eqb_refl].
Qed.

Lemma mt_inv_push (articles : list Marked) (seen : list string) (a : Article)
  (flag : bool) :
  mt_inv (articles, seen) -> has seen (link a) = false ->
  mt_inv ((articles ++ [(a, flag)])%list, link a :: seen).
Proof.
  intros [Hnd Hseen] Hnew. unfold mt_inv. cbn [fst snd] in *. split.
  - unfold links. rewrite map_app. cbn [map fst].
    apply NoDup_app; [exact Hnd | repeat constructor; intros [] | ].
    intros x Hx [E|[]]. subst x. apply in_map_iff in Hx.
    destruct Hx as (m & E & Hm). apply Hseen in Hm. rewrite E in Hm.
    apply has_In in Hm. congruence.
  - intros m Hm. apply in_app_or in Hm. destruct Hm as [Hm|[<-|[]]].
    + right. now apply Hseen.
    + now left.
Qed.

Lemma mt_entry_appends (rt : Runtime) (w : World) (this : ContentParser)
  (el : Dom.element) (st : MtState) (k : nat) :
  appends st (fst (mt_entry rt w this el st k)).
Proof.
  destruct st as [articles seen]. unfold mt_entry, seq_clock, Date_now_utc, ret.
  cbv beta iota zeta.
  match goal with
  | |- context [negb (has seen ?l)] => destruct (has seen l) eqn:Hseen
  end.
  - rewrite andb_false_r. now left.
  - destruct (negb _); cbn [andb negb fst]; [|now left].
    right. cbn [fst snd].
    match goal with
    | |- context [(_ ++ [(?a, ?f)])%list] => exists a, f
    end.
    split; [reflexivity | exact Hseen].
Qed.

Lemma mt_recent_appends (rt : Runtime) (w : World) (this : ContentParser)
  (el : Dom.element) (st : MtState) (k : nat) :
  appends st (fst (mt_recent rt w this el st k)).
Proof.
  destruct st as [articles seen]. unfold mt_recent, seq_clock, Date_now_utc, ret.
  cbv beta iota zeta. destruct (Dom.length _ >? 0)%Z; [|now left].
  match goal with
  | |- context [negb (has seen ?l)] => destruct (has seen l) eqn:Hseen
  end.
  - rewrite andb_false_r. now left.
  - destruct (negb _); cbn [andb negb fst]; [|now left].
    destruct (negb _); cbn [andb negb fst]; [|now left].
    right. cbn [fst snd].
    match goal with
    | |- context [(_ ++ [(?a, ?f)])%list] => exists a, f
    end.
    split; [reflexivity | exact Hseen].
Qed.

Lemma appends_inv (st st' : MtState) : mt_inv st -> appends st st' -> mt_inv st'.
Proof.
  intros Hinv [->|(a & flag & -> & Hnew)]; [exact Hinv|].
  destruct st as [articles seen]. now apply mt_inv_push.
Qed.

Lemma each_with_inv (body : Dom.element -> MtState -> Clock MtState) :
  (forall el st k, appends st (fst (body el st k))) ->
  forall els st k, mt_inv st -> mt_inv (fst (each_with body els st k)).
Proof.
  intros Hbody. induction els as [|e els IH]; intros st k Hinv; [exact Hinv|].
  cbn [each_with]. unfold seq_clock.
  pose proof (Hbody e st k) as Hstep. destruct (body e st k) as [st1 k1].
  apply IH. exact (@appends_inv st st1 Hinv Hstep).
Qed.

Lemma set_nth_map {A B : Type} (f : A -> B) (l : list A) (i : nat) (x y : A) :
  nth_error l i = Some x -> f y = f x -> map f (set_nth i y l) = map f l.
Proof.
  revert i. induction l as [|z l IH]; intros [|i] H E; simpl in *; try discriminate.
  - injection H as ->. now rewrite E.
  - f_equal. now apply IH.
Qed.

Lemma enrich_links (rt : Runtime) (w : World) (articles : list Marked) (i : nat) :
  links (enrich rt w articles i) = links articles.
Proof.
  unfold enrich. destruct (nth_error articles i) as [[article flag]|] eqn:E;
    [|reflexivity].
  unfold links. apply set_nth_map with (x := (article, flag)); [exact E|].
  cbn [fst]. unfold enriched.
  destruct (fetchRuanyifengArticleContent rt w (link article)) as [c|];
    [|reflexivity].
  destruct (String.eqb c ""); reflexivity.
Qed.

Lemma fold_enrich_links (rt : Runtime) (w : World) (positions : list nat) :
  forall articles,
    links (fold_left (enrich rt w) positions articles) = links articles.
Proof.
  induction positions as [|i positions IH]; intro articles; [reflexivity|].
  cbn [fold_left]. now rewrite IH, enrich_links.
Qed.

Lemma NoDup_firstn {A : Type} (n : nat) (l : list A) : NoDup l -> NoDup (firstn n l).
Proof.
  revert l. induction n as [|n IH]; intros [|x l] H; simpl; try constructor.
  - inversion H as [|? ? Hx Hl]; subst. intro Hin. apply Hx.
    rewrite <- (firstn_skipn n l). apply in_or_app. now left.
  - inversion H; subst. now apply IH.
Qed.

Lemma parseMovableTypeBlog_links (rt : Runtime) (w : World) (this : ContentParser)
  (dom : Dom.Document) (html : string) (k : nat) :
  NoDup (map link (fst (parseMovableTypeBlog rt w this dom html k))).
Proof.
  unfold parseMovableTypeBlog, mt_candidates, seq_clock, ret.
  pose proof (@each_with_inv (mt_entry rt w this) (mt_entry_appends rt w this)
                (Dom.select dom (Dom.css ".entry-asset")) ([], []) k) as H1.
  destruct (each_with (mt_entry rt w this) _ _ k) as [st1 k1].
  pose proof (@each_with_inv (mt_recent rt w this) (mt_recent_appends rt w this)
                (Dom.select dom (Dom.css "#homepage .module-list-item")) st1 k1) as H2.
  destruct (each_with (mt_recent rt w this) _ _ k1) as [st2 k2].
  cbn [fst] in *.
  assert (Hinv : mt_inv st2).
  { apply H2, H1. split; [constructor | intros m []]. }
  unfold slice0. rewrite <- firstn_map, map_map. apply NoDup_firstn.
  change (NoDup (links (fold_left (enrich rt w) (articlesToFetch (fst st2)) (fst st2)))).
  rewrite fold_enrich_links. exact (proj1 Hinv).
Qed.

(** C3, as amended.  [generateGuid] gives two seeds the same identifier
    exactly when the first 16 digits of the digest of seed and origin
    agree, so equal seeds get equal identifiers; it cannot tell all seeds
    apart, since some two distinct seeds share an identifier.  Within a run
    of the Movable Type strategy no two records have the same link: a turn
    of either of its loops keeps the records it has and appends a record
    only when its link was not seen before, so the first record of a link
    stays. *)
Theorem identifiers_and_links :
  forall (rt : Runtime) (w : World) (this : ContentParser) (dom : Dom.Document)
         (html : string) (k : nat),
    (forall seed1 seed2,
       generateGuid this seed1 = generateGuid this seed2
       <-> JsString.substring (MD5.hex (seed1 ++ url (siteInfo this))) 0 16
           = JsString.substring (MD5.hex (seed2 ++ url (siteInfo this))) 0 16)
    /\ (exists seed1 seed2,
          seed1 <> seed2 /\ generateGuid this seed1 = generateGuid this seed2)
    /\ NoDup (map link (fst (parseMovableTypeBlog rt w this dom html k)))
    /\ (forall el st k', appends st (fst (mt_entry rt w this el st k')))
    /\ (forall el st k', appends st (fst (mt_recent rt w this el st k'))).
Proof.
  intros rt w this dom html k. split; [|split; [|split; [|split]]].
  - intros seed1 seed2. unfold generateGuid. split; intro H.
    + exact (append_inv_head _ _ _ H).
    + now rewrite H.
  - apply generateGuid_collides.
  - apply parseMovableTypeBlog_links.
  - apply mt_entry_appends.
  - apply mt_recent_appends.
Qed.

(** C3, as stated, fails.  For the origin [https://example.com] two
    distinct seeds get the same identifier; and in the generic strategy two
    posts that link to the same address both give a record, with the same
    identifier. *)
Lemma identifiers_counterexample :
  (exists seed1 seed2,
     seed1 <> seed2
     /\ generateGuid (mkContentParser (Sample.generic_info Sample.site) Sample.site)
          seed1
        = generateGuid (mkContentParser (Sample.generic_info Sample.site) Sample.site)
            seed2)
  /\ map (fun a => (title a, link a, guid a))
       (fst (parseContent Sample.rt (Sample.offline 0)
               (mkContentParser (Sample.generic_info Sample.site) Sample.site)
               Sample.twins_html 0%nat))
     = [ ("First post", "https://example.com/post", "rssos-ef2c9f13dd48c245");
         ("Second post", "https://example.com/post", "rssos-ef2c9f13dd48c245") ].
Proof.
  split; [apply generateGuid_collides | vm_compute; reflexivity].
Qed.

(** ** Secondary fetches *)

Lemma nth_error_set_nth {A : Type} (l : list A) (i j : nat) (x : A) :
  nth_error (set_nth i x l) j
  = if Nat.eqb j i then option_map (fun _ => x) (nth_error l i)
    else nth_error l j.
Proof.
  revert i j. induction l as [|y l IH]; intros i j.
  - destruct i, j; simpl; try reflexivity; now destruct (Nat.eqb j i).
  - destruct i, j; simpl; try reflexivity. apply IH.
Qed.

Lemma enrich_nth (rt : Runtime) (w : World) (articles : list Marked) (i j : nat) :
  nth_error (enrich rt w articles i) j
  = if Nat.eqb j i then option_map (fetched rt w) (nth_error articles j)
    else nth_error articles j.
Proof.
  unfold enrich. destruct (nth_error articles i) as [[article flag]|] eqn:E.
  - rewrite nth_error_set_nth, E. destruct (Nat.eqb_spec j i) as [->|_];
      [rewrite E|]; reflexivity.
  - destruct (Nat.eqb_spec j i) as [->|_]; [rewrite E|]; reflexivity.
Qed.

Lemma existsb_eqb_In (j : nat) (l : list nat) :
  existsb (Nat.eqb j) l = true <-> In j l.
Proof.
  rewrite existsb_exists. split.
  - intros (x & Hx & E). apply Nat.eqb_eq in E. now subst.
  - intro H. exists j. split; [exact H | apply Nat.eqb_refl].
Qed.

(** The loop of the secondary fetches changes the records at the
    positions it visits, each by its own fetch, and no other record. *)
Lemma fold_enrich_nth (rt : Runtime) (w : World) (positions : list nat) :
  NoDup positions ->
  forall articles j,
    nth_error (fold_left (enrich rt w) positions articles) j
    = if existsb (Nat.eqb j) positions
      then option_map (fetched rt w) (nth_error articles j)
      else nth_error articles j.
Proof.
  induction positions as [|i positions IH]; intros Hnd articles j; [reflexivity|].
  inversion Hnd as [|? ? Hi Hnd']; subst.
  cbn [fold_left existsb]. rewrite (IH Hnd'), enrich_nth.
  destruct (Nat.eqb_spec j i) as [->|Hne]; cbn [orb].
  - destruct (existsb (Nat.eqb i) positions) eqn:E; [|reflexivity].
    apply existsb_eqb_In in E. contradiction.
  - reflexivity.
Qed.

Lemma map_fst_combine {A B : Type} (a : list A) :
  forall b : list B, List.length a = List.length b -> map fst (combine a b) = a.
Proof.
  induction a as [|x a IH]; intros [|y b] H; simpl in *; try discriminate;
    [reflexivity|].
  f_equal. apply IH. now injection H.
Qed.

(** The positions that a filter keeps are distinct as well. *)
Lemma kept_positions_NoDup (keep : nat * Marked -> bool)
  (ps : list (nat * Marked)) :
  NoDup (map fst ps) -> NoDup (map fst (filter keep ps)).
Proof.
  intro Hnd. induction ps as [|x ps IH]; cbn [filter map] in *; [constructor|].
  inversion Hnd as [|? ? Hx Hps]; subst.
  destruct (keep x); [|now apply IH].
  cbn [map]. constructor; [|now apply IH].
  intro Hin. apply Hx. apply in_map_iff in Hin. destruct Hin as (y & E & Hy).
  apply in_map_iff. exists y. split; [exact E|]. now apply filter_In in Hy.
Qed.

Lemma articlesToFetch_NoDup (articles : list Marked) :
  NoDup (articlesToFetch articles).
Proof.
  unfold articlesToFetch, slice0. apply NoDup_firstn, kept_positions_NoDup.
  rewrite map_fst_combine by apply length_seq. apply seq_NoDup.
Qed.

(** A request that fails, or is answered with a status that is not a
    success, gives no content. *)
Lemma fetch_failure_gives_null (rt : Runtime) (w : World) (u : string) :
  match fetch w u with
  | Err _ => True
  | Ok response => ok response = false
  end ->
  fetchRuanyifengArticleContent rt w u = None.
Proof.
  unfold fetchRuanyifengArticleContent, fetch_article_try.
  destruct (fetch w u) as [response|e]; [|reflexivity].
  intros H. cbn [bind]. rewrite H. reflexivity.
Qed.

Lemma enriched_null (rt : Runtime) (w : World) (a : Article) :
  fetchRuanyifengArticleContent rt w (link a) = None -> enriched rt w a = a.
Proof. unfold enriched. intros ->. reflexivity. Qed.

Lemma figma_failure_falls_back (rt : Runtime) (w : World) (this : ContentParser)
  (dom : Dom.Document) (html path : string) (k : nat) :
  Pattern.search jsonUrlPattern html = Some path ->
  payload_fails rt w (baseUrl this ++ path) ->
  parseFigmaBasedSite rt w this dom html k = parseGenericContent rt w this dom html k.
Proof.
  intros Hpath Hfail. unfold parseFigmaBasedSite, figma_try, payload_fails in *.
  rewrite Hpath. destruct (fetch w (baseUrl this ++ path)) as [response|e];
    [|reflexivity].
  destruct (ok response); cbn [negb].
  - destruct Hfail as [Hfail|Hfail]; [discriminate|]. now rewrite Hfail.
  - reflexivity.
Qed.

Lemma figma_throw_falls_back (rt : Runtime) (w : World) (this : ContentParser)
  (dom : Dom.Document) (html : string) (k : nat) (e : exn) :
  fst (figma_try rt w this html k) = Err e ->
  parseFigmaBasedSite rt w this dom html k
  = parseGenericContent rt w this dom html (snd (figma_try rt w this html k)).
Proof.
  unfold parseFigmaBasedSite. destruct (figma_try rt w this html k) as [r k'].
  cbn [fst snd]. intros ->. reflexivity.
Qed.

Lemma parseMovableTypeBlog_nth (rt : Runtime) (w : World) (this : ContentParser)
  (dom : Dom.Document) (html : string) (k j : nat) :
  let candidates := fst (mt_candidates rt w this dom k) in
  nth_error (fst (parseMovableTypeBlog rt w this dom html k)) j
  = if (j <? 20)%nat
    then option_map
           (fun m => if existsb (Nat.eqb j) (articlesToFetch candidates)
                     then enriched rt w (fst m) else fst m)
           (nth_error candidates j)
    else None.
Proof.
  intro candidates. unfold parseMovableTypeBlog, seq_clock, ret.
  subst candidates. destruct (mt_candidates rt w this dom k) as [c k'].
  cbn [fst]. unfold slice0. rewrite nth_error_firstn.
  destruct (j <? 20)%nat; [|reflexivity].
  rewrite nth_error_map, fold_enrich_nth by apply articlesToFetch_NoDup.
  destruct (existsb (Nat.eqb j) (articlesToFetch c));
    destruct (nth_error c j) as [[a flag]|]; reflexivity.
Qed.

(** C7.  A secondary fetch that fails is contained.  In the Movable Type
    strategy a request that fails or is refused, and a page without usable
    content, leave the record as it was; the loop changes each record it
    visits by that record's own fetch and no other record, so each of the
    first 20 candidate records is returned, as it was or enriched.  In the
    strategy of the embedded data a request that fails or is refused, a
    payload that does not parse and a walk that throws hand the page to the
    generic strategy.  Once the parser is built, [extract] returns what
    [parseContent] returns: nothing is thrown at its caller. *)
Theorem enrichment_failures_are_contained :
  forall (rt : Runtime) (w : World) (this : ContentParser) (dom : Dom.Document)
         (html : string) (k : nat),
    (forall a,
       match fetch w (link a) with
       | Err _ => True
       | Ok response => ok response = false
       end ->
       enriched rt w a = a)
    /\ (forall a,
          fetchRuanyifengArticleContent rt w (link a) = None -> enriched rt w a = a)
    /\ (forall j,
          nth_error (fst (parseMovableTypeBlog rt w this dom html k)) j
          = if (j <? 20)%nat
            then option_map
                   (fun m =>
                      if existsb (Nat.eqb j)
                           (articlesToFetch (fst (mt_candidates rt w this dom k)))
                      then enriched rt w (fst m) else fst m)
                   (nth_error (fst (mt_candidates rt w this dom k)) j)
            else None)
    /\ (forall path,
          Pattern.search jsonUrlPattern html = Some path ->
          payload_fails rt w (baseUrl this ++ path) ->
          parseFigmaBasedSite rt w this dom html k
          = parseGenericContent rt w this dom html k)
    /\ (forall e,
          fst (figma_try rt w this html k) = Err e ->
          parseFigmaBasedSite rt w this dom html k
          = parseGenericContent rt w this dom html
              (snd (figma_try rt w this html k)))
    /\ (forall siteInfo,
          new_ContentParser rt siteInfo = Ok this ->
          extract rt w siteInfo html k = Ok (parseContent rt w this html k)).
Proof.
  intros rt w this dom html k. repeat split.
  - intros a H. apply enriched_null. now apply fetch_failure_gives_null.
  - apply enriched_null.
  - intro j. apply parseMovableTypeBlog_nth.
  - intros path. apply figma_failure_falls_back.
  - intros e. apply figma_throw_falls_back.
  - intros siteInfo H. unfold extract. rewrite H. reflexivity.
Qed.

Lemma enrichment_failures_are_contained_witness :
  map (fun a => (title a, content a))
    (fst (parseContent Sample.mt_rt Sample.mt_world Sample.mt_parser
            Sample.mt_html 0%nat))
  = [ ("Post A",
       "<html><head></head><body><p>A first paragraph that is long enough to count as the full text of the post, with some more words.</p><img src="
         ++ dq ++ "https://www.ruanyifeng.com/images/a.png" ++ dq ++ " style="
         ++ dq ++ "max-width: 100%; height: auto;" ++ dq ++ "></body></html>");
      ("Post B", "<h2>Post B</h2><p>这是阮一峰网络日志的一篇文章。</p>") ]
  /\ forall a,
       link a = "https://www.ruanyifeng.com/blog/2024/01/b.html" ->
       enriched Sample.mt_rt Sample.mt_world a = a.
Proof.
  split; [vm_compute; reflexivity|].
  intros a Hlink.
  destruct (enrichment_failures_are_contained Sample.mt_rt Sample.mt_world
              Sample.mt_parser Sample.mt_dom Sample.mt_html 0) as (H & _).
  apply H. rewrite Hlink. vm_compute. exact I.
Defined.

(** ** What a run takes from the clock *)

Lemma each_undated (b1 b2 : Z -> Dom.element -> Clock (option Article)) :
  (forall i el k1 k2,
     option_map undated (fst (b1 i el k1)) = option_map undated (fst (b2 i el k2))) ->
  forall els i k1 k2,
    map undated (fst (each b1 i els k1)) = map undated (fst (each b2 i els k2)).
Proof.
  intros Hb. induction els as [|e els IH]; intros i k1 k2; [reflexivity|].
  rewrite !each_cons. cbn [fst].
  specialize (Hb i e k1 k2).
  specialize (IH (i + 1)%Z (snd (b1 i e k1)) (snd (b2 i e k2))).
  destruct (fst (b1 i e k1)), (fst (b2 i e k2)); cbn [option_map] in Hb;
    try discriminate; [|exact IH].
  cbn [map]. f_equal; [congruence | exact IH].
Qed.

(** The bodies of the loops differ between two worlds in the date only. *)
Ltac same_item :=
  intros;
  cbv beta delta [generic_item portfolio_item news_item ecommerce_item
                  repository_item blog_item] zeta;
  repeat match goal with
         | |- context [if ?c then _ else ret None] => destruct c
         end;
  try reflexivity;
  unfold seq_clock, ret;
  repeat match goal with
         | |- context [pubDate_of ?a ?b ?c ?d] => destruct (pubDate_of a b c d)
         | |- context [Date_now_utc ?a ?b ?c] => destruct (Date_now_utc a b c)
         end;
  reflexivity.

Section TwoWorlds.

Variable rt : Runtime.
Variables w1 w2 : World.
Variable this : ContentParser.
Hypothesis same_network : forall u, fetch w1 u = fetch w2 u.

Lemma generic_item_undated i el k1 k2 :
  option_map undated (fst (generic_item rt w1 this i el k1))
  = option_map undated (fst (generic_item rt w2 this i el k2)).
Proof. same_item. Qed.

Lemma portfolio_item_undated i el k1 k2 :
  option_map undated (fst (portfolio_item rt w1 this i el k1))
  = option_map undated (fst (portfolio_item rt w2 this i el k2)).
Proof. same_item. Qed.

Lemma news_item_undated i el k1 k2 :
  option_map undated (fst (news_item rt w1 this i el k1))
  = option_map undated (fst (news_item rt w2 this i el k2)).
Proof. same_item. Qed.

Lemma ecommerce_item_undated i el k1 k2 :
  option_map undated (fst (ecommerce_item rt w1 this i el k1))
  = option_map undated (fst (ecommerce_item rt w2 this i el k2)).
Proof. same_item. Qed.

Lemma repository_item_undated i el k1 k2 :
  option_map undated (fst (repository_item rt w1 this i el k1))
  = option_map undated (fst (repository_item rt w2 this i el k2)).
Proof. same_item. Qed.

Lemma blog_item_undated i el k1 k2 :
  option_map undated (fst (blog_item rt w1 this i el k1))
  = option_map undated (fst (blog_item rt w2 this i el k2)).
Proof. same_item. Qed.

Lemma same_store_push articles1 articles2 seen a1 a2 flag :
  map unmark articles1 = map unmark articles2 ->
  undated a1 = undated a2 ->
  same_store ((articles1 ++ [(a1, flag)])%list, link a1 :: seen)
    ((articles2 ++ [(a2, flag)])%list, link a2 :: seen).
Proof.
  intros Ha Hu. unfold same_store. cbn [fst snd]. rewrite !map_app, Ha.
  unfold unmark at 2 4. cbn [map fst snd]. rewrite Hu. split; [reflexivity|].
  f_equal. apply (f_equal link) in Hu. exact Hu.
Qed.

Lemma mt_entry_same el st1 st2 k1 k2 :
  same_store st1 st2 ->
  same_store (fst (mt_entry rt w1 this el st1 k1)) (fst (mt_entry rt w2 this el st2 k2)).
Proof.
  destruct st1 as [a1 seen], st2 as [a2 seen2]. intros [Ha Hs].
  cbn [fst snd] in Ha, Hs. subst seen2.
  unfold mt_entry, seq_clock, Date_now_utc, ret. cbv beta iota zeta.
  match goal with
  | |- context [negb (String.eqb ?t "") && negb (has seen ?l)] =>
      destruct (negb (String.eqb t "") && negb (has seen l))
  end; cbn [fst].
  - apply same_store_push; [exact Ha | reflexivity].
  - split; [exact Ha | reflexivity].
Qed.

Lemma mt_recent_same el st1 st2 k1 k2 :
  same_store st1 st2 ->
  same_store (fst (mt_recent rt w1 this el st1 k1)) (fst (mt_recent rt w2 this el st2 k2)).
Proof.
  destruct st1 as [a1 seen], st2 as [a2 seen2]. intros [Ha Hs].
  cbn [fst snd] in Ha, Hs. subst seen2.
  unfold mt_recent, seq_clock, Date_now_utc, ret. cbv beta iota zeta.
  destruct (Dom.length _ >? 0)%Z; [|split; [exact Ha | reflexivity]].
  match goal with
  | |- context [negb (String.eqb ?t "") && negb (has seen ?l) && ?c] =>
      destruct (negb (String.eqb t "") && negb (has seen l) && c)
  end; cbn [fst].
  - apply same_store_push; [exact Ha | reflexivity].
  - split; [exact Ha | reflexivity].
Qed.

Lemma each_with_same (b1 b2 : Dom.element -> MtState -> Clock MtState) :
  (forall el st1 st2 k1 k2,
     same_store st1 st2 -> same_store (fst (b1 el st1 k1)) (fst (b2 el st2 k2))) ->
  forall els st1 st2 k1 k2,
    same_store st1 st2 ->
    same_store (fst (each_with b1 els st1 k1)) (fst (each_with b2 els st2 k2)).
Proof.
  intros Hb. induction els as [|e els IH]; intros st1 st2 k1 k2 H; [exact H|].
  cbn [each_with]. unfold seq_clock.
  specialize (Hb e st1 st2 k1 k2 H).
  destruct (b1 e st1 k1) as [s1 k1'], (b2 e st2 k2) as [s2 k2'].
  now apply IH.
Qed.

Lemma mt_candidates_same dom k1 k2 :
  map unmark (fst (mt_candidates rt w1 this dom k1))
  = map unmark (fst (mt_candidates rt w2 this dom k2)).
Proof.
  unfold mt_candidates, seq_clock, ret.
  pose proof (@each_with_same _ _ mt_entry_same
                (Dom.select dom (Dom.css ".entry-asset")) ([], []) ([], []) k1 k2
                (conj eq_refl eq_refl)) as H1.
  destruct (each_with (mt_entry rt w1 this) _ _ k1) as [s1 k1'].
  destruct (each_with (mt_entry rt w2 this) _ _ k2) as [s2 k2'].
  pose proof (@each_with_same _ _ mt_recent_same
                (Dom.select dom (Dom.css "#homepage .module-list-item"))
                s1 s2 k1' k2' H1) as H2.
  destruct (each_with (mt_recent rt w1 this) _ _ k1') as [t1 k1''].
  destruct (each_with (mt_recent rt w2 this) _ _ k2') as [t2 k2''].
  exact (proj1 H2).
Qed.

Lemma fetch_article_same u :
  fetchRuanyifengArticleContent rt w1 u = fetchRuanyifengArticleContent rt w2 u.
Proof.
  unfold fetchRuanyifengArticleContent, fetch_article_try.
  now rewrite same_network.
Qed.

Lemma enriched_same a1 a2 :
  undated a1 = undated a2 ->
  undated (enriched rt w1 a1) = undated (enriched rt w2 a2).
Proof.
  intro H. unfold enriched. rewrite fetch_article_same.
  assert (Hl : link a1 = link a2) by exact (f_equal link H).
  rewrite Hl.
  destruct (fetchRuanyifengArticleContent rt w2 (link a2)) as [c|]; [|exact H].
  destruct (String.eqb c ""); [exact H|].
  cbn [try_catch]. unfold undated in *.
  cbn [title link description content guid image author category].
  injection H as Ht _ _ _ Hg Hi Ha Hc. now rewrite Ht, Hg, Hi, Ha, Hc.
Qed.

Lemma marks_same (l1 l2 : list Marked) :
  map unmark l1 = map unmark l2 ->
  forall start,
    map fst (filter (fun p : nat * Marked => snd (snd p))
               (combine (seq start (List.length l1)) l1))
    = map fst (filter (fun p : nat * Marked => snd (snd p))
                 (combine (seq start (List.length l2)) l2)).
Proof.
  revert l2. induction l1 as [|m1 l1 IH]; intros [|m2 l2] H start;
    try discriminate; [reflexivity|].
  cbn [map] in H.
  assert (Hm : unmark m1 = unmark m2) by congruence.
  assert (Hl : map unmark l1 = map unmark l2) by congruence.
  cbn [List.length seq combine filter snd].
  assert (Hflag : snd m1 = snd m2) by exact (f_equal snd Hm).
  rewrite Hflag. destruct (snd m2); cbn [map fst]; now rewrite (IH _ Hl).
Qed.

Lemma articlesToFetch_same (l1 l2 : list Marked) :
  map unmark l1 = map unmark l2 -> articlesToFetch l1 = articlesToFetch l2.
Proof.
  intro H. unfold articlesToFetch. now rewrite (marks_same _ _ H).
Qed.

Lemma parseMovableTypeBlog_undated dom html k1 k2 :
  map undated (fst (parseMovableTypeBlog rt w1 this dom html k1))
  = map undated (fst (parseMovableTypeBlog rt w2 this dom html k2)).
Proof.
  apply nth_error_ext. intro j. rewrite !nth_error_map, !parseMovableTypeBlog_nth.
  destruct (j <? 20)%nat; [|reflexivity].
  pose proof (mt_candidates_same dom k1 k2) as Hc.
  rewrite (articlesToFetch_same _ _ Hc).
  apply (f_equal (fun l => nth_error l j)) in Hc. rewrite !nth_error_map in Hc.
  destruct (nth_error (fst (mt_candidates rt w1 this dom k1)) j) as [m1|],
           (nth_error (fst (mt_candidates rt w2 this dom k2)) j) as [m2|];
    try discriminate; [|reflexivity].
  cbn [option_map] in *. f_equal.
  assert (Hc' : unmark m1 = unmark m2) by congruence.
  assert (Hu : undated (fst m1) = undated (fst m2)) by exact (f_equal fst Hc').
  destruct (existsb _ _); [now apply enriched_same | exact Hu].
Qed.

Lemma parseContent_undated html k1 k2 :
  embedded_data this html = false ->
  map undated (fst (parseContent rt w1 this html k1))
  = map undated (fst (parseContent rt w2 this html k2)).
Proof.
  intro Hemb. unfold embedded_data in Hemb. unfold parseContent.
  destruct (String.eqb (type (siteInfo this)) "portfolio").
  { cbn [andb] in Hemb. unfold parsePortfolioContent. rewrite Hemb.
    unfold seq_clock, ret.
    pose proof (each_undated _ _ portfolio_item_undated
                  (select_rule (load rt html) (rule "articles" (selectors (siteInfo this))))
                  0%Z k1 k2) as H.
    destruct (each (portfolio_item rt w1 this) _ _ k1) as [l1 k1'].
    destruct (each (portfolio_item rt w2 this) _ _ k2) as [l2 k2'].
    cbn [fst] in *. unfold slice0. now rewrite <- !firstn_map, H. }
  destruct (String.eqb _ "blog").
  { unfold parseBlogContent. destruct (String.eqb _ "movable-type").
    - apply parseMovableTypeBlog_undated.
    - apply each_undated, blog_item_undated. }
  destruct (String.eqb _ "news"); [apply each_undated, news_item_undated|].
  destruct (String.eqb _ "ecommerce"); [apply each_undated, ecommerce_item_undated|].
  destruct (String.eqb _ "repository"); [apply each_undated, repository_item_undated|].
  apply each_undated, generic_item_undated.
Qed.

End TwoWorlds.

(** In the strategy of the embedded data the identifier of a record holds
    the reading of the clock. *)
Example embedded_data_identifier :
  map (fun a => (title a, link a, guid a))
    (fst (parseContent Sample.figma_rt (Sample.figma_world 0) Sample.figma_parser
            Sample.figma_html 0%nat))
  = [ ("My project - Portfolio Project", "https://portfolio.example.com/my-project",
       "figma-project-1:2-0") ]
  /\ map guid
       (fst (parseContent Sample.figma_rt (Sample.figma_world 1000)
               Sample.figma_parser Sample.figma_html 0%nat))
     = [ "figma-project-1:2-1000" ].
Proof. vm_compute. split; reflexivity. Qed.

Lemma world_ext (w1 w2 : World) :
  (forall k, now w1 k = now w2 k) -> (forall u, fetch w1 u = fetch w2 u) -> w1 = w2.
Proof.
  destruct w1 as [n1 f1], w2 as [n2 f2]. cbn [now fetch]. intros Hn Hf.
  f_equal; apply functional_extensionality; assumption.
Qed.

(** C2, as amended.  Two calls of [parseContent] on the same page with the
    same classification, whose secondary fetches are answered alike, return
    the same records when the clock shows the same readings in both; and,
    whatever the clock shows, outside the strategy of the embedded data
    they return lists of the same length whose records agree on every
    field but [pubDate], the identifier included.  ([detectSiteType] reads
    neither the clock nor the network: it is a function of the page and its
    URL.) *)
Theorem extraction_depends_on_clock_and_network_only :
  forall (rt : Runtime) (w1 w2 : World) (this : ContentParser) (html : string),
    (forall u, fetch w1 u = fetch w2 u) ->
    ((forall k, now w1 k = now w2 k) ->
     forall k, parseContent rt w1 this html k = parseContent rt w2 this html k)
    /\ (embedded_data this html = false ->
        forall k1 k2,
          map undated (fst (parseContent rt w1 this html k1))
          = map undated (fst (parseContent rt w2 this html k2))).
Proof.
  intros rt w1 w2 this html Hnet. split.
  - intros Hclock k. now rewrite (world_ext w1 w2 Hclock Hnet).
  - intros Hemb k1 k2. now apply parseContent_undated.
Qed.

Lemma extraction_depends_on_clock_and_network_only_witness :
  map undated
    (fst (parseContent Sample.rt (Sample.offline 0)
            (mkContentParser (Sample.generic_info Sample.wp_url)
               "https://example-blog.com")
            Sample.wp_html 0%nat))
  = map undated
      (fst (parseContent Sample.rt (Sample.offline 1000)
              (mkContentParser (Sample.generic_info Sample.wp_url)
                 "https://example-blog.com")
              Sample.wp_html 5%nat)).
Proof.
  apply (extraction_depends_on_clock_and_network_only Sample.rt
           (Sample.offline 0) (Sample.offline 1000)
           (mkContentParser (Sample.generic_info Sample.wp_url)
              "https://example-blog.com")
           Sample.wp_html).
  - intro u. reflexivity.
  - reflexivity.
Defined.

(** C2, as stated, fails: the same page, read when the clock shows another
    second, gives a record with another [pubDate]. *)
Lemma extraction_depends_on_clock_counterexample :
  map pubDate
    (fst (parseContent Sample.rt (Sample.offline 0)
            (mkContentParser (Sample.generic_info Sample.wp_url)
               "https://example-blog.com")
            Sample.wp_html 0%nat))
  = [ "Thu, 01 Jan 1970 00:00:00 GMT" ]
  /\ map pubDate
       (fst (parseContent Sample.rt (Sample.offline 1000)
               (mkContentParser (Sample.generic_info Sample.wp_url)
                  "https://example-blog.com")
               Sample.wp_html 0%nat))
     = [ "Thu, 01 Jan 1970 00:00:01 GMT" ].
Proof. vm_compute. split; reflexivity. Qed.

(* ================================================================== *)
(** * Further properties of the code *)

(** ** The detectors *)

Lemma filter_length_5 (f : string -> bool) (a b c d e : string) :
  0 <= Z.of_nat (List.length (filter f [a; b; c; d; e])) <= 5.
Proof.
  pose proof (filter_length_le f [a; b; c; d; e]) as H.
  change (List.length [a; b; c; d; e]) with 5%nat in H. lia.
Qed.

(** X1.  The confidence that a detector of the class returns lies between 0
    and 100, whatever the page. *)
Theorem detector_confidence_range :
  Forall (fun d : Detector =>
            forall dom url html, 0 <= r_confidence (d dom url html) <= 100)
    defined_detectors.
Proof.
  unfold defined_detectors.
  repeat (apply Forall_cons; [intros dom url html|]); [..|apply Forall_nil].
  - unfold detectWordPress.
    repeat match goal with |- context [if ?c then _ else _] => destruct c end;
      cbn [r_confidence]; lia.
  - unfold detectMedium.
    repeat match goal with |- context [if ?c then _ else _] => destruct c end;
      cbn [r_confidence]; lia.
  - unfold detectGitHub.
    repeat match goal with |- context [if ?c then _ else _] => destruct c end;
      cbn [r_confidence]; lia.
  - unfold detectNews.
    repeat match goal with |- context [if ?c then _ else _] => destruct c end;
      cbn [r_confidence]; lia.
  - unfold detectECommerce. cbv zeta.
    match goal with |- context [filter ?f [?a; ?b; ?c; ?d; ?e]] =>
      pose proof (filter_length_5 f a b c d e) end.
    repeat match goal with |- context [if ?c then _ else _] => destruct c end;
      cbn [r_confidence]; lia.
  - unfold detectPortfolio. cbv zeta.
    match goal with |- context [filter ?f [?a; ?b; ?c; ?d; ?e]] =>
      pose proof (filter_length_5 f a b c d e) end.
    repeat match goal with |- context [if ?c then _ else _] => destruct c end;
      cbn [r_confidence]; lia.
  - cbn. lia.
Qed.

(** Decides the comparisons of a confidence with its threshold and closes
    the goals that are left. *)
Ltac thresholds :=
  cbn [r_selectors r_confidence orb andb];
  repeat match goal with
         | |- context [?c >? ?n] => destruct (Z.gtb_spec c n); try lia
         end;
  try (split; intro); try discriminate; try congruence; try reflexivity.

(** X2.  The detector for WordPress scores 30 for the assets, 40 for the
    generator tag and 20 for the class of the body, and it supplies its
    selector rules exactly when the generator tag is there together with one
    of the other two signs: the assets and the class alone reach 50, which
    is not enough. *)
Theorem wordpress_rules_iff :
  forall (dom : Dom.Document) (url html : string),
    let generator :=
      opt_includes
        (Dom.attr (Dom.select dom (Dom.css "meta[name='generator']")) "content")
        "WordPress" in
    let assets :=
      JsString.includes html "wp-content" || JsString.includes html "wp-includes" in
    let bar := Dom.hasClass (Dom.select dom (Dom.css "body")) "wp-admin-bar-front" in
    r_confidence (detectWordPress dom url html)
    = (if assets then 30 else 0) + (if generator then 40 else 0)
      + (if bar then 20 else 0)
    /\ r_selectors (detectWordPress dom url html)
       = if generator && (assets || bar) then wordpress_rules else [].
Proof.
  intros dom url html generator assets bar. unfold detectWordPress.
  fold generator assets bar. clearbody generator assets bar.
  destruct assets, generator, bar; split; reflexivity.
Qed.

(** X3.  The detector for Medium supplies rules exactly when the URL names
    [medium.com]; the detector for GitHub needs both a GitHub domain in the
    URL and the site name [GitHub] in the page: the domain alone reaches 50,
    which is not enough. *)
Theorem medium_github_rules_iff :
  forall (dom : Dom.Document) (url html : string),
    (r_selectors (detectMedium dom url html) <> []
     <-> JsString.includes url "medium.com" = true)
    /\ (r_selectors (detectGitHub dom url html) <> []
        <-> (JsString.includes url "github.io" || JsString.includes url "github.com")
            && opt_is
                 (Dom.attr (Dom.select dom (Dom.css "meta[property='og:site_name']"))
                    "content")
                 "GitHub"
            = true).
Proof.
  intros dom url html. split.
  - unfold detectMedium.
    destruct (JsString.includes url "medium.com");
      match goal with |- context [if ?c then _ else _] => destruct c end;
      thresholds.
  - unfold detectGitHub.
    destruct (JsString.includes url "github.io" || JsString.includes url "github.com");
      destruct (opt_is _ _); thresholds.
Qed.

(** X4.  The news detector supplies rules exactly when the page holds
    structured data of an article, or has more than five stories and the
    type [article]; the type alone reaches 30, which is not enough.  The shop
    detector supplies rules exactly when the page has more than five
    products or structured data of a product: its keywords alone reach 25 at
    most. *)
Theorem news_shop_rules_iff :
  forall (dom : Dom.Document) (url html : string),
    let many := Dom.length (Dom.select dom (Dom.css ".article, .news-item, .story")) >? 5 in
    let meta :=
      opt_is (Dom.attr (Dom.select dom (Dom.css "meta[property='og:type']")) "content")
        "article" in
    let data :=
      JsString.includes html (dq ++ "@type" ++ dq ++ ":" ++ dq ++ "NewsArticle" ++ dq)
      || JsString.includes html (dq ++ "@type" ++ dq ++ ":" ++ dq ++ "Article" ++ dq) in
    let listings := Dom.length (Dom.select dom (Dom.css ".product, .item, .goods")) >? 5 in
    let product :=
      JsString.includes html (dq ++ "@type" ++ dq ++ ":" ++ dq ++ "Product" ++ dq) in
    (r_selectors (detectNews dom url html) <> [] <-> data || (many && meta) = true)
    /\ (r_selectors (detectECommerce dom url html) <> []
        <-> listings || product = true).
Proof.
  intros dom url html many meta data listings product. split.
  - unfold detectNews. cbv zeta. fold many meta data. clearbody many meta data.
    destruct many, meta, data; thresholds.
  - unfold detectECommerce. cbv zeta. fold listings product.
    clearbody listings product.
    match goal with |- context [filter ?f [?a; ?b; ?c; ?d; ?e]] =>
      pose proof (filter_length_5 f a b c d e) as Hk;
      set (k := Z.of_nat (List.length (filter f [a; b; c; d; e]))) in *
    end.
    clearbody k.
    destruct listings, product; thresholds.
Qed.

(** X5.  The portfolio detector scores 10 for each of its five keywords
    found in the page or the URL, 30 for more than two projects and 20 for a
    description of a designer; it supplies rules exactly when there are
    projects, or three keywords, or the description and one keyword. *)
Theorem portfolio_rules_iff :
  forall (dom : Dom.Document) (url html : string),
    let k :=
      Z.of_nat (List.length
        (filter (fun keyword =>
                   JsString.includes (JsString.toLowerCase html) keyword
                   || JsString.includes (JsString.toLowerCase url) keyword)
           ["portfolio"; "work"; "project"; "case-study"; "design"])) in
    let listings :=
      Dom.length
        (Dom.select dom (Dom.css ".project, .work, .case-study, .portfolio-item"))
      >? 2 in
    let description :=
      match Dom.attr (Dom.select dom (Dom.css "meta[name='description']")) "content"
      with
      | Some v => JsString.toLowerCase v
      | None => ""
      end in
    let described :=
      existsb (fun word => JsString.includes description word)
        ["designer"; "portfolio"; "creative"; "artist"; "developer"] in
    r_confidence (detectPortfolio dom url html)
    = 10 * k + (if listings then 30 else 0) + (if described then 20 else 0)
    /\ (r_selectors (detectPortfolio dom url html) <> []
        <-> listings || (3 <=? k) || (described && (1 <=? k)) = true).
Proof.
  intros dom url html k listings description described.
  unfold detectPortfolio. cbv zeta. fold k. fold listings. fold description.
  fold described.
  assert (Hk : 0 <= k <= 5) by apply filter_length_5.
  clearbody k listings described. clear description.
  destruct listings, described; cbn [r_confidence r_selectors orb andb].
  all: split; [lia|].
  all: match goal with |- context [?c >? 25] => destruct (Z.gtb_spec c 25) end.
  all: try (destruct (Z.leb_spec 3 k)); try (destruct (Z.leb_spec 1 k)).
  all: try lia.
  all: split; intro; try discriminate; try congruence; try reflexivity.
Qed.

(** ** Identifiers and addresses *)

Lemma every_append (p : ascii -> bool) (a b : string) :
  every p (a ++ b) = every p a && every p b.
Proof.
  induction a as [|c a IH]; cbn [append every]; [reflexivity|].
  now rewrite IH, andb_assoc.
Qed.

Lemma every_substring (p : ascii -> bool) (s : string) :
  every p s = true -> forall a n, every p (String.substring a n s) = true.
Proof.
  induction s as [|c s IH]; intros H a n.
  - destruct a, n; reflexivity.
  - cbn [every] in H. apply andb_true_iff in H. destruct H as [Hc Hs].
    destruct a as [|a]; cbn [String.substring].
    + destruct n as [|n]; [reflexivity|]. cbn [every]. now rewrite Hc, IH.
    + now apply IH.
Qed.

Lemma hex_digit_is_hex (n : Z) : 0 <= n < 16 -> is_hex (MD5.hex_digit n) = true.
Proof.
  intro H. rewrite <- (Z2Nat.id n) by lia.
  assert (Hm : (Z.to_nat n < 16)%nat) by lia.
  revert Hm. generalize (Z.to_nat n). intros m Hm.
  do 16 (destruct m as [|m]; [reflexivity|]). lia.
Qed.

Lemma hex_byte_spec (b : Z) :
  0 <= b < 256 ->
  String.length (MD5.hex_byte b) = 2%nat /\ every is_hex (MD5.hex_byte b) = true.
Proof.
  intro H. split; [reflexivity|]. unfold MD5.hex_byte. cbn [every].
  rewrite !hex_digit_is_hex; [reflexivity | |].
  - apply Z.mod_pos_bound. lia.
  - split; [apply Z.div_pos; lia | apply Z.div_lt_upper_bound; lia].
Qed.

Lemma le_bytes_range (n : nat) : forall x, Forall (fun b => 0 <= b < 256) (MD5.le_bytes n x).
Proof.
  induction n as [|n IH]; intro x; cbn [MD5.le_bytes]; constructor; [|apply IH].
  apply Z.mod_pos_bound. lia.
Qed.

Lemma le_bytes_length (n : nat) : forall x, List.length (MD5.le_bytes n x) = n.
Proof. induction n as [|n IH]; intro x; cbn [MD5.le_bytes List.length]; congruence. Qed.

Lemma concat_hex (bs : list Z) :
  Forall (fun b => 0 <= b < 256) bs ->
  String.length (String.concat "" (map MD5.hex_byte bs)) = (2 * List.length bs)%nat
  /\ every is_hex (String.concat "" (map MD5.hex_byte bs)) = true.
Proof.
  induction 1 as [|b bs Hb Hbs IH]; [split; reflexivity|].
  destruct (hex_byte_spec Hb) as [Hl He]. destruct IH as [IHl IHe].
  destruct bs as [|b' bs].
  - cbn [map String.concat List.length]. now split.
  - change (String.concat "" (map MD5.hex_byte (b :: b' :: bs)))
      with (MD5.hex_byte b ++ "" ++ String.concat "" (map MD5.hex_byte (b' :: bs))).
    cbn [append]. rewrite length_append, every_append, Hl, He, IHl, IHe.
    split; [cbn [List.length]; lia | reflexivity].
Qed.

Lemma hex_spec (s : string) :
  String.length (MD5.hex s) = 32%nat /\ every is_hex (MD5.hex s) = true.
Proof.
  unfold MD5.hex. destruct (MD5.digest s) as [[[a b] c] d].
  match goal with |- context [map MD5.hex_byte ?l] =>
    destruct (@concat_hex l) as [Hl He]
  end.
  - repeat (apply Forall_app; split); apply le_bytes_range.
  - rewrite Hl, !length_app, !le_bytes_length. now split.
Qed.

(** X6.  An identifier is [rssos-] followed by 16 hexadecimal digits in
    lower case, whatever the seed and the URL of the site. *)
Theorem generateGuid_format :
  forall (this : ContentParser) (seed : string),
    exists digits,
      generateGuid this seed = "rssos-" ++ digits
      /\ String.length digits = 16%nat
      /\ every is_hex digits = true.
Proof.
  intros this seed. unfold generateGuid. cbv zeta.
  destruct (hex_spec (seed ++ url (siteInfo this))) as [Hl He].
  eexists. split; [reflexivity|]. split.
  - change 16 with (Z.of_nat 16). apply substring_prefix_length. lia.
  - unfold JsString.substring. now apply every_substring.
Qed.

Lemma prefix_append_l (p a b : string) :
  String.prefix p a = true -> String.prefix p (a ++ b) = true.
Proof.
  revert a. induction p as [|c p IH]; intros a H; [apply prefix_empty|].
  destruct a as [|x a]; [discriminate|]. cbn [append String.prefix] in *.
  destruct (ascii_dec c x); [now apply IH | discriminate].
Qed.

Lemma append_not_empty_r (a b : string) : b <> "" -> a ++ b <> "".
Proof. destruct a; cbn [append]; [auto | discriminate]. Qed.

Lemma resolveUrl_not_empty (this : ContentParser) (u : option string) :
  url (siteInfo this) <> "" -> resolveUrl this u <> "".
Proof.
  intro Hsite. unfold resolveUrl. destruct u as [u|]; [|exact Hsite].
  destruct (String.eqb_spec u "") as [_|Hu]; [exact Hsite|].
  destruct (JsString.startsWith u "http"); [exact Hu|].
  destruct (JsString.startsWith u "//"); [discriminate|].
  destruct (JsString.startsWith u "/"); [now apply append_not_empty_r|].
  apply append_not_empty_r. discriminate.
Qed.

Lemma resolveUrl_http (this : ContentParser) (u : option string) :
  JsString.startsWith (baseUrl this) "http" = true ->
  JsString.startsWith (url (siteInfo this)) "http" = true ->
  JsString.startsWith (resolveUrl this u) "http" = true.
Proof.
  intros Hbase Hsite. unfold resolveUrl. destruct u as [u|]; [|exact Hsite].
  destruct (String.eqb u ""); [exact Hsite|].
  destruct (JsString.startsWith u "http") eqn:E; [exact E|].
  destruct (JsString.startsWith u "//"); [reflexivity|].
  unfold JsString.startsWith in *.
  destruct (String.prefix "/" u); now apply prefix_append_l.
Qed.

(** X7.  When the origin and the URL of the site begin with [http], what
    [resolveUrl] returns begins with [http] too, and resolving it again
    changes nothing. *)
Theorem resolveUrl_absolute :
  forall (this : ContentParser) (u : option string),
    JsString.startsWith (baseUrl this) "http" = true ->
    JsString.startsWith (url (siteInfo this)) "http" = true ->
    JsString.startsWith (resolveUrl this u) "http" = true
    /\ resolveUrl this (Some (resolveUrl this u)) = resolveUrl this u.
Proof.
  intros this u Hbase Hsite.
  pose proof (resolveUrl_http this u Hbase Hsite) as Habs.
  split; [exact Habs|].
  set (r := resolveUrl this u) in *. unfold resolveUrl at 1.
  destruct (String.eqb_spec r "") as [E|_].
  - rewrite E in Habs. discriminate.
  - now rewrite Habs.
Qed.

Lemma resolveUrl_absolute_witness :
  resolveUrl (mkContentParser Sample.blog_test_info "https://blog.example.com")
    (Some "post1")
  = "https://blog.example.com/post1"
  /\ resolveUrl (mkContentParser Sample.blog_test_info "https://blog.example.com")
       (Some "https://blog.example.com/post1")
     = "https://blog.example.com/post1".
Proof.
  destruct (resolveUrl_absolute
              (mkContentParser Sample.blog_test_info "https://blog.example.com")
              (Some "post1") eq_refl eq_refl) as [_ H].
  split; [reflexivity | exact H].
Defined.

(** ** What the records of a run have *)

Lemma or_else_not_empty (a b : string) : a <> "" -> or_else a b = a.
Proof. intro H. unfold or_else. now destruct (String.eqb_spec a ""). Qed.

Lemma extractLink_link (this : ContentParser) (el : Dom.element)
  (selector : option Dom.selector) :
  url (siteInfo this) <> "" -> extractLink this el selector <> "".
Proof.
  intro Hsite. unfold extractLink. cbv zeta.
  destruct (no_selector selector); [exact Hsite|].
  match goal with
  | |- (if truthy ?l then _ else _) <> _ => destruct (truthy l)
  end; [now apply resolveUrl_not_empty | exact Hsite].
Qed.

Lemma each_Forall (body : Z -> Dom.element -> Clock (option Article))
  (P : Article -> Prop) :
  (forall i el k a, fst (body i el k) = Some a -> P a) ->
  forall els i k, Forall P (fst (each body i els k)).
Proof.
  intros Hbody els i k. apply Forall_forall. intros a Hin.
  destruct (each_from _ _ _ _ _ Hin) as (el & j & k' & _ & E).
  exact (Hbody _ _ _ _ E).
Qed.

(** Takes a record pushed by the body of a loop apart: [H] says that the
    body returned it. *)
Ltac pushed H :=
  cbv beta delta [generic_item portfolio_item news_item ecommerce_item
                  repository_item blog_item] zeta in H;
  match type of H with
  | context [if ?c then _ else ret None] =>
      destruct c eqn:?; [|discriminate H]
  end;
  unfold seq_clock, ret in H;
  repeat match type of H with
         | context [pubDate_of ?a ?b ?c ?d] => destruct (pubDate_of a b c d)
         | context [Date_now_utc ?a ?b ?c] => destruct (Date_now_utc a b c)
         end;
  cbn [fst] in H; injection H as <-.

Section Records.

Variable rt : Runtime.
Variable w : World.
Variable this : ContentParser.
Hypothesis site_url : url (siteInfo this) <> "".

Lemma linked_intro (l t : string) (a : Article) :
  l <> "" -> link a = l -> guid a = generateGuid this (or_else l t) -> linked this a.
Proof.
  intros Hl El Eg. split; [now rewrite El|].
  now rewrite Eg, El, or_else_not_empty.
Qed.

Lemma generic_item_linked i el k a :
  fst (generic_item rt w this i el k) = Some a -> linked this a.
Proof.
  intro H. pushed H.
  eapply linked_intro; [apply extractLink_link, site_url | reflexivity..].
Qed.

Lemma portfolio_item_linked i el k a :
  fst (portfolio_item rt w this i el k) = Some a -> linked this a.
Proof.
  intro H. pushed H.
  eapply linked_intro; [apply extractLink_link, site_url | reflexivity..].
Qed.

Lemma news_item_linked i el k a :
  fst (news_item rt w this i el k) = Some a -> linked this a.
Proof.
  intro H. pushed H.
  eapply linked_intro; [apply extractLink_link, site_url | reflexivity..].
Qed.

Lemma ecommerce_item_linked i el k a :
  fst (ecommerce_item rt w this i el k) = Some a -> linked this a.
Proof.
  intro H. pushed H.
  eapply linked_intro; [apply extractLink_link, site_url | reflexivity..].
Qed.

Lemma repository_item_linked i el k a :
  fst (repository_item rt w this i el k) = Some a -> linked this a.
Proof.
  intro H. pushed H.
  eapply linked_intro; [apply extractLink_link, site_url | reflexivity..].
Qed.

Lemma blog_item_linked i el k a :
  fst (blog_item rt w this i el k) = Some a -> linked this a.
Proof.
  intro H. pushed H.
  eapply linked_intro; [apply extractLink_link, site_url | reflexivity..].
Qed.

End Records.

Lemma slice0_Forall {A : Type} (P : A -> Prop) (n : nat) (l : list A) :
  Forall P l -> Forall P (slice0 n l).
Proof.
  intro H. unfold slice0. rewrite <- (firstn_skipn n l) in H.
  now apply Forall_app in H.
Qed.

Lemma or_else_default (a b : string) : b <> "" -> or_else a b <> "".
Proof. intro H. unfold or_else. now destruct (String.eqb_spec a ""). Qed.

Lemma Forall_set_nth {A : Type} (P : A -> Prop) (x : A) :
  P x -> forall (l : list A) (i : nat), Forall P l -> Forall P (set_nth i x l).
Proof.
  intros Hx l. induction l as [|y l IH]; intros i H; [destruct i; constructor|].
  inversion H; subst. destruct i; cbn [set_nth]; constructor; auto.
Qed.

Lemma mt_Forall (rt : Runtime) (w : World) (this : ContentParser)
  (P : Article -> Prop) :
  (forall el st k,
     Forall (fun m : Marked => P (fst m)) (fst st) ->
     Forall (fun m : Marked => P (fst m)) (fst (fst (mt_entry rt w this el st k)))) ->
  (forall el st k,
     Forall (fun m : Marked => P (fst m)) (fst st) ->
     Forall (fun m : Marked => P (fst m)) (fst (fst (mt_recent rt w this el st k)))) ->
  (forall a, P a -> P (enriched rt w a)) ->
  forall dom html k, Forall P (fst (parseMovableTypeBlog rt w this dom html k)).
Proof.
  intros Hentry Hrecent Henrich dom html k.
  assert (Hloop : forall (body : Dom.element -> MtState -> Clock MtState),
             (forall el st k,
                Forall (fun m : Marked => P (fst m)) (fst st) ->
                Forall (fun m : Marked => P (fst m)) (fst (fst (body el st k)))) ->
             forall els st k,
               Forall (fun m : Marked => P (fst m)) (fst st) ->
               Forall (fun m : Marked => P (fst m))
                 (fst (fst (each_with body els st k)))).
  { intros body Hbody. induction els as [|e els IH]; intros st k0 H; [exact H|].
    cbn [each_with]. unfold seq_clock.
    specialize (Hbody e st k0 H). destruct (body e st k0) as [st1 k1].
    now apply IH. }
  assert (Hfold : forall positions articles,
             Forall (fun m : Marked => P (fst m)) articles ->
             Forall (fun m : Marked => P (fst m))
               (fold_left (enrich rt w) positions articles)).
  { induction positions as [|i positions IH]; intros articles H; [exact H|].
    cbn [fold_left]. apply IH. unfold enrich.
    destruct (nth_error articles i) as [[a flag]|] eqn:E; [|exact H].
    apply Forall_set_nth; [|exact H]. cbn [fst]. apply Henrich.
    apply nth_error_In in E. exact (proj1 (Forall_forall _ _) H _ E). }
  unfold parseMovableTypeBlog, mt_candidates, seq_clock, ret.
  pose proof (Hloop _ Hentry (Dom.select dom (Dom.css ".entry-asset")) ([], []) k
                (Forall_nil _)) as H1.
  destruct (each_with (mt_entry rt w this) _ _ k) as [st1 k1].
  pose proof (Hloop _ Hrecent
                (Dom.select dom (Dom.css "#homepage .module-list-item")) st1 k1 H1)
    as H2.
  destruct (each_with (mt_recent rt w this) _ _ k1) as [st2 k2].
  cbn [fst] in *. apply slice0_Forall, Forall_map, Hfold, H2.
Qed.

Section MovableTypeRecords.

Variable rt : Runtime.
Variable w : World.
Variable this : ContentParser.
Hypothesis site_url : url (siteInfo this) <> "".

Lemma mt_records_push (articles : list Marked) (a : Article) (flag : bool) :
  Forall (fun m : Marked => mt_record this (fst m)) articles ->
  mt_record this a ->
  Forall (fun m : Marked => mt_record this (fst m)) (articles ++ [(a, flag)])%list.
Proof.
  intros H Ha. apply Forall_app. split; [exact H|].
  constructor; [exact Ha | constructor].
Qed.

Lemma mt_entry_records el st k :
  Forall (fun m : Marked => mt_record this (fst m)) (fst st) ->
  Forall (fun m : Marked => mt_record this (fst m))
    (fst (fst (mt_entry rt w this el st k))).
Proof.
  destruct st as [articles seen]. intro H.
  unfold mt_entry, seq_clock, Date_now_utc, ret. cbv beta iota zeta.
  match goal with
  | |- context [negb (String.eqb ?t "") && negb (has seen ?l)] =>
      destruct (String.eqb_spec t "") as [|Ht]; [exact H|];
      destruct (has seen l); [exact H|]
  end.
  cbn [negb andb fst]. apply mt_records_push; [exact H|].
  unfold mt_record. cbn [title link guid content author category image].
  split; [exact Ht|]. split.
  { match goal with |- (if ?c then _ else _) <> _ => destruct c end;
      [now apply resolveUrl_not_empty | exact site_url]. }
  split; [reflexivity|]. split; [|repeat split].
  apply or_else_default.
  match goal with |- "<p>" ++ ?x <> _ => discriminate end.
Qed.

Lemma mt_recent_records el st k :
  Forall (fun m : Marked => mt_record this (fst m)) (fst st) ->
  Forall (fun m : Marked => mt_record this (fst m))
    (fst (fst (mt_recent rt w this el st k))).
Proof.
  destruct st as [articles seen]. intro H.
  unfold mt_recent, seq_clock, Date_now_utc, ret. cbv beta iota zeta.
  destruct (Dom.length _ >? 0)%Z; [|exact H].
  match goal with
  | |- context [negb (String.eqb ?t "") && negb (has seen ?l) && ?c] =>
      destruct (String.eqb_spec t "") as [|Ht]; [exact H|];
      destruct (has seen l); [exact H|];
      destruct c; [|exact H]
  end.
  cbn [negb andb fst]. apply mt_records_push; [exact H|].
  unfold mt_record. cbn [title link guid content author category image].
  split; [exact Ht|]. split; [now apply resolveUrl_not_empty|].
  split; [reflexivity|]. split; [discriminate | repeat split].
Qed.

Lemma enriched_record (a : Article) :
  mt_record this a -> mt_record this (enriched rt w a).
Proof.
  intro H. unfold enriched.
  destruct (fetchRuanyifengArticleContent rt w (link a)) as [c|]; [|exact H].
  destruct (String.eqb_spec c "") as [|Hc]; [exact H|].
  cbn [try_catch]. unfold mt_record in *.
  cbn [title link guid content author category image].
  destruct H as (Ht & Hl & Hg & _ & Hrest). auto.
Qed.

Lemma parseMovableTypeBlog_records dom html k :
  Forall (mt_record this) (fst (parseMovableTypeBlog rt w this dom html k)).
Proof.
  apply mt_Forall;
    [exact mt_entry_records | exact mt_recent_records | exact enriched_record].
Qed.

End MovableTypeRecords.

(** X8.  Outside the path of the embedded data, every record of a run has a
    link that is not empty and the identifier of that link: a link
    defaults to the URL of the site, so the title a strategy offers as a
    second seed never reaches the identifier. *)
Theorem identifier_of_link :
  forall (rt : Runtime) (w : World) (this : ContentParser) (html : string)
         (k : nat) (a : Article),
    url (siteInfo this) <> "" ->
    embedded_data this html = false ->
    In a (fst (parseContent rt w this html k)) ->
    link a <> "" /\ guid a = generateGuid this (link a).
Proof.
  intros rt w this html k a Hsite Hemb.
  assert (H : Forall (linked this) (fst (parseContent rt w this html k))).
  { unfold embedded_data in Hemb. unfold parseContent.
    destruct (String.eqb (type (siteInfo this)) "portfolio").
    { cbn [andb] in Hemb. unfold parsePortfolioContent. rewrite Hemb.
      unfold seq_clock, ret.
      pose proof (each_Forall (portfolio_item rt w this) (linked this)
                    (@portfolio_item_linked rt w this Hsite)
                    (select_rule (load rt html)
                       (rule "articles" (selectors (siteInfo this)))) 0 k) as H.
      destruct (each _ _ _ _) as [l k']. now apply slice0_Forall. }
    destruct (String.eqb _ "blog").
    { unfold parseBlogContent. destruct (String.eqb _ "movable-type").
      - eapply Forall_impl; [|apply parseMovableTypeBlog_records, Hsite].
        intros b (_ & Hl & Hg & _). now split.
      - apply each_Forall. now apply blog_item_linked. }
    destruct (String.eqb _ "news");
      [apply each_Forall; now apply news_item_linked|].
    destruct (String.eqb _ "ecommerce");
      [apply each_Forall; now apply ecommerce_item_linked|].
    destruct (String.eqb _ "repository");
      [apply each_Forall; now apply repository_item_linked|].
    apply each_Forall. now apply generic_item_linked. }
  intro Hin. exact (proj1 (Forall_forall _ _) H a Hin).
Qed.

Lemma identifier_of_link_witness :
  Forall (fun a => link a <> ""
                   /\ guid a
                      = generateGuid
                          (mkContentParser (Sample.generic_info Sample.site) Sample.site)
                          (link a))
    (fst (parseContent Sample.rt (Sample.offline 0)
            (mkContentParser (Sample.generic_info Sample.site) Sample.site)
            Sample.twins_html 0%nat)).
Proof.
  apply Forall_forall. intros a Hin.
  apply (identifier_of_link Sample.rt (Sample.offline 0)
           (mkContentParser (Sample.generic_info Sample.site) Sample.site)
           Sample.twins_html 0%nat a); [discriminate | reflexivity | exact Hin].
Defined.
Section NoLinkRule.

Variable rt : Runtime.
Variable w : World.
Variable this : ContentParser.
Hypothesis site_url : url (siteInfo this) <> "".
Hypothesis no_rule : rule "link" (selectors (siteInfo this)) = None.

Lemma site_linked_intro (t : string) (a : Article) :
  link a = extractLink this (Dom.mkElement [] "" [] []) None ->
  guid a = generateGuid this (or_else (url (siteInfo this)) t) ->
  (site_linked this) a.
Proof.
  intros El Eg. split; [exact El|]. now rewrite Eg, or_else_not_empty.
Qed.

Ltac to_site H :=
  pushed H; rewrite no_rule; eapply site_linked_intro; reflexivity.

Lemma generic_item_site i el k a :
  fst (generic_item rt w this i el k) = Some a -> (site_linked this) a.
Proof. intro H. to_site H. Qed.

Lemma portfolio_item_site i el k a :
  fst (portfolio_item rt w this i el k) = Some a -> (site_linked this) a.
Proof. intro H. to_site H. Qed.

Lemma news_item_site i el k a :
  fst (news_item rt w this i el k) = Some a -> (site_linked this) a.
Proof. intro H. to_site H. Qed.

Lemma ecommerce_item_site i el k a :
  fst (ecommerce_item rt w this i el k) = Some a -> (site_linked this) a.
Proof. intro H. to_site H. Qed.

Lemma repository_item_site i el k a :
  fst (repository_item rt w this i el k) = Some a -> (site_linked this) a.
Proof. intro H. to_site H. Qed.

Lemma blog_item_site i el k a :
  fst (blog_item rt w this i el k) = Some a -> (site_linked this) a.
Proof. intro H. to_site H. Qed.

Lemma parseContent_site html k :
  embedded_data this html = false ->
  platform (siteInfo this) <> "movable-type" ->
  Forall (site_linked this) (fst (parseContent rt w this html k)).
Proof.
  intros Hemb Hmt. unfold embedded_data in Hemb. unfold parseContent.
  destruct (String.eqb (type (siteInfo this)) "portfolio").
  { cbn [andb] in Hemb. unfold parsePortfolioContent. rewrite Hemb.
    unfold seq_clock, ret.
    pose proof (each_Forall (portfolio_item rt w this) (site_linked this)
                  portfolio_item_site
                  (select_rule (load rt html)
                     (rule "articles" (selectors (siteInfo this)))) 0 k) as H.
    destruct (each _ _ _ _) as [l k']. now apply slice0_Forall. }
  destruct (String.eqb _ "blog").
  { unfold parseBlogContent.
    destruct (String.eqb_spec (platform (siteInfo this)) "movable-type");
      [contradiction|].
    apply each_Forall. exact blog_item_site. }
  destruct (String.eqb _ "news"); [apply each_Forall; exact news_item_site|].
  destruct (String.eqb _ "ecommerce");
    [apply each_Forall; exact ecommerce_item_site|].
  destruct (String.eqb _ "repository");
    [apply each_Forall; exact repository_item_site|].
  apply each_Forall. exact generic_item_site.
Qed.

End NoLinkRule.

(** X9.  Under a classification without a rule for links, outside the
    Movable Type strategy and the path of the embedded data, every record
    of a run links to the URL of the site and has the identifier of that
    URL: the records of the run share one identifier. *)
Theorem records_without_link_rule :
  forall (rt : Runtime) (w : World) (this : ContentParser) (html : string)
         (k : nat) (a : Article),
    url (siteInfo this) <> "" ->
    rule "link" (selectors (siteInfo this)) = None ->
    embedded_data this html = false ->
    platform (siteInfo this) <> "movable-type" ->
    In a (fst (parseContent rt w this html k)) ->
    link a = url (siteInfo this)
    /\ guid a = generateGuid this (url (siteInfo this)).
Proof.
  intros rt w this html k a Hsite Hrule Hemb Hmt Hin.
  exact (proj1 (Forall_forall _ _)
           (@parseContent_site rt w this Hsite Hrule html k Hemb Hmt) a Hin).
Qed.

Lemma no_link_rule_detected (d : Detector) (dom : Dom.Document) (u html : string) :
  In d [detectMedium; detectGitHub; detectNews; detectECommerce] ->
  rule "link" (r_selectors (d dom u html)) = None
  /\ r_type (d dom u html) <> "portfolio"
  /\ r_platform (d dom u html) <> "movable-type".
Proof.
  intros [<-|[<-|[<-|[<-|[]]]]].
  - unfold detectMedium. cbv zeta.
    repeat match goal with |- context [if ?c then _ else _] => destruct c end;
      repeat split; discriminate.
  - unfold detectGitHub. cbv zeta.
    repeat match goal with |- context [if ?c then _ else _] => destruct c end;
      repeat split; discriminate.
  - unfold detectNews. cbv zeta.
    repeat match goal with |- context [if ?c then _ else _] => destruct c end;
      repeat split; discriminate.
  - unfold detectECommerce. cbv zeta.
    repeat match goal with |- context [if ?c then _ else _] => destruct c end;
      repeat split; discriminate.
Qed.

(** X10.  The detectors for Medium, GitHub, news sites and shops supply no
    rule for links.  With the candidate of one of them as the
    classification, every record of a run links to the URL that was
    classified and has the identifier of that URL. *)
Theorem detected_records_link_to_site :
  forall (rt : Runtime) (w : World) (d : Detector) (u html : string)
         (this : ContentParser) (k : nat) (a : Article),
    In d [detectMedium; detectGitHub; detectNews; detectECommerce] ->
    u <> "" ->
    siteInfo this = assign (initial u) (d (load rt html) u html) ->
    In a (fst (parseContent rt w this html k)) ->
    link a = u /\ guid a = generateGuid this u.
Proof.
  intros rt w d u html this k a Hd Hu Hsi Hin.
  destruct (@no_link_rule_detected d (load rt html) u html Hd) as (Hrule & Ht & Hp).
  assert (Eu : url (siteInfo this) = u) by now rewrite Hsi.
  rewrite <- Eu.
  assert (H : Forall (site_linked this) (fst (parseContent rt w this html k))).
  { apply parseContent_site.
    - now rewrite Eu.
    - now rewrite Hsi.
    - unfold embedded_data. rewrite Hsi. cbn [assign type].
      destruct (String.eqb_spec (r_type (d (load rt html) u html)) "portfolio");
        [contradiction | reflexivity].
    - now rewrite Hsi. }
  exact (proj1 (Forall_forall _ _) H a Hin).
Qed.

Lemma detected_records_link_to_site_witness :
  Forall (fun a => link a = Sample.site
                   /\ guid a
                      = generateGuid
                          (mkContentParser (Sample.news_info 21) Sample.site)
                          Sample.site)
    (fst (parseContent Sample.rt (Sample.offline 0)
            (mkContentParser (Sample.news_info 21) Sample.site)
            (Sample.news_html 21) 0%nat)).
Proof.
  apply Forall_forall. intros a Hin.
  apply (@detected_records_link_to_site Sample.rt (Sample.offline 0) detectNews
           Sample.site (Sample.news_html 21)
           (mkContentParser (Sample.news_info 21) Sample.site) 0%nat a);
    [right; right; left; reflexivity | discriminate | vm_compute; reflexivity
    | exact Hin].
Defined.

Lemma records_without_link_rule_witness :
  Forall (fun a => link a = Sample.site)
    (fst (parseContent Sample.rt (Sample.offline 0)
            (mkContentParser (Sample.news_info 21) Sample.site)
            (Sample.news_html 21) 0%nat)).
Proof.
  apply Forall_forall. intros a Hin.
  apply (@records_without_link_rule Sample.rt (Sample.offline 0)
           (mkContentParser (Sample.news_info 21) Sample.site)
           (Sample.news_html 21) 0%nat a);
    [vm_compute; discriminate | vm_compute; reflexivity | vm_compute; reflexivity
    | vm_compute; discriminate | exact Hin].
Defined.

(** ** Attributes *)

Lemma get_set_attr (k v : string) (a : Dom.attrs) :
  Dom.get_attr k (Dom.set_attr k v a) = Some v.
Proof.
  induction a as [|[k' v'] a IH]; cbn [Dom.set_attr Dom.get_attr].
  - now rewrite String.eqb_refl.
  - destruct (String.eqb_spec k' k) as [->|Hne]; cbn [Dom.get_attr].
    + now rewrite String.eqb_refl.
    + destruct (String.eqb_spec k' k); [contradiction | exact IH].
Qed.

Lemma get_set_attr_other (k k' v : string) (a : Dom.attrs) :
  k <> k' -> Dom.get_attr k' (Dom.set_attr k v a) = Dom.get_attr k' a.
Proof.
  intro Hne. induction a as [|[k0 v0] a IH]; cbn [Dom.set_attr Dom.get_attr].
  - destruct (String.eqb_spec k k'); [contradiction | reflexivity].
  - destruct (String.eqb_spec k0 k) as [->|Hk]; cbn [Dom.get_attr].
    + destruct (String.eqb_spec k k'); [contradiction | reflexivity].
    + destruct (String.eqb_spec k0 k'); [reflexivity | exact IH].
Qed.

Lemma set_set_attr (k v : string) (a : Dom.attrs) :
  Dom.set_attr k v (Dom.set_attr k v a) = Dom.set_attr k v a.
Proof.
  induction a as [|[k' v'] a IH]; cbn [Dom.set_attr].
  - now rewrite String.eqb_refl.
  - destruct (String.eqb_spec k' k) as [->|Hne]; cbn [Dom.set_attr].
    + now rewrite String.eqb_refl.
    + destruct (String.eqb_spec k' k); [contradiction | now rewrite IH].
Qed.

Lemma startsWith_slash (s : string) :
  JsString.startsWith s "/" = true ->
  s <> "" /\ JsString.startsWith s "http" = false
  /\ JsString.startsWith s "mailto" = false.
Proof.
  destruct s as [|c s]; [discriminate|]. unfold JsString.startsWith.
  cbn [String.prefix]. destruct (ascii_dec "/" c) as [<-|]; [|discriminate].
  intros _. repeat split. discriminate.
Qed.

(** X11.  What [cleanRuanyifengContent] does to the attributes of an image:
    the style is set; a source that is neither empty nor absolute is put
    under the site (under [/blog/] when it does not start with a slash);
    no other attribute changes; the source that results is empty or
    absolute; doing it twice is doing it once. *)
Theorem fix_img_spec :
  forall (a : Dom.attrs),
    Dom.get_attr "style" (fix_img a) = Some img_style
    /\ (forall k, k <> "src" -> k <> "style" ->
          Dom.get_attr k (fix_img a) = Dom.get_attr k a)
    /\ Dom.get_attr "src" (fix_img a)
       = match Dom.get_attr "src" a with
         | Some s =>
             if String.eqb s "" || JsString.startsWith s "http" then Some s
             else if JsString.startsWith s "/" then Some (blog_site ++ s)
             else Some (blog_site ++ "/blog/" ++ s)
         | None => None
         end
    /\ (forall s, Dom.get_attr "src" (fix_img a) = Some s ->
          s = "" \/ JsString.startsWith s "http" = true)
    /\ fix_img (fix_img a) = fix_img a.
Proof.
  intro a.
  assert (Hsrc : Dom.get_attr "src" (fix_img a)
                 = match Dom.get_attr "src" a with
                   | Some s =>
                       if String.eqb s "" || JsString.startsWith s "http" then Some s
                       else if JsString.startsWith s "/" then Some (blog_site ++ s)
                       else Some (blog_site ++ "/blog/" ++ s)
                   | None => None
                   end).
  { unfold fix_img. cbv zeta. rewrite get_set_attr_other by discriminate.
    destruct (Dom.get_attr "src" a) as [s|] eqn:E; [|exact E].
    destruct (String.eqb s ""); cbn [negb andb orb]; [exact E|].
    destruct (JsString.startsWith s "http"); cbn [negb]; [exact E|].
    destruct (JsString.startsWith s "/"); apply get_set_attr. }
  assert (Habs : forall s, Dom.get_attr "src" (fix_img a) = Some s ->
                   s = "" \/ JsString.startsWith s "http" = true).
  { intros s. rewrite Hsrc. destruct (Dom.get_attr "src" a) as [s0|]; [|discriminate].
    destruct (String.eqb_spec s0 "") as [E0|_]; cbn [orb].
    - intros [= <-]. now left.
    - destruct (JsString.startsWith s0 "http") eqn:E.
      + intros [= <-]. now right.
      + destruct (JsString.startsWith s0 "/"); intros [= <-]; now right. }
  split; [apply get_set_attr|]. split.
  { intros k Hk1 Hk2. unfold fix_img. cbv zeta.
    rewrite get_set_attr_other by congruence.
    destruct (Dom.get_attr "src" a) as [s|]; [|reflexivity].
    destruct (negb (String.eqb s "") && negb (JsString.startsWith s "http"));
      [|reflexivity].
    destruct (JsString.startsWith s "/"); apply get_set_attr_other; congruence. }
  split; [exact Hsrc|]. split; [exact Habs|].
  unfold fix_img at 1. cbv zeta.
  destruct (Dom.get_attr "src" (fix_img a)) as [s|] eqn:E.
  - destruct (Habs s eq_refl) as [->|Hs].
    + cbn [String.eqb negb andb]. unfold fix_img. cbv zeta. apply set_set_attr.
    + rewrite Hs, andb_false_r. unfold fix_img. cbv zeta. apply set_set_attr.
  - unfold fix_img. cbv zeta. apply set_set_attr.
Qed.

(** X12.  What [cleanRuanyifengContent] does to the attributes of an
    anchor: an address that starts with a slash is put under the site, any
    other address and every other attribute stay; doing it twice is doing
    it once. *)
Theorem fix_link_spec :
  forall (a : Dom.attrs),
    (forall k, k <> "href" -> Dom.get_attr k (fix_link a) = Dom.get_attr k a)
    /\ Dom.get_attr "href" (fix_link a)
       = match Dom.get_attr "href" a with
         | Some h =>
             if JsString.startsWith h "/" then Some (blog_site ++ h) else Some h
         | None => None
         end
    /\ fix_link (fix_link a) = fix_link a.
Proof.
  intro a.
  assert (Hhref : Dom.get_attr "href" (fix_link a)
                  = match Dom.get_attr "href" a with
                    | Some h =>
                        if JsString.startsWith h "/" then Some (blog_site ++ h)
                        else Some h
                    | None => None
                    end).
  { unfold fix_link. destruct (Dom.get_attr "href" a) as [h|] eqn:E; [|exact E].
    destruct (JsString.startsWith h "/") eqn:Hs.
    - destruct (startsWith_slash _ Hs) as (Hne & -> & ->).
      destruct (String.eqb_spec h ""); [contradiction|]. apply get_set_attr.
    - destruct (negb (String.eqb h "") && negb (JsString.startsWith h "http")
                && negb (JsString.startsWith h "mailto")); exact E. }
  split.
  { intros k Hk. unfold fix_link. destruct (Dom.get_attr "href" a) as [h|];
      [|reflexivity].
    destruct (negb (String.eqb h "") && negb (JsString.startsWith h "http")
              && negb (JsString.startsWith h "mailto")); [|reflexivity].
    destruct (JsString.startsWith h "/"); [|reflexivity].
    apply get_set_attr_other. congruence. }
  split; [exact Hhref|].
  destruct (Dom.get_attr "href" a) as [h|] eqn:E.
  - destruct (JsString.startsWith h "/") eqn:Hs.
    + unfold fix_link at 1. rewrite Hhref. reflexivity.
    + assert (Ea : fix_link a = a).
      { unfold fix_link. rewrite E, Hs.
        now destruct (negb (String.eqb h "") && negb (JsString.startsWith h "http")
                      && negb (JsString.startsWith h "mailto")). }
      now rewrite !Ea.
  - assert (Ea : fix_link a = a) by (unfold fix_link; now rewrite E).
    now rewrite !Ea.
Qed.
(** ** The rule-driven strategies *)

Lemma generateSummary_length (text : string) (n : nat) :
  (String.length (generateSummary text (Z.of_nat n)) <= n + 3)%nat.
Proof.
  unfold generateSummary. destruct (String.eqb text ""); [cbn; lia|]. cbv zeta.
  set (clean := JsString.trim (JsString.collapse_ws text)).
  destruct (Z.gtb_spec (JsString.len clean) (Z.of_nat n)) as [H|H];
    unfold JsString.len in H.
  - rewrite length_append, substring_prefix_length by lia. cbn. lia.
  - lia.
Qed.

(** X13.  The descriptions of the records of the generic strategy and of
    the rule-driven blog strategy have at most 203 characters: a summary of
    200 and the ellipsis. *)
Theorem description_bound :
  forall (rt : Runtime) (w : World) (this : ContentParser) (dom : Dom.Document)
         (html : string) (k : nat),
    Forall (fun a => (String.length (description a) <= 203)%nat)
      (fst (parseGenericContent rt w this dom html k))
    /\ (platform (siteInfo this) <> "movable-type" ->
        Forall (fun a => (String.length (description a) <= 203)%nat)
          (fst (parseBlogContent rt w this dom html k))).
Proof.
  intros rt w this dom html k. split.
  - apply each_Forall. intros i el k' a H. pushed H. cbn [description].
    apply (generateSummary_length _ 200).
  - intro Hmt. unfold parseBlogContent.
    destruct (String.eqb_spec (platform (siteInfo this)) "movable-type");
      [contradiction|].
    apply each_Forall. intros i el k' a H. pushed H. cbn [description].
    apply (generateSummary_length _ 200).
Qed.

Lemma description_bound_witness :
  Forall (fun a => (String.length (description a) <= 203)%nat)
    (fst (parseBlogContent Sample.test_rt (Sample.offline 0)
            (mkContentParser Sample.blog_test_info "https://blog.example.com")
            Sample.blog_test_dom Sample.blog_test_html 0%nat))
  /\ fst (parseBlogContent Sample.test_rt (Sample.offline 0)
            (mkContentParser Sample.blog_test_info "https://blog.example.com")
            Sample.blog_test_dom Sample.blog_test_html 0%nat)
     <> [].
Proof.
  split; [|vm_compute; discriminate].
  destruct (@description_bound Sample.test_rt (Sample.offline 0)
              (mkContentParser Sample.blog_test_info "https://blog.example.com")
              Sample.blog_test_dom Sample.blog_test_html 0%nat) as [_ H].
  apply H. vm_compute. discriminate.
Defined.

(** A loop whose body pushes a record exactly for the elements that [takes]
    accepts returns a record for each of these, in their order. *)
Lemma each_filter (body : Z -> Dom.element -> Clock (option Article))
  (takes : Dom.element -> bool) (B : Type) (f : Article -> B)
  (g : Dom.element -> B) :
  (forall i el k, takes el = false -> fst (body i el k) = None) ->
  (forall i el k, takes el = true ->
     exists a, fst (body i el k) = Some a /\ f a = g el) ->
  forall els i k,
    map f (fst (each body i els k)) = map g (filter takes els).
Proof.
  intros Hno Hyes. induction els as [|e els IH]; intros i k; [reflexivity|].
  rewrite each_cons. cbn [fst filter].
  destruct (takes e) eqn:E.
  - destruct (Hyes i e k E) as (a & -> & Ea). cbn [map]. now rewrite Ea, IH.
  - rewrite (Hno i e k E). apply IH.
Qed.

(** X14.  The generic strategy returns one record for each matched element
    whose title has more than five characters, in the order of the page,
    with the trimmed title, the link and the content the rules extract from
    that element; it has no bound on their number. *)
Theorem parseGenericContent_map_filter :
  forall (rt : Runtime) (w : World) (this : ContentParser) (dom : Dom.Document)
         (html : string) (k : nat),
    let rules := selectors (siteInfo this) in
    map (fun a => (title a, link a, content a))
      (fst (parseGenericContent rt w this dom html k))
    = map (fun el =>
             (JsString.trim (extractText el (rule "title" rules)),
              extractLink this el (rule "link" rules),
              extractText el (rule "content" rules)))
        (filter (generic_takes this) (select_rule dom (rule "articles" rules))).
Proof.
  intros rt w this dom html k rules. unfold parseGenericContent.
  apply each_filter.
  - intros i el k' H. unfold generic_takes in H. unfold generic_item.
    cbv zeta in *. now rewrite H.
  - intros i el k' H. unfold generic_takes in H. unfold generic_item.
    cbv zeta in *. rewrite H. unfold seq_clock, ret.
    destruct (pubDate_of _ _ _ _) as [d k'']. eexists. split; reflexivity.
Qed.

(** A loop whose body pushes a record for every element returns the record
    of the [j]-th element at position [j]; the body saw it with the index
    [i + j]. *)
Lemma each_nth (body : Z -> Dom.element -> Clock (option Article))
  (Q : Z -> Dom.element -> Article -> Prop) :
  (forall i el k, exists a, fst (body i el k) = Some a /\ Q i el a) ->
  forall els i k j el,
    nth_error els j = Some el ->
    exists a,
      nth_error (fst (each body i els k)) j = Some a /\ Q (i + Z.of_nat j) el a.
Proof.
  intros Hbody. induction els as [|e els IH]; intros i k j el Hj.
  - destruct j; discriminate.
  - rewrite each_cons. cbn [fst].
    destruct (Hbody i e k) as (a & Ea & Qa). rewrite Ea.
    destruct j as [|j]; cbn [nth_error] in *.
    + injection Hj as <-. exists a. split; [reflexivity|].
      now replace (i + Z.of_nat 0) with i by lia.
    + destruct (IH (i + 1) (snd (body i e k)) j el Hj) as (b & Eb & Qb).
      exists b. split; [exact Eb|].
      now replace (i + Z.of_nat (S j)) with (i + 1 + Z.of_nat j) by lia.
Qed.

Lemma portfolio_item_pushes (rt : Runtime) (w : World) (this : ContentParser)
  (i : Z) (el : Dom.element) (k : nat) :
  exists a,
    fst (portfolio_item rt w this i el k) = Some a
    /\ title a
       = JsString.trim
           (or_else (extractText el (rule "title" (selectors (siteInfo this))))
              ("Project " ++ JsString.decimal (i + 1)))
    /\ image a = extractImage this el (rule "image" (selectors (siteInfo this))).
Proof.
  unfold portfolio_item. cbv zeta.
  match goal with
  | |- context [negb (String.eqb ?t "")] =>
      destruct (String.eqb_spec t "") as [E|_]
  end.
  - exfalso. revert E. apply or_else_default. discriminate.
  - cbn [negb]. unfold seq_clock, ret. destruct (Date_now_utc rt w k).
    eexists. repeat split.
Qed.

(** X15.  Outside the path of the embedded data, the portfolio strategy
    returns a record for each of the first 20 matched elements, at the
    position of the element: one without a title is titled [Project n],
    where [n] counts the matched elements from 1, and the image is the one
    the rule for images extracts. *)
Theorem parsePortfolioContent_records :
  forall (rt : Runtime) (w : World) (this : ContentParser) (dom : Dom.Document)
         (html : string) (k : nat),
    JsString.includes html "_json/" && JsString.includes html ".json" = false ->
    let rules := selectors (siteInfo this) in
    let els := select_rule dom (rule "articles" rules) in
    List.length (fst (parsePortfolioContent rt w this dom html k))
    = Nat.min 20 (List.length els)
    /\ forall j el,
         (j < 20)%nat -> nth_error els j = Some el ->
         exists a,
           nth_error (fst (parsePortfolioContent rt w this dom html k)) j = Some a
           /\ title a
              = JsString.trim
                  (or_else (extractText el (rule "title" rules))
                     ("Project " ++ JsString.decimal (Z.of_nat j + 1)))
           /\ image a = extractImage this el (rule "image" rules).
Proof.
  intros rt w this dom html k Hstd rules els.
  unfold parsePortfolioContent. rewrite Hstd. unfold seq_clock, ret. fold rules els.
  pose proof (each_length_all (portfolio_item rt w this) els 0 k) as Hlen.
  pose proof (each_nth (portfolio_item rt w this)
                (fun i el a =>
                   title a
                   = JsString.trim
                       (or_else (extractText el (rule "title" rules))
                          ("Project " ++ JsString.decimal (i + 1)))
                   /\ image a = extractImage this el (rule "image" rules))
                (portfolio_item_pushes rt w this) els 0 k) as Hnth.
  destruct (each (portfolio_item rt w this) 0 els k) as [l k']. cbn [fst] in *.
  split.
  - unfold slice0. rewrite length_firstn, Hlen; [reflexivity|].
    intros el i k0 _ E.
    destruct (portfolio_item_pushes rt w this i el k0) as (a & Ea & _). congruence.
  - intros j el Hj Hel. destruct (Hnth j el Hel) as (a & Ea & Qa).
    exists a. split; [|exact Qa].
    unfold slice0. rewrite nth_error_firstn.
    destruct (Nat.ltb_spec j 20); [exact Ea | lia].
Qed.

Lemma parsePortfolioContent_records_witness :
  exists a,
    nth_error
      (fst (parsePortfolioContent Sample.test_rt (Sample.offline 0)
              (mkContentParser Sample.portfolio_test_info "https://portfolio.example.com")
              Sample.portfolio_test_dom Sample.portfolio_test_html 0%nat))
      0
    = Some a
    /\ title a = "Design Project"
    /\ image a = Some "https://portfolio.example.com/images/project.jpg".
Proof.
  pose proof (@parsePortfolioContent_records Sample.test_rt (Sample.offline 0)
                (mkContentParser Sample.portfolio_test_info "https://portfolio.example.com")
                Sample.portfolio_test_dom Sample.portfolio_test_html 0%nat
                ltac:(vm_compute; reflexivity)) as H.
  cbv zeta in H. destruct H as [_ H].
  edestruct (H 0%nat) as (a & Ha & Ht & Hi);
    [lia | vm_compute; reflexivity |].
  exists a. split; [exact Ha|]. split.
  - rewrite Ht. vm_compute. reflexivity.
  - rewrite Hi. vm_compute. reflexivity.
Defined.

(** ** The Movable Type strategy *)

(** X16.  Every record of the Movable Type strategy has a title, a link and
    a content that are not empty, the identifier of its link, the author
    and the category the strategy writes, and no image, whether its
    secondary fetch succeeded or not. *)
Theorem movable_type_records :
  forall (rt : Runtime) (w : World) (this : ContentParser) (dom : Dom.Document)
         (html : string) (k : nat) (a : Article),
    url (siteInfo this) <> "" ->
    In a (fst (parseMovableTypeBlog rt w this dom html k)) ->
    title a <> "" /\ link a <> "" /\ guid a = generateGuid this (link a)
    /\ content a <> "" /\ author a = Some "阮一峰" /\ category a = Some "Blog"
    /\ image a = None.
Proof.
  intros rt w this dom html k a Hsite Hin.
  exact (proj1 (Forall_forall _ _)
           (@parseMovableTypeBlog_records rt w this Hsite dom html k) a Hin).
Qed.

Lemma movable_type_records_witness :
  Forall (fun a => title a <> "" /\ content a <> "" /\ category a = Some "Blog")
    (fst (parseMovableTypeBlog Sample.mt_rt Sample.mt_world Sample.mt_parser
            Sample.mt_dom Sample.mt_html 0%nat)).
Proof.
  apply Forall_forall. intros a Hin.
  destruct (@movable_type_records Sample.mt_rt Sample.mt_world Sample.mt_parser
              Sample.mt_dom Sample.mt_html 0%nat a)
    as (Ht & _ & _ & Hc & _ & Hb & _);
    [vm_compute; discriminate | exact Hin | auto].
Defined.

Lemma enriched_kept (rt : Runtime) (w : World) (a : Article) :
  kept_fields (enriched rt w a) = kept_fields a.
Proof.
  unfold enriched.
  destruct (fetchRuanyifengArticleContent rt w (link a)) as [c|]; [|reflexivity].
  destruct (String.eqb c ""); reflexivity.
Qed.

Lemma enrich_kept (rt : Runtime) (w : World) (articles : list Marked) (i : nat) :
  map (fun m : Marked => kept_fields (fst m)) (enrich rt w articles i)
  = map (fun m : Marked => kept_fields (fst m)) articles.
Proof.
  unfold enrich. destruct (nth_error articles i) as [[a flag]|] eqn:E;
    [|reflexivity].
  apply set_nth_map with (x := (a, flag)); [exact E|]. cbn [fst].
  apply enriched_kept.
Qed.

Lemma fold_enrich_kept (rt : Runtime) (w : World) (positions : list nat) :
  forall articles,
    map (fun m : Marked => kept_fields (fst m))
      (fold_left (enrich rt w) positions articles)
    = map (fun m : Marked => kept_fields (fst m)) articles.
Proof.
  induction positions as [|i positions IH]; intro articles; [reflexivity|].
  cbn [fold_left]. now rewrite IH, enrich_kept.
Qed.

(** X17.  A secondary fetch changes the content and the description of a
    record and nothing else: the record stays as it is, or its content is
    the fetched text, not empty, and its description the summary of that
    text without its tags, of 300 characters.  So the titles, links, dates
    and identifiers the strategy returns are those of the first 20
    candidates. *)
Theorem enrichment_changes_content_only :
  forall (rt : Runtime) (w : World) (this : ContentParser) (dom : Dom.Document)
         (html : string) (k : nat),
    (forall a,
       kept_fields (enriched rt w a) = kept_fields a
       /\ (enriched rt w a = a
           \/ exists c,
                fetchRuanyifengArticleContent rt w (link a) = Some c /\ c <> ""
                /\ content (enriched rt w a) = c
                /\ description (enriched rt w a)
                   = generateSummary (JsString.strip_tags c) 300))
    /\ map kept_fields (fst (parseMovableTypeBlog rt w this dom html k))
       = slice0 20
           (map (fun m : Marked => kept_fields (fst m))
              (fst (mt_candidates rt w this dom k))).
Proof.
  intros rt w this dom html k. split.
  - intro a. split; [apply enriched_kept|]. unfold enriched.
    destruct (fetchRuanyifengArticleContent rt w (link a)) as [c|]; [|now left].
    destruct (String.eqb_spec c "") as [|Hc]; [now left|].
    right. exists c. repeat split. exact Hc.
  - unfold parseMovableTypeBlog, seq_clock, ret.
    destruct (mt_candidates rt w this dom k) as [c k']. cbn [fst].
    unfold slice0. rewrite <- firstn_map, map_map. f_equal.
    apply fold_enrich_kept.
Qed.

Lemma In_fst_filter (articles : list Marked) :
  forall (start i : nat),
    In i (map fst (filter (fun p : nat * Marked => snd (snd p))
                     (combine (seq start (List.length articles)) articles))) ->
    exists a, nth_error articles (i - start) = Some (a, true) /\ (start <= i)%nat.
Proof.
  induction articles as [|[a flag] articles IH]; intros start i Hin; [destruct Hin|].
  cbn [List.length seq combine filter snd] in Hin.
  destruct flag; cbn [map fst] in Hin.
  - destruct Hin as [<-|Hin].
    + exists a. rewrite Nat.sub_diag. now split.
    + destruct (IH _ _ Hin) as (b & Eb & Hle). exists b.
      replace (i - start)%nat with (S (i - S start)) by lia. split; [exact Eb | lia].
  - destruct (IH _ _ Hin) as (b & Eb & Hle). exists b.
    replace (i - start)%nat with (S (i - S start)) by lia. split; [exact Eb | lia].
Qed.

Lemma articlesToFetch_marked (articles : list Marked) (i : nat) :
  In i (articlesToFetch articles) -> exists a, nth_error articles i = Some (a, true).
Proof.
  unfold articlesToFetch, slice0. intro Hin.
  assert (H : In i (map fst (filter (fun p : nat * Marked => snd (snd p))
                               (combine (seq 0 (List.length articles)) articles)))).
  { rewrite <- (firstn_skipn 5 _). apply in_or_app. now left. }
  destruct (In_fst_filter _ _ _ H) as (a & Ea & _). exists a.
  now rewrite Nat.sub_0_r in Ea.
Qed.

(** X18.  The Movable Type strategy makes at most five secondary fetches,
    each for a candidate that is marked for one; a candidate among the
    first 20 that is not marked is returned as it is. *)
Theorem secondary_fetches_bound :
  forall (rt : Runtime) (w : World) (this : ContentParser) (dom : Dom.Document)
         (html : string) (k : nat),
    let candidates := fst (mt_candidates rt w this dom k) in
    (List.length (articlesToFetch candidates) <= 5)%nat
    /\ (forall i, In i (articlesToFetch candidates) ->
          exists a, nth_error candidates i = Some (a, true))
    /\ (forall j a,
          (j < 20)%nat -> nth_error candidates j = Some (a, false) ->
          nth_error (fst (parseMovableTypeBlog rt w this dom html k)) j = Some a).
Proof.
  intros rt w this dom html k candidates. split; [|split].
  - unfold articlesToFetch, slice0. apply firstn_le_length.
  - intro i. apply articlesToFetch_marked.
  - intros j a Hj Ea. rewrite parseMovableTypeBlog_nth. fold candidates.
    destruct (Nat.ltb_spec j 20); [|lia]. rewrite Ea. cbn [option_map fst].
    destruct (existsb (Nat.eqb j) (articlesToFetch candidates)) eqn:E;
      [|reflexivity].
    apply existsb_eqb_In in E. apply articlesToFetch_marked in E.
    destruct E as (b & Eb). congruence.
Qed.

Lemma secondary_fetches_bound_witness :
  exists a,
    nth_error (fst (mt_candidates Sample.mt_rt Sample.mt_world Sample.mt_parser
                      Sample.mt_dom 0%nat)) 1
    = Some (a, true)
    /\ title a = "Post B".
Proof.
  pose proof (@secondary_fetches_bound Sample.mt_rt Sample.mt_world Sample.mt_parser
                Sample.mt_dom Sample.mt_html 0%nat) as H.
  cbv zeta in H. destruct H as (_ & H & _).
  destruct (H 1%nat ltac:(vm_compute; auto)) as (a & Ha).
  exists a. split; [exact Ha|].
  vm_compute in Ha. injection Ha as <-. reflexivity.
Defined.

(** ** What the cleaning of a post leaves *)

Lemma flat_map_nil {A B : Type} (f : A -> list B) (l : list A) :
  flat_map f l = [] <-> Forall (fun x => f x = []) l.
Proof.
  induction l as [|x l IH]; cbn [flat_map]; [split; constructor|].
  split.
  - intro H. apply app_eq_nil in H. destruct H as [Hx Hl].
    constructor; [exact Hx | now apply IH].
  - intro H. inversion H; subst. rewrite (proj2 IH) by assumption.
    now rewrite app_nil_r.
Qed.

Lemma flat_map_twice {A B C : Type} (g : B -> list C) (h : A -> list B)
  (l : list A) :
  flat_map g (flat_map h l) = flat_map (fun x => flat_map g (h x)) l.
Proof.
  induction l as [|x l IH]; [reflexivity|]. cbn [flat_map].
  now rewrite flat_map_app, IH.
Qed.

Lemma forallb_same {A : Type} (p q : A -> bool) (l : list A) :
  (forall x, p x = q x) -> forallb p l = forallb q l.
Proof.
  intro H. induction l as [|x l IH]; [reflexivity|]. cbn [forallb].
  now rewrite H, IH.
Qed.

Lemma match_compound_alike (c : Dom.compound) (e e' : string * Dom.attrs) :
  Dom.c_attrs c = [] -> alike e e' ->
  Dom.match_compound c e = Dom.match_compound c e'.
Proof.
  destruct e as [t a], e' as [t' a']. intros Hc (Ht & Hi & Hk).
  cbn [fst snd] in *. subst t'. unfold Dom.match_compound.
  rewrite Hc, Hi. f_equal. f_equal.
  apply forallb_same. intro k. unfold Dom.has_class, Dom.class_list. now rewrite Hk.
Qed.

Lemma anc_ok_alike (outer : list Dom.compound) :
  forallb (fun c => match Dom.c_attrs c with [] => true | _ => false end) outer = true ->
  forall anc anc', Forall2 alike anc anc' -> Dom.anc_ok anc outer = Dom.anc_ok anc' outer.
Proof.
  intros Hp anc anc' H. revert outer Hp.
  induction H as [|e e' anc anc' He Hanc IH]; intros outer Hp.
  - destruct outer; reflexivity.
  - destruct outer as [|c cs]; [reflexivity|]. cbn [Dom.anc_ok].
    pose proof Hp as Hp'. cbn [forallb] in Hp'. apply andb_true_iff in Hp'.
    destruct Hp' as [Hc Hcs].
    assert (Ec : Dom.c_attrs c = []) by (destruct (Dom.c_attrs c); [reflexivity | discriminate]).
    rewrite (match_compound_alike c Ec He).
    destruct (Dom.match_compound c e'); [now apply IH | now apply IH].
Qed.

Lemma forallb_rev {A : Type} (p : A -> bool) (l : list A) :
  forallb p (rev l) = forallb p l.
Proof.
  induction l as [|x l IH]; [reflexivity|]. cbn [rev forallb].
  rewrite forallb_app, IH. cbn [forallb]. rewrite andb_true_r. apply andb_comm.
Qed.

Lemma matches_alike (sel : Dom.selector) (anc anc' : list (string * Dom.attrs))
  (e e' : string * Dom.attrs) :
  plain sel = true -> Forall2 alike anc anc' -> alike e e' ->
  Dom.matches sel anc e = Dom.matches sel anc' e'.
Proof.
  intros Hp Hanc He. unfold Dom.matches, plain in *.
  induction sel as [|cx sel IH]; [reflexivity|].
  cbn [forallb existsb] in *. apply andb_true_iff in Hp. destruct Hp as [Hcx Hsel].
  rewrite (IH Hsel). f_equal. unfold Dom.match_complex.
  rewrite <- forallb_rev in Hcx. destruct (rev cx) as [|c outer]; [reflexivity|].
  cbn [forallb] in Hcx. apply andb_true_iff in Hcx. destruct Hcx as [Hc Houter].
  assert (Ec : Dom.c_attrs c = []) by (destruct (Dom.c_attrs c); [reflexivity | discriminate]).
  now rewrite (match_compound_alike c Ec He), (anc_ok_alike outer Houter Hanc).
Qed.

Lemma alike_refl (e : string * Dom.attrs) : alike e e.
Proof. now repeat split. Qed.

Lemma Forall2_alike_refl (anc : list (string * Dom.attrs)) : Forall2 alike anc anc.
Proof. induction anc; constructor; [apply alike_refl | assumption]. Qed.

(** What [remove] leaves matches the selector nowhere. *)
Lemma remove_node_clean (sel : Dom.selector) (n : Dom.node) :
  forall full scoped,
    flat_map (Dom.select_node sel full scoped) (remove_node sel scoped n) = [].
Proof.
  induction n as [s|t a ks IH] using Dom.node_induction; intros full scoped.
  - reflexivity.
  - cbn [remove_node]. destruct (Dom.matches sel scoped (t, a)) eqn:E; [reflexivity|].
    cbn [flat_map Dom.select_node]. rewrite E, app_nil_r. cbn [app].
    rewrite flat_map_twice. apply flat_map_nil. apply Forall_forall.
    intros k Hk. exact (proj1 (Forall_forall _ _) IH k Hk _ _).
Qed.
Lemma select_node_nil_inv (sel : Dom.selector) (full scoped : list (string * Dom.attrs))
  (t : string) (a : Dom.attrs) (ks : list Dom.node) :
  Dom.select_node sel full scoped (Dom.Elem t a ks) = [] ->
  Dom.matches sel scoped (t, a) = false
  /\ Forall (fun k => Dom.select_node sel ((t, a) :: full) ((t, a) :: scoped) k = []) ks.
Proof.
  cbn [Dom.select_node]. intro H. apply app_eq_nil in H. destruct H as [Hm Hk].
  split; [now destruct (Dom.matches sel scoped (t, a)) | now apply flat_map_nil].
Qed.

(** Whether a node matches a selector somewhere does not depend on the path
    that is recorded in the elements found. *)
Lemma select_node_nil_full (sel : Dom.selector) (n : Dom.node) :
  forall full full' scoped,
    Dom.select_node sel full scoped n = [] ->
    Dom.select_node sel full' scoped n = [].
Proof.
  induction n as [s|t a ks IH] using Dom.node_induction; intros full full' scoped H;
    [reflexivity|].
  apply select_node_nil_inv in H. destruct H as [Hm Hk].
  cbn [Dom.select_node]. rewrite Hm. cbn [app]. apply flat_map_nil.
  apply Forall_forall. intros k Hin.
  apply (proj1 (Forall_forall _ _) IH k Hin ((t, a) :: full)).
  exact (proj1 (Forall_forall _ _) Hk k Hin).
Qed.

Lemma remove_node_keeps_clean (sel sel' : Dom.selector) (n : Dom.node) :
  forall full scoped,
    Dom.select_node sel full scoped n = [] ->
    flat_map (Dom.select_node sel full scoped) (remove_node sel' scoped n) = [].
Proof.
  induction n as [s|t a ks IH] using Dom.node_induction; intros full scoped H;
    [reflexivity|].
  apply select_node_nil_inv in H. destruct H as [Hm Hk].
  cbn [remove_node]. destruct (Dom.matches sel' scoped (t, a)); [reflexivity|].
  cbn [flat_map Dom.select_node]. rewrite Hm, app_nil_r. cbn [app].
  rewrite flat_map_twice. apply flat_map_nil. apply Forall_forall. intros k Hin.
  apply (proj1 (Forall_forall _ _) IH k Hin).
  exact (proj1 (Forall_forall _ _) Hk k Hin).
Qed.

Lemma rewrite_node_keeps_clean (sel sel' : Dom.selector)
  (f : Dom.attrs -> Dom.attrs) (n : Dom.node) :
  plain sel = true ->
  (forall t a, alike (t, a) (t, f a)) ->
  forall full full' scoped scoped' anc,
    Forall2 alike scoped scoped' ->
    Dom.select_node sel full scoped n = [] ->
    Dom.select_node sel full' scoped' (rewrite_node sel' f anc n) = [].
Proof.
  intros Hp Hf.
  induction n as [s|t a ks IH] using Dom.node_induction;
    intros full full' scoped scoped' anc Hs H; [reflexivity|].
  apply select_node_nil_inv in H. destruct H as [Hm Hk].
  cbn [rewrite_node Dom.select_node].
  set (a' := if Dom.matches sel' anc (t, a) then f a else a).
  assert (Ha : alike (t, a) (t, a')).
  { unfold a'. destruct (Dom.matches sel' anc (t, a)); [apply Hf | apply alike_refl]. }
  rewrite <- (@matches_alike sel _ _ _ _ Hp Hs Ha), Hm. cbn [app].
  rewrite flat_map_concat_map, map_map, <- flat_map_concat_map.
  apply flat_map_nil. apply Forall_forall. intros k Hin.
  apply (proj1 (Forall_forall _ _) IH k Hin ((t, a) :: full) _ ((t, a) :: scoped)).
  - now constructor.
  - exact (proj1 (Forall_forall _ _) Hk k Hin).
Qed.

Lemma remove_clean (sel : Dom.selector) (dom : Dom.Document) :
  Dom.select (remove sel dom) sel = [].
Proof.
  unfold Dom.select, remove. rewrite flat_map_twice. apply flat_map_nil.
  apply Forall_forall. intros n _. apply remove_node_clean.
Qed.

Lemma remove_keeps_clean (sel sel' : Dom.selector) (dom : Dom.Document) :
  Dom.select dom sel = [] -> Dom.select (remove sel' dom) sel = [].
Proof.
  unfold Dom.select, remove. intro H. rewrite flat_map_twice. apply flat_map_nil.
  apply Forall_forall. intros n Hin. apply remove_node_keeps_clean.
  exact (proj1 (Forall_forall _ _) (proj1 (flat_map_nil _ _) H) n Hin).
Qed.

Lemma rewrite_keeps_clean (sel sel' : Dom.selector) (f : Dom.attrs -> Dom.attrs)
  (dom : Dom.Document) :
  plain sel = true -> (forall t a, alike (t, a) (t, f a)) ->
  Dom.select dom sel = [] -> Dom.select (rewrite sel' f dom) sel = [].
Proof.
  unfold Dom.select, rewrite. intros Hp Hf H.
  rewrite flat_map_concat_map, map_map, <- flat_map_concat_map.
  apply flat_map_nil. apply Forall_forall. intros n Hin.
  apply rewrite_node_keeps_clean with (full := []) (scoped := []); auto.
  exact (proj1 (Forall_forall _ _) (proj1 (flat_map_nil _ _) H) n Hin).
Qed.

Lemma matches_tag (t0 : string) (scoped : list (string * Dom.attrs)) (t : string)
  (a : Dom.attrs) :
  Dom.matches (tag_only t0) scoped (t, a) = String.eqb t0 t.
Proof.
  unfold Dom.matches, tag_only, Dom.match_complex, Dom.match_compound.
  cbn. replace (Dom.anc_ok scoped []) with true by now destruct scoped.
  now rewrite !andb_true_r, orb_false_r.
Qed.

Lemma rewrite_node_same_tag (P : Dom.attrs -> Prop) (t0 : string)
  (f : Dom.attrs -> Dom.attrs) (n : Dom.node) :
  (forall a, P (f a)) ->
  forall full scoped anc,
    Forall (fun e => P (Dom.att e))
      (Dom.select_node (tag_only t0) full scoped
         (rewrite_node (tag_only t0) f anc n)).
Proof.
  intro Hf. induction n as [s|t a ks IH] using Dom.node_induction;
    intros full scoped anc; [constructor|].
  cbn [rewrite_node Dom.select_node]. rewrite !matches_tag.
  apply Forall_app. split.
  - destruct (String.eqb t0 t); constructor; [apply Hf | constructor].
  - rewrite flat_map_concat_map, map_map, <- flat_map_concat_map.
    apply Forall_flat_map. apply Forall_forall. intros k Hin.
    exact (proj1 (Forall_forall _ _) IH k Hin _ _ _).
Qed.

Lemma rewrite_node_other_tag (P : Dom.attrs -> Prop) (t0 t1 : string)
  (g : Dom.attrs -> Dom.attrs) (n : Dom.node) :
  t0 <> t1 ->
  forall full full' scoped scoped' anc,
    Forall (fun e => P (Dom.att e)) (Dom.select_node (tag_only t0) full scoped n) ->
    Forall (fun e => P (Dom.att e))
      (Dom.select_node (tag_only t0) full' scoped'
         (rewrite_node (tag_only t1) g anc n)).
Proof.
  intro Hne. induction n as [s|t a ks IH] using Dom.node_induction;
    intros full full' scoped scoped' anc H; [constructor|].
  cbn [rewrite_node Dom.select_node] in *. rewrite !matches_tag in *.
  apply Forall_app in H. destruct H as [Hroot Hkids].
  apply Forall_app. split.
  - destruct (String.eqb_spec t0 t) as [<-|_]; [|constructor].
    destruct (String.eqb_spec t1 t0) as [E|_]; [now elim Hne|].
    inversion Hroot; subst. now constructor.
  - rewrite flat_map_concat_map, map_map, <- flat_map_concat_map.
    apply Forall_flat_map. apply Forall_forall. intros k Hin.
    apply (proj1 (Forall_forall _ _) IH k Hin ((t, a) :: full) _ ((t, a) :: scoped)).
    exact (proj1 (Forall_forall _ _) (proj1 (Forall_flat_map _ _ _) Hkids) k Hin).
Qed.
Lemma fix_img_other (a : Dom.attrs) (k : string) :
  k <> "src" -> k <> "style" -> Dom.get_attr k (fix_img a) = Dom.get_attr k a.
Proof.
  intros Hk1 Hk2. unfold fix_img. cbv zeta.
  rewrite get_set_attr_other by congruence.
  destruct (Dom.get_attr "src" a) as [s|]; [|reflexivity].
  destruct (negb (String.eqb s "") && negb (JsString.startsWith s "http"));
    [|reflexivity].
  destruct (JsString.startsWith s "/"); apply get_set_attr_other; congruence.
Qed.

Lemma fix_img_src (a : Dom.attrs) :
  Dom.get_attr "src" (fix_img a)
  = match Dom.get_attr "src" a with
    | Some s =>
        if String.eqb s "" || JsString.startsWith s "http" then Some s
        else if JsString.startsWith s "/" then Some (blog_site ++ s)
        else Some (blog_site ++ "/blog/" ++ s)
    | None => None
    end.
Proof.
  unfold fix_img. cbv zeta. rewrite get_set_attr_other by discriminate.
  destruct (Dom.get_attr "src" a) as [s|] eqn:E; [|exact E].
  destruct (String.eqb s ""); cbn [negb andb orb]; [exact E|].
  destruct (JsString.startsWith s "http"); cbn [negb]; [exact E|].
  destruct (JsString.startsWith s "/"); apply get_set_attr.
Qed.

Lemma fix_img_absolute (a : Dom.attrs) (s : string) :
  Dom.get_attr "src" (fix_img a) = Some s ->
  s = "" \/ JsString.startsWith s "http" = true.
Proof.
  rewrite fix_img_src. destruct (Dom.get_attr "src" a) as [s0|]; [|discriminate].
  destruct (String.eqb_spec s0 "") as [E0|_]; cbn [orb].
  - intros [= <-]. now left.
  - destruct (JsString.startsWith s0 "http") eqn:E.
    + intros [= <-]. now right.
    + destruct (JsString.startsWith s0 "/"); intros [= <-]; now right.
Qed.

Lemma fix_link_other (a : Dom.attrs) (k : string) :
  k <> "href" -> Dom.get_attr k (fix_link a) = Dom.get_attr k a.
Proof.
  intros Hk. unfold fix_link. destruct (Dom.get_attr "href" a) as [h|];
    [|reflexivity].
  destruct (negb (String.eqb h "") && negb (JsString.startsWith h "http")
            && negb (JsString.startsWith h "mailto")); [|reflexivity].
  destruct (JsString.startsWith h "/"); [|reflexivity].
  apply get_set_attr_other. congruence.
Qed.

Lemma fix_link_href (a : Dom.attrs) :
  Dom.get_attr "href" (fix_link a)
  = match Dom.get_attr "href" a with
    | Some h => if JsString.startsWith h "/" then Some (blog_site ++ h) else Some h
    | None => None
    end.
Proof.
  unfold fix_link. destruct (Dom.get_attr "href" a) as [h|] eqn:E; [|exact E].
  destruct (JsString.startsWith h "/") eqn:Hs.
  - destruct (startsWith_slash _ Hs) as (Hne & -> & ->).
    destruct (String.eqb_spec h ""); [contradiction|]. apply get_set_attr.
  - destruct (negb (String.eqb h "") && negb (JsString.startsWith h "http")
              && negb (JsString.startsWith h "mailto")); exact E.
Qed.

Lemma fix_link_not_rooted (a : Dom.attrs) (h : string) :
  Dom.get_attr "href" (fix_link a) = Some h -> JsString.startsWith h "/" = false.
Proof.
  rewrite fix_link_href. destruct (Dom.get_attr "href" a) as [h0|]; [|discriminate].
  destruct (JsString.startsWith h0 "/") eqn:E; intros [= <-]; [reflexivity | exact E].
Qed.

Lemma fix_img_alike (t : string) (a : Dom.attrs) : alike (t, a) (t, fix_img a).
Proof.
  repeat split; cbn [snd]; symmetry; apply fix_img_other; discriminate.
Qed.

Lemma fix_link_alike (t : string) (a : Dom.attrs) : alike (t, a) (t, fix_link a).
Proof.
  repeat split; cbn [snd]; symmetry; apply fix_link_other; discriminate.
Qed.

Lemma cleaned_without (rt : Runtime) (content : string) (sel : Dom.selector) :
  plain sel = true ->
  Dom.select (remove scripts (remove footers (load rt content))) sel = [] ->
  Dom.select (cleaned rt content) sel = [].
Proof.
  intros Hp H. unfold cleaned.
  apply rewrite_keeps_clean; [exact Hp | exact fix_link_alike|].
  apply rewrite_keeps_clean; [exact Hp | exact fix_img_alike | exact H].
Qed.

(** X19.  [cleanRuanyifengContent] writes out a document, [cleaned], that
    has no footer, comment, script, style or advertisement element left,
    whose images all have the style and a source that is empty or
    absolute, and whose anchors have no address that starts with a
    slash. *)
Theorem cleanRuanyifengContent_cleans :
  forall (rt : Runtime) (content : string),
    cleanRuanyifengContent rt content
    = (if String.eqb content "" then content else serialize rt (cleaned rt content))
    /\ Dom.select (cleaned rt content) footers = []
    /\ Dom.select (cleaned rt content) scripts = []
    /\ Forall (fun e =>
                 Dom.get_attr "style" (Dom.att e) = Some img_style
                 /\ forall s, Dom.get_attr "src" (Dom.att e) = Some s ->
                      s = "" \/ JsString.startsWith s "http" = true)
         (Dom.select (cleaned rt content) (Dom.css "img"))
    /\ Forall (fun e =>
                 forall h, Dom.get_attr "href" (Dom.att e) = Some h ->
                   JsString.startsWith h "/" = false)
         (Dom.select (cleaned rt content) (Dom.css "a")).
Proof.
  intros rt content. split.
  { unfold cleanRuanyifengContent, cleaned, footers, scripts. reflexivity. }
  split; [|split; [|split]].
  - apply cleaned_without; [vm_compute; reflexivity|].
    apply remove_keeps_clean, remove_clean.
  - apply cleaned_without; [vm_compute; reflexivity|]. apply remove_clean.
  - pose (P := fun a : Dom.attrs =>
                 Dom.get_attr "style" a = Some img_style
                 /\ forall s, Dom.get_attr "src" a = Some s ->
                      s = "" \/ JsString.startsWith s "http" = true).
    change (Forall (fun e => P (Dom.att e))
              (Dom.select (cleaned rt content) (Dom.css "img"))).
    unfold cleaned, Dom.select, rewrite.
    change (Dom.css "img") with (tag_only "img").
    change (Dom.css "a") with (tag_only "a").
    rewrite flat_map_concat_map, map_map, <- flat_map_concat_map.
    apply Forall_flat_map. apply Forall_forall. intros n Hin.
    apply (@rewrite_node_other_tag P "img" "a" fix_link n) with (full := [])
                                                                (scoped := []);
      [discriminate|].
    apply in_map_iff in Hin. destruct Hin as (n0 & <- & _).
    apply (@rewrite_node_same_tag P). intro a. split.
    + unfold fix_img. cbv zeta. apply get_set_attr.
    + apply fix_img_absolute.
  - pose (P := fun a : Dom.attrs =>
                 forall h, Dom.get_attr "href" a = Some h ->
                   JsString.startsWith h "/" = false).
    change (Forall (fun e => P (Dom.att e))
              (Dom.select (cleaned rt content) (Dom.css "a"))).
    unfold cleaned, Dom.select.
    change (Dom.css "a") with (tag_only "a").
    unfold rewrite at 1.
    rewrite flat_map_concat_map, map_map, <- flat_map_concat_map.
    apply Forall_flat_map. apply Forall_forall. intros n _.
    apply (@rewrite_node_same_tag P). intro a. exact (@fix_link_not_rooted a).
Qed.

(** ** The pattern of the embedded data *)

Lemma prefix_drop (p s : string) :
  String.prefix p s = true -> s = p ++ JsString.drop (String.length p) s.
Proof.
  revert s. induction p as [|c p IH]; intros s H; [reflexivity|].
  destruct s as [|x s]; [discriminate|]. cbn [String.prefix] in H.
  destruct (ascii_dec c x) as [<-|]; [|discriminate].
  cbn [append String.length JsString.drop]. f_equal. now apply IH.
Qed.

Lemma match_star_unfold (ch : ascii) (rest : list Pattern.item) (s st cap : string) :
  Pattern.match_here (Pattern.StarNot ch :: rest) s st cap
  = match s with
    | String x s' =>
        if Ascii.eqb x ch then Pattern.match_here rest s st cap
        else match Pattern.match_here (Pattern.StarNot ch :: rest) s' st cap with
             | Some r => Some r
             | None => Pattern.match_here rest s st cap
             end
    | EmptyString => Pattern.match_here rest s st cap
    end.
Proof. destruct s; reflexivity. Qed.

Lemma match_lit (l : string) (rest : list Pattern.item) (s st cap r : string) :
  Pattern.match_here (Pattern.Lit l :: rest) s st cap = Some r ->
  exists s', s = l ++ s' /\ Pattern.match_here rest s' st cap = Some r.
Proof.
  cbn [Pattern.match_here]. destruct (String.prefix l s) eqn:E; [|discriminate].
  intro H. exists (JsString.drop (String.length l) s).
  split; [now apply prefix_drop | exact H].
Qed.

Lemma match_star (ch : ascii) (rest : list Pattern.item) :
  forall s st cap r,
    Pattern.match_here (Pattern.StarNot ch :: rest) s st cap = Some r ->
    exists a s',
      s = a ++ s' /\ every (is_not ch) a = true
      /\ Pattern.match_here rest s' st cap = Some r.
Proof.
  induction s as [|x s IH]; intros st cap r H; rewrite match_star_unfold in H.
  - exists "", "". now repeat split.
  - destruct (Ascii.eqb x ch) eqn:E.
    + exists "", (String x s). now repeat split.
    + destruct (Pattern.match_here (Pattern.StarNot ch :: rest) s st cap) as [r'|] eqn:Es.
      * injection H as <-. destruct (IH _ _ _ Es) as (a & s' & -> & Ha & Hr).
        exists (String x a), s'. repeat split; [|exact Hr].
        cbn [every]. unfold is_not at 1. now rewrite E, Ha.
      * exists "", (String x s). now repeat split.
Qed.

Lemma match_open (rest : list Pattern.item) (s st cap : string) :
  Pattern.match_here (Pattern.Open :: rest) s st cap
  = Pattern.match_here rest s s cap.
Proof. reflexivity. Qed.

Lemma match_close (rest : list Pattern.item) (s st cap : string) :
  Pattern.match_here (Pattern.Close :: rest) s st cap
  = Pattern.match_here rest s st
      (String.substring 0 (String.length st - String.length s) st).
Proof. reflexivity. Qed.

Lemma search_inv (items : list Pattern.item) :
  forall s r,
    Pattern.search items s = Some r ->
    exists pre t, s = pre ++ t /\ Pattern.match_here items t "" "" = Some r.
Proof.
  induction s as [|x s IH]; intros r H; cbn [Pattern.search] in H.
  - destruct (Pattern.match_here items "" "" "") eqn:E; [|discriminate].
    injection H as <-. now exists "", "".
  - destruct (Pattern.match_here items (String x s) "" "") eqn:E.
    + injection H as <-. now exists "", (String x s).
    + destruct (IH _ H) as (pre & t & -> & Ht). now exists (String x pre), t.
Qed.

Lemma substring_0_append (x y : string) :
  String.substring 0 (String.length x) (x ++ y) = x.
Proof.
  induction x as [|c x IH]; cbn [append String.length String.substring].
  - destruct y; reflexivity.
  - now rewrite IH.
Qed.

Lemma includes_append_l (x s p : string) :
  JsString.includes s p = true -> JsString.includes (x ++ s) p = true.
Proof.
  intro H. induction x as [|c x IH]; [exact H|]. cbn [append].
  unfold JsString.includes; fold JsString.includes. rewrite IH. apply orb_true_r.
Qed.

Lemma includes_prefix (p y : string) : JsString.includes (p ++ y) p = true.
Proof.
  destruct (p ++ y) eqn:E; unfold JsString.includes; fold JsString.includes;
    rewrite <- E, prefix_append; reflexivity.
Qed.

Lemma includes_middle (x p y : string) : JsString.includes (x ++ p ++ y) p = true.
Proof. apply includes_append_l, includes_prefix. Qed.

(** X20.  What the pattern for the embedded data captures: a path with
    [/_json/] in it that ends in [.json] and holds no double quote.  The
    page holds the word [preload] in double quotes and the path as the
    value of an [href], and it passes the test that sends a portfolio to
    this path. *)
Theorem jsonUrlPattern_match :
  forall (html path : string),
    Pattern.search jsonUrlPattern html = Some path ->
    (exists a b,
       path = a ++ "/_json/" ++ b ++ ".json"
       /\ every (is_not (ascii_of_nat 34)) a = true
       /\ every (is_not (ascii_of_nat 34)) b = true)
    /\ JsString.includes html (dq ++ "preload" ++ dq) = true
    /\ JsString.includes html ("href=" ++ dq ++ path ++ dq) = true
    /\ JsString.includes html "_json/" && JsString.includes html ".json" = true.
Proof.
  intros html path H.
  destruct (search_inv _ _ H) as (pre & t & -> & Ht). unfold jsonUrlPattern in Ht.
  apply match_lit in Ht. destruct Ht as (t1 & -> & Ht).
  apply match_star in Ht. destruct Ht as (skipped & t2 & -> & _ & Ht).
  apply match_lit in Ht. destruct Ht as (t3 & -> & Ht).
  rewrite match_open in Ht.
  apply match_star in Ht. destruct Ht as (a & t4 & E4 & Ha & Ht).
  apply match_lit in Ht. destruct Ht as (t5 & -> & Ht).
  apply match_star in Ht. destruct Ht as (b & t6 & -> & Hb & Ht).
  apply match_lit in Ht. destruct Ht as (t7 & -> & Ht).
  rewrite match_close in Ht.
  apply match_lit in Ht. destruct Ht as (t8 & Eq & Ht).
  cbn [Pattern.match_here] in Ht. injection Ht as <-. subst t3.
  assert (Ecap : String.substring 0
                   (String.length (a ++ "/_json/" ++ b ++ ".json" ++ t7)
                    - String.length t7)
                   (a ++ "/_json/" ++ b ++ ".json" ++ t7)
                 = a ++ "/_json/" ++ b ++ ".json").
  { replace (a ++ "/_json/" ++ b ++ ".json" ++ t7)
      with ((a ++ "/_json/" ++ b ++ ".json") ++ t7)
      by (now rewrite !append_assoc).
    rewrite length_append, Nat.add_sub. apply substring_0_append. }
  rewrite Ecap. split; [now exists a, b|]. split; [|split].
  - apply includes_middle.
  - rewrite Eq.
    replace (pre ++ (dq ++ "preload" ++ dq) ++ skipped ++ ("href=" ++ dq)
               ++ a ++ "/_json/" ++ b ++ ".json" ++ dq ++ t8)
      with ((pre ++ (dq ++ "preload" ++ dq) ++ skipped)
              ++ ("href=" ++ dq ++ (a ++ "/_json/" ++ b ++ ".json") ++ dq) ++ t8)
      by (now rewrite !append_assoc).
    apply includes_middle.
  - apply andb_true_iff. split.
    + replace (pre ++ (dq ++ "preload" ++ dq) ++ skipped ++ ("href=" ++ dq)
                 ++ a ++ "/_json/" ++ b ++ ".json" ++ t7)
        with ((pre ++ (dq ++ "preload" ++ dq) ++ skipped ++ ("href=" ++ dq) ++ a ++ "/")
                ++ "_json/" ++ b ++ ".json" ++ t7)
        by (now rewrite !append_assoc).
      apply includes_middle.
    + replace (pre ++ (dq ++ "preload" ++ dq) ++ skipped ++ ("href=" ++ dq)
                 ++ a ++ "/_json/" ++ b ++ ".json" ++ t7)
        with ((pre ++ (dq ++ "preload" ++ dq) ++ skipped ++ ("href=" ++ dq) ++ a
                 ++ "/_json/" ++ b)
                ++ ".json" ++ t7)
        by (now rewrite !append_assoc).
      apply includes_middle.
Qed.

Lemma jsonUrlPattern_match_witness :
  JsString.includes Sample.figma_html (dq ++ "preload" ++ dq) = true
  /\ JsString.includes Sample.figma_html
       ("href=" ++ dq ++ "/_json/abc/home.json" ++ dq)
     = true.
Proof.
  destruct (@jsonUrlPattern_match Sample.figma_html "/_json/abc/home.json"
              ltac:(vm_compute; reflexivity)) as (_ & H1 & H2 & _).
  split; assumption.
Defined.

(** ** The walk over the embedded data *)

Lemma trimStart_length (s : string) :
  (String.length (JsString.trimStart s) <= String.length s)%nat.
Proof.
  induction s as [|c s IH]; cbn [JsString.trimStart String.length]; [lia|].
  destruct (JsString.is_space c); cbn [String.length]; lia.
Qed.

Lemma trimEnd_length (s : string) :
  (String.length (JsString.trimEnd s) <= String.length s)%nat.
Proof.
  induction s as [|c s IH]; cbn [JsString.trimEnd String.length]; [lia|].
  destruct (JsString.trimEnd s); [destruct (JsString.is_space c)|];
    cbn [String.length] in *; lia.
Qed.

Lemma trim_length (s : string) :
  (String.length (JsString.trim s) <= String.length s)%nat.
Proof.
  unfold JsString.trim. etransitivity; [apply trimEnd_length | apply trimStart_length].
Qed.

Lemma replace_newlines_length (s : string) :
  String.length (JsString.replace_newlines s " ") = String.length s.
Proof.
  induction s as [|c s IH]; cbn [JsString.replace_newlines String.length];
    [reflexivity|].
  destruct (nat_of_ascii c =? 10)%nat; cbn [append String.length]; now rewrite IH.
Qed.

Lemma forEach_inv {X S : Type} (I : S -> Prop) (body : X -> S -> Try S) :
  (forall x s k s' k', I s -> body x s k = (Ok s', k') -> I s') ->
  forall xs s k s' k', I s -> forEach body xs s k = (Ok s', k') -> I s'.
Proof.
  intros Hbody. induction xs as [|x xs IH]; intros s k s' k' Hs H.
  - cbn [forEach] in H. unfold pure in H. now injection H as <- _.
  - cbn [forEach] in H. unfold and_then in H.
    destruct (body x s k) as [[s1|e] k1] eqn:E; [|discriminate].
    exact (IH _ _ _ _ (Hbody _ _ _ _ _ Hs E) H).
Qed.

Section FigmaWalk.

Variable rt : Runtime.
Variable w : World.
Variable this : ContentParser.

Lemma figma_records_push (articles : list Article) (seen : list string) (a : Article) :
  Forall (figma_record this) articles -> (figma_record this) a ->
  (figma_records this) ((articles ++ [a])%list, seen).
Proof.
  intros H Ha. unfold figma_records. cbn [fst]. apply Forall_app.
  split; [exact H | constructor; [exact Ha | constructor]].
Qed.

Lemma figma_interaction_records nodeId interaction st k st' k' :
  (figma_records this) st ->
  figma_interaction rt w this nodeId interaction st k = (Ok st', k') ->
  (figma_records this) st'.
Proof.
  destruct st as [articles seen]. intros Hst H. unfold figma_interaction in H.
  destruct interaction as [| |[|[|c|]]]; unfold pure, throw in H;
    try discriminate; try (injection H as <- _; exact Hst).
  destruct (String.eqb c ""); cbn [negb andb] in H;
    [injection H as <- _; exact Hst|].
  destruct (JsString.startsWith c "/") eqn:Hs; cbn [andb] in H;
    [|injection H as <- _; exact Hst].
  destruct (JsString.includes c "http") eqn:Hh; cbn [negb andb] in H;
    [injection H as <- _; exact Hst|].
  destruct (JsString.len c >? 1); [|injection H as <- _; exact Hst].
  cbv zeta in H.
  match type of H with
  | (if ?c then _ else _) _ = _ => destruct c
  end; [|injection H as <- _; exact Hst].
  unfold and_then, lift, Date_now_utc, Date_now, pure in H.
  injection H as <- _. apply figma_records_push; [exact Hst|].
  repeat split. left. exists c. now repeat split.
Qed.

Lemma figma_text_records nodeId characters st k st' k' :
  (figma_records this) st ->
  figma_text rt w this nodeId characters st k = (Ok st', k') ->
  (figma_records this) st'.
Proof.
  destruct st as [articles seen]. intros Hst H. unfold figma_text in H.
  cbv zeta in H. set (text := JsString.trim characters) in *.
  destruct (JsString.len text >? 30); cbn [andb] in H;
    [|injection H as <- _; exact Hst].
  destruct (Z.ltb_spec (JsString.len text) 200) as [Hlt|]; cbn [andb] in H;
    [|injection H as <- _; exact Hst].
  match type of H with
  | (if ?c then _ else _) _ = _ => destruct c
  end; [|injection H as <- _; exact Hst].
  match type of H with
  | (if ?c then _ else _) _ = _ => destruct c
  end; [|injection H as <- _; exact Hst].
  unfold and_then, lift, Date_now_utc, Date_now, pure in H.
  injection H as <- _. apply figma_records_push; [exact Hst|].
  repeat split. right. cbn [link title description]. split; [reflexivity|].
  unfold JsString.len in Hlt. split.
  - etransitivity; [apply trim_length|]. rewrite replace_newlines_length.
    unfold JsString.len.
    destruct (Z.gtb_spec (Z.of_nat (String.length text)) 60) as [Hl|Hl].
    + rewrite length_append. change 57 with (Z.of_nat 57).
      pose proof (js_substring_le text 57). cbn [String.length]. lia.
    + lia.
  - eapply Nat.le_lt_trans; [apply trim_length|]. rewrite replace_newlines_length.
    lia.
Qed.

Lemma figma_node_records entry st k st' k' :
  (figma_records this) st ->
  figma_node rt w this entry st k = (Ok st', k') ->
  (figma_records this) st'.
Proof.
  destruct entry as [nodeId [|interactions is_text characters]]; intros Hst H;
    cbn [figma_node] in H; [discriminate|].
  unfold and_then in H.
  destruct (forEach (figma_interaction rt w this nodeId) interactions st k)
    as [[st1|e] k1] eqn:E; [|discriminate].
  assert (H1 : (figma_records this) st1).
  { eapply forEach_inv; [|exact Hst | exact E].
    intros x s k0 s' k0' Hs Hx. eapply figma_interaction_records; eassumption. }
  destruct is_text; [|injection H as <- _; exact H1].
  destruct characters as [|c|]; try discriminate;
    [injection H as <- _; exact H1|].
  destruct (String.eqb c ""); [injection H as <- _; exact H1|].
  eapply figma_text_records; eassumption.
Qed.

Lemma figma_try_records html k articles k' :
  figma_try rt w this html k = (Ok (Some articles), k') ->
  Forall (figma_record this) articles.
Proof.
  unfold figma_try. destruct (Pattern.search jsonUrlPattern html) as [path|];
    [|discriminate].
  destruct (fetch w (baseUrl this ++ path)) as [response|e]; [|discriminate].
  destruct (negb (ok response)); [discriminate|].
  destruct (JSON_parse rt (body response)) as [[nodeById|]|]; try discriminate.
  - unfold and_then.
    destruct (forEach (figma_node rt w this) nodeById ([], []) k)
      as [[st|e] k1] eqn:E; [|discriminate].
    unfold pure. intros [= <- _].
    change ((figma_records this) st).
    eapply forEach_inv; [| |exact E]; [|constructor].
    intros x s k0 s' k0' Hs Hx. eapply figma_node_records; eassumption.
  - unfold pure. intros [= <- _]. constructor.
Qed.

End FigmaWalk.

(** X21.  When the walk over the embedded data finds records, the strategy
    returns at most ten of them and at least one; each has the category
    [Design], no author and no image, and it links to a path under the
    origin (a project) or to the URL of the site, with a title of at most
    60 characters and a description of less than 200 (a text). *)
Theorem parseFigmaBasedSite_records :
  forall (rt : Runtime) (w : World) (this : ContentParser) (dom : Dom.Document)
         (html : string) (k : nat),
    figma_found (fst (figma_try rt w this html k)) = true ->
    fst (parseFigmaBasedSite rt w this dom html k) <> []
    /\ (List.length (fst (parseFigmaBasedSite rt w this dom html k)) <= 10)%nat
    /\ Forall (figma_record this) (fst (parseFigmaBasedSite rt w this dom html k)).
Proof.
  intros rt w this dom html k Hfound. unfold parseFigmaBasedSite, figma_found in *.
  destruct (figma_try rt w this html k) as [[[[|a l]|]|e] k'] eqn:E; cbn [fst] in *;
    try discriminate.
  cbn [List.length Nat.ltb Nat.leb fst]. split; [discriminate|].
  split; [apply firstn_le_length|].
  apply slice0_Forall. eapply figma_try_records; eassumption.
Qed.

Lemma parseFigmaBasedSite_records_witness :
  Forall (fun a => category a = Some "Design" /\ image a = None)
    (fst (parseFigmaBasedSite Sample.figma_rt (Sample.figma_world 0)
            Sample.figma_parser Sample.figma_dom Sample.figma_html 0%nat))
  /\ fst (parseFigmaBasedSite Sample.figma_rt (Sample.figma_world 0)
            Sample.figma_parser Sample.figma_dom Sample.figma_html 0%nat)
     <> [].
Proof.
  destruct (@parseFigmaBasedSite_records Sample.figma_rt (Sample.figma_world 0)
              Sample.figma_parser Sample.figma_dom Sample.figma_html 0%nat
              ltac:(vm_compute; reflexivity)) as (Hne & _ & Hall).
  split; [|exact Hne].
  eapply Forall_impl; [|exact Hall]. intros a (Hc & _ & Hi & _). now split.
Defined.

(** ** The keys of the cache manager ([CacheManager]) *)

Lemma lower_char_twice (c : ascii) :
  JsString.lower_char (JsString.lower_char c) = JsString.lower_char c.
Proof.
  destruct c as [[] [] [] [] [] [] [] []]; reflexivity.
Qed.

Lemma toLowerCase_twice (s : string) :
  JsString.toLowerCase (JsString.toLowerCase s) = JsString.toLowerCase s.
Proof.
  unfold JsString.toLowerCase.
  induction s as [|c s IH]; cbn [JsString.map_chars]; [reflexivity|].
  now rewrite lower_char_twice, IH.
Qed.

Lemma drop_append (p s : string) : JsString.drop (String.length p) (p ++ s) = s.
Proof. induction p as [|c p IH]; [reflexivity | exact IH]. Qed.

Lemma replace_first_unfold (s p r : string) :
  JsString.replace_first s p r
  = if String.prefix p s then r ++ JsString.drop (String.length p) s
    else match s with
         | EmptyString => EmptyString
         | String c s' => String c (JsString.replace_first s' p r)
         end.
Proof. destruct s; reflexivity. Qed.

Lemma replace_first_prefix (p s : string) : JsString.replace_first (p ++ s) p "" = s.
Proof.
  rewrite replace_first_unfold, prefix_append. cbn [append]. apply drop_append.
Qed.

(** X22.  The keys of a cache are read back as the normalized URLs:
    a loop of [getCachedUrls] returns, for the keys [generateCacheKey] made
    of a list of URLs, the normalized URLs in the same order; and putting a
    normalized URL in lower case changes nothing. *)
Theorem cache_keys_round_trip :
  forall (URL_without : UrlCleaner) (type : string) (urls : list string),
    cached_urls (type ++ ":") (map (fun url => generateCacheKey URL_without url type) urls)
    = map (normalizeUrl URL_without) urls
    /\ Forall (fun url =>
                 JsString.toLowerCase (normalizeUrl URL_without url)
                 = normalizeUrl URL_without url)
         urls.
Proof.
  intros URL_without type urls. split.
  - induction urls as [|u urls IH]; [reflexivity|].
    cbn [map cached_urls flat_map]. unfold generateCacheKey at 1 2. cbv zeta.
    unfold JsString.startsWith.
    rewrite <- append_assoc, prefix_append, replace_first_prefix.
    cbn [app]. f_equal. exact IH.
  - apply Forall_forall. intros u _. unfold normalizeUrl.
    destruct (URL_without _ u); cbn [try_catch]; apply toLowerCase_twice.
Qed.

(** ** The request handler ([api/generate.js]) *)

Lemma detectSiteType_rejects (rt : Runtime) (html url : string) :
  detectSiteType rt html url
  = Err (TypeError "Cannot read properties of undefined (reading 'call')").
Proof. reflexivity. Qed.

Section HandlerFacts.

Variable rt : Runtime.
Variable w : World.
Variable rssGenerator : Generator.
Variable cacheManager : CacheReads.
Variable statusText : string -> string.

Lemma generate_fresh_facts (req : Request) (url : string) (k : nat) :
  let '(outcome, writes, _) :=
    generate_fresh rt w rssGenerator cacheManager statusText req url k in
  existsb is_CacheSiteInfo writes = false
  /\ match outcome with
     | Ok reply =>
         code reply = 200
         /\ truthy (query_refresh req) = false
         /\ (exists siteInfo, getCachedSiteInfo cacheManager url = Some siteInfo)
         /\ (String.eqb (method req) "HEAD" = true -> payload reply = Ended)
         /\ exists hs, headers reply = (cors ++ hs)%list
     | Err _ => existsb is_CacheRSS writes = false
     end.
Proof.
  unfold generate_fresh. cbv zeta.
  destruct (truthy (query_refresh req)) eqn:Hr.
  - destruct (fetch w url) as [response|e]; [|now split].
    destruct (negb (ok response)); [now split|].
    rewrite detectSiteType_rejects. now split.
  - destruct (getCachedHTML cacheManager url) as [html|].
    + destruct (getCachedSiteInfo cacheManager url) as [siteInfo|] eqn:Hs;
        [|rewrite detectSiteType_rejects; now split].
      destruct (new_ContentParser rt siteInfo) as [parser|e]; [|now split].
      destruct (parseContent rt w parser html k) as [articles k1].
      destruct ((if (0 <? List.length articles)%nat
                 then generateRSS rssGenerator articles siteInfo
                 else generateEmptyRSS rssGenerator url siteInfo) k1)
        as [[rssXML|e] k2]; [|now split].
      destruct (validateRSS rssGenerator rssXML k2) as [[[|]|e] k3];
        [|now split|now split].
      split; [reflexivity|]. split; [reflexivity|]. split; [reflexivity|].
      split; [now exists siteInfo|]. unfold finish. cbn [payload headers]. split.
      * now intros ->.
      * eexists. reflexivity.
    + destruct (fetch w url) as [response|e]; [|now split].
      destruct (negb (ok response)); [now split|].
      destruct (getCachedSiteInfo cacheManager url) as [siteInfo|] eqn:Hs;
        [|rewrite detectSiteType_rejects; now split].
      destruct (new_ContentParser rt siteInfo) as [parser|e]; [|now split].
      destruct (parseContent rt w parser (body response) (S k)) as [articles k1].
      destruct ((if (0 <? List.length articles)%nat
                 then generateRSS rssGenerator articles siteInfo
                 else generateEmptyRSS rssGenerator url siteInfo) k1)
        as [[rssXML|e] k2]; [|now split].
      destruct (validateRSS rssGenerator rssXML k2) as [[[|]|e] k3];
        [|now split|now split].
      split; [reflexivity|]. split; [reflexivity|]. split; [reflexivity|].
      split; [now exists siteInfo|]. unfold finish. cbn [payload headers]. split.
      * now intros ->.
      * eexists. reflexivity.
Qed.

End HandlerFacts.

(** Settles the table of replies at a reply that has been computed. *)
Ltac leaf :=
  cbn [code headers payload negb andb orb String.eqb Ascii.eqb Bool.eqb];
  split; [cbn; auto 6|];
  split; [first [now exists [] | eexists; reflexivity]|];
  split; [split; intro; first [discriminate | reflexivity]|];
  split; [split; intro; first [discriminate | reflexivity]|];
  split; [intros; first [discriminate | reflexivity]|];
  intro; discriminate.

(** X23.  The replies of the handler.  The status is 200, 400, 405 or 500 and
    the three CORS headers come first.  It is 405 exactly for a method
    other than [OPTIONS], [GET] and [HEAD], and 400 exactly for a [GET] or
    [HEAD] whose [url] parameter is missing, empty or does not parse.  A
    [HEAD] request that names a URL is answered without a body.  A reply
    with status 500 leaves the URL in the cache of errors. *)
Theorem handler_replies :
  forall (rt : Runtime) (w : World) (rssGenerator : Generator)
         (cacheManager : CacheReads) (statusText : string -> string)
         (req : Request) (k : nat),
    let '(reply, writes, _) :=
      handler rt w rssGenerator cacheManager statusText req k in
    In (code reply) [200; 400; 405; 500]
    /\ (exists hs, headers reply = (cors ++ hs)%list)
    /\ (code reply = 405
        <-> String.eqb (method req) "OPTIONS" || String.eqb (method req) "GET"
            || String.eqb (method req) "HEAD" = false)
    /\ (code reply = 400
        <-> (String.eqb (method req) "GET" || String.eqb (method req) "HEAD")
            && negb (names_url rt req) = true)
    /\ (String.eqb (method req) "HEAD" = true -> names_url rt req = true ->
        payload reply = Ended)
    /\ (code reply = 500 ->
        exists url, query_url req = Some url
                    /\ existsb (is_error_of url) writes = true).
Proof.
  intros rt w rssGenerator cacheManager statusText req k.
  unfold handler, names_url.
  destruct (String.eqb (method req) "OPTIONS") eqn:Eo.
  { apply String.eqb_eq in Eo. rewrite Eo. leaf. }
  destruct (String.eqb (method req) "GET") eqn:Eg;
    destruct (String.eqb (method req) "HEAD") eqn:Eh; cbn [negb andb orb];
    try solve [leaf].
  all: destruct (query_url req) as [url|]; [|solve [leaf]].
  all: destruct (String.eqb_spec url "") as [|Hne]; [solve [leaf]|].
  all: destruct (URL_origin rt url) as [origin|]; [|solve [leaf]].
  all: cbn [negb andb].
  all: destruct (isInErrorCache cacheManager url);
    [destruct (generateErrorRSS rssGenerator _ url k) as [errorRSS k'];
     unfold finish; rewrite ?Eh; solve [leaf]|].
  all: destruct (if truthy (query_refresh req) then None
                 else getCachedRSS cacheManager url) as [content|];
    [unfold finish; rewrite ?Eh; solve [leaf]|].
  all: pose proof (generate_fresh_facts rt w rssGenerator cacheManager statusText
                     req url k) as Hfresh.
  all: destruct (generate_fresh rt w rssGenerator cacheManager statusText req url k)
    as [[[reply|error] writes] k'].
  all: try (destruct Hfresh as (_ & Hc & _ & _ & Hhead & Hcors); rewrite Hc;
            split; [cbn; auto|]; split; [exact Hcors|];
            split; [split; discriminate|]; split; [split; discriminate|];
            split; [intros H _; now apply Hhead | discriminate]).
  all: cbv zeta;
    destruct (generateErrorRSS rssGenerator error url (S k')) as [errorRSS k''];
    unfold finish; rewrite ?Eh; cbn [code headers payload];
    split; [cbn; auto 6|]; split; [eexists; reflexivity|];
    split; [split; discriminate|]; split; [split; discriminate|];
    split; [intros; (reflexivity || discriminate)|];
    intros _; exists url; split; [reflexivity|];
    rewrite existsb_app; cbn [existsb is_error_of];
    rewrite String.eqb_refl; apply orb_true_r.
Qed.

Lemma handler_replies_witness :
  let w := Sample.online 0 [(Sample.wp_url, mkResponse true 200 Sample.wp_html)] in
  payload (fst (fst (handler Sample.rt w Sample.sample_generator Sample.no_entry
                       (fun _ => "OK")
                       (mkRequest "HEAD" (Some Sample.wp_url) None) 0)))
  = Ended
  /\ code (fst (fst (handler Sample.rt w Sample.sample_generator Sample.no_entry
                       (fun _ => "OK")
                       (mkRequest "POST" (Some Sample.wp_url) None) 0)))
     = 405
  /\ code (fst (fst (handler Sample.rt w Sample.sample_generator Sample.no_entry
                       (fun _ => "OK")
                       (mkRequest "GET" (Some "example.com") None) 0)))
     = 400.
Proof.
  intro w.
  pose proof (@handler_replies Sample.rt w Sample.sample_generator Sample.no_entry
                (fun _ => "OK") (mkRequest "HEAD" (Some Sample.wp_url) None) 0%nat)
    as H1.
  pose proof (@handler_replies Sample.rt w Sample.sample_generator Sample.no_entry
                (fun _ => "OK") (mkRequest "POST" (Some Sample.wp_url) None) 0%nat)
    as H2.
  pose proof (@handler_replies Sample.rt w Sample.sample_generator Sample.no_entry
                (fun _ => "OK") (mkRequest "GET" (Some "example.com") None) 0%nat)
    as H3.
  destruct (handler Sample.rt w Sample.sample_generator Sample.no_entry
              (fun _ => "OK") (mkRequest "HEAD" (Some Sample.wp_url) None) 0)
    as [[r1 w1] k1].
  destruct (handler Sample.rt w Sample.sample_generator Sample.no_entry
              (fun _ => "OK") (mkRequest "POST" (Some Sample.wp_url) None) 0)
    as [[r2 w2] k2].
  destruct (handler Sample.rt w Sample.sample_generator Sample.no_entry
              (fun _ => "OK") (mkRequest "GET" (Some "example.com") None) 0)
    as [[r3 w3] k3].
  cbn [fst].
  destruct H1 as (_ & _ & _ & _ & Hhead & _).
  destruct H2 as (_ & _ & [_ H405] & _).
  destruct H3 as (_ & _ & _ & [_ H400] & _).
  split; [apply Hhead; vm_compute; reflexivity|].
  split; [apply H405; vm_compute; reflexivity | apply H400; vm_compute; reflexivity].
Defined.

(** X24.  A request for a page that no cache knows, whose fetch succeeds,
    fails: the page is stored, the coordinator throws, the error is stored
    for the URL and the reply is the feed of the error with status 500
    (for [HEAD], the status and the headers). *)
Theorem cold_request_fails :
  forall (rt : Runtime) (w : World) (rssGenerator : Generator)
         (cacheManager : CacheReads) (statusText : string -> string)
         (req : Request) (url origin : string) (htmlResponse : Response) (k : nat),
    String.eqb (method req) "GET" || String.eqb (method req) "HEAD" = true ->
    query_url req = Some url -> url <> "" -> URL_origin rt url = Some origin ->
    isInErrorCache cacheManager url = false ->
    getCachedRSS cacheManager url = None ->
    getCachedHTML cacheManager url = None ->
    getCachedSiteInfo cacheManager url = None ->
    fetch w url = Ok htmlResponse -> ok htmlResponse = true ->
    let error := TypeError "Cannot read properties of undefined (reading 'call')" in
    handler rt w rssGenerator cacheManager statusText req k
    = (finish req 500
         (cors ++
          [ rss_type; ("Cache-Control", "public, max-age=300");
            ("Content-Length",
             byteLength (fst (generateErrorRSS rssGenerator error url (S (S k))))) ])%list
         (fst (generateErrorRSS rssGenerator error url (S (S k)))),
       [ CacheHTML url (body htmlResponse) (now w k);
         AddToErrorCache url (message_of error) (now w (S k)) ],
       snd (generateErrorRSS rssGenerator error url (S (S k)))).
Proof.
  intros rt w rssGenerator cacheManager statusText req url origin htmlResponse k
    Hmethod Hurl Hne Horigin Herr Hrss Hhtml Hinfo Hfetch Hok error.
  unfold handler.
  destruct (String.eqb_spec (method req) "OPTIONS") as [E|_].
  { rewrite E in Hmethod. discriminate Hmethod. }
  apply orb_true_iff in Hmethod.
  replace (negb (String.eqb (method req) "GET")
           && negb (String.eqb (method req) "HEAD")) with false
    by (destruct Hmethod as [-> | ->]; [reflexivity | now rewrite andb_false_r]).
  rewrite Hurl. destruct (String.eqb_spec url ""); [contradiction|].
  rewrite Horigin, Herr, Hrss.
  replace (if truthy (query_refresh req) then None else @None string)
    with (@None string) by now destruct (truthy (query_refresh req)).
  unfold generate_fresh. cbv zeta. rewrite Hhtml, Hinfo.
  replace (if truthy (query_refresh req) then None else @None string)
    with (@None string) by now destruct (truthy (query_refresh req)).
  rewrite Hfetch, Hok. cbn [negb].
  replace (if truthy (query_refresh req) then None else @None SiteInfo)
    with (@None SiteInfo) by now destruct (truthy (query_refresh req)).
  rewrite detectSiteType_rejects. cbn [app].
  fold error. destruct (generateErrorRSS rssGenerator error url (S (S k))).
  reflexivity.
Qed.

Lemma cold_request_fails_witness :
  let req := mkRequest "GET" (Some Sample.wp_url) None in
  let w := Sample.online 0 [(Sample.wp_url, mkResponse true 200 Sample.wp_html)] in
  handler Sample.rt w Sample.sample_generator Sample.no_entry (fun _ => "OK") req 0
  = (mkReply 500
       (cors ++
        [ rss_type; ("Cache-Control", "public, max-age=300");
          ("Content-Length", "95") ])%list
       (Sent (Sample.feed_of ["Cannot read properties of undefined (reading 'call')"])),
     [ CacheHTML Sample.wp_url Sample.wp_html 0;
       AddToErrorCache Sample.wp_url
         "Cannot read properties of undefined (reading 'call')" 0 ],
     2%nat).
Proof.
  intros req w.
  rewrite (@cold_request_fails Sample.rt w Sample.sample_generator Sample.no_entry (fun _ => "OK")
             req Sample.wp_url "https://example-blog.com"
             (mkResponse true 200 Sample.wp_html) 0%nat);
    [vm_compute; reflexivity | reflexivity | reflexivity | discriminate
    | reflexivity..].
Defined.

(** The handler over the requests of a process. *)

Section Service.

Variable rt : Runtime.
Variable w : World.
Variable rssGenerator : Generator.
Variable statusText : string -> string.

Lemma generate_fresh_feed (cacheManager : CacheReads) (req : Request)
  (url : string) (k : nat) :
  let '(outcome, writes, _) :=
    generate_fresh rt w rssGenerator cacheManager statusText req url k in
  existsb is_CacheSiteInfo writes = false
  /\ match outcome with
     | Ok reply => getCachedSiteInfo cacheManager url <> None
     | Err _ => existsb is_CacheRSS writes = false
     end.
Proof.
  pose proof (generate_fresh_facts rt w rssGenerator cacheManager statusText req url k)
    as H.
  destruct (generate_fresh rt w rssGenerator cacheManager statusText req url k)
    as [[[reply|error] writes] k'].
  - destruct H as (Hinfo & _ & _ & (siteInfo & Hs) & _). split; [exact Hinfo|].
    rewrite Hs. discriminate.
  - exact H.
Qed.

Lemma handler_feed (cacheManager : CacheReads) (req : Request) (k : nat) :
  let '(reply, writes, _) :=
    handler rt w rssGenerator cacheManager statusText req k in
  existsb is_CacheSiteInfo writes = false
  /\ (carries_feed reply = true \/ existsb is_CacheRSS writes = true ->
      exists url,
        getCachedRSS cacheManager url <> None
        \/ getCachedSiteInfo cacheManager url <> None).
Proof.
  unfold handler.
  destruct (String.eqb (method req) "OPTIONS");
    [split; [reflexivity | intros [H|H]; discriminate H]|].
  destruct (negb (String.eqb (method req) "GET")
            && negb (String.eqb (method req) "HEAD"));
    [split; [reflexivity | intros [H|H]; discriminate H]|].
  destruct (query_url req) as [url|];
    [|split; [reflexivity | intros [H|H]; discriminate H]].
  destruct (String.eqb url "");
    [split; [reflexivity | intros [H|H]; discriminate H]|].
  destruct (URL_origin rt url);
    [|split; [reflexivity | intros [H|H]; discriminate H]].
  destruct (isInErrorCache cacheManager url).
  { destruct (generateErrorRSS rssGenerator _ url k) as [errorRSS k'].
    split; [reflexivity | intros [H|H]; discriminate H]. }
  destruct (truthy (query_refresh req)).
  - pose proof (generate_fresh_feed cacheManager req url k) as Hfresh.
    destruct (generate_fresh rt w rssGenerator cacheManager statusText req url k)
      as [[[reply|error] writes] k'].
    + destruct Hfresh as (Hinfo & Hs). split; [exact Hinfo|].
      intros _. exists url. now right.
    + destruct Hfresh as (Hinfo & Hrss). cbv zeta.
      destruct (generateErrorRSS rssGenerator error url (S k')) as [errorRSS k''].
      rewrite !existsb_app, Hinfo, Hrss. split; [reflexivity|].
      intros [H|H]; discriminate H.
  - destruct (getCachedRSS cacheManager url) as [content|] eqn:Hc.
    { split; [reflexivity|]. intros _. exists url. left. rewrite Hc. discriminate. }
    pose proof (generate_fresh_feed cacheManager req url k) as Hfresh.
    destruct (generate_fresh rt w rssGenerator cacheManager statusText req url k)
      as [[[reply|error] writes] k'].
    + destruct Hfresh as (Hinfo & Hs). split; [exact Hinfo|].
      intros _. exists url. now right.
    + destruct Hfresh as (Hinfo & Hrss). cbv zeta.
      destruct (generateErrorRSS rssGenerator error url (S k')) as [errorRSS k''].
      rewrite !existsb_app, Hinfo, Hrss. split; [reflexivity|].
      intros [H|H]; discriminate H.
Qed.

Lemma serve_no_feed (requests : list (Request * CacheReads)) :
  forall written k,
    existsb is_CacheRSS written = false ->
    existsb is_CacheSiteInfo written = false ->
    from_caches rt w rssGenerator statusText requests written k ->
    Forall (fun served : Reply * list CacheWrite =>
              carries_feed (fst served) = false
              /\ existsb is_CacheRSS (snd served) = false
              /\ existsb is_CacheSiteInfo (snd served) = false)
      (fst (serve rt w rssGenerator statusText requests k)).
Proof.
  induction requests as [|[req cacheManager] rest IH]; intros written k Hrss Hinfo H;
    [constructor|].
  cbn [from_caches serve] in *. destruct H as [[Hr Hs] H].
  pose proof (handler_feed cacheManager req k) as Hh.
  destruct (handler rt w rssGenerator cacheManager statusText req k)
    as [[reply writes] k'].
  destruct Hh as [Hwi Hfeed].
  assert (Hno : carries_feed reply = false /\ existsb is_CacheRSS writes = false).
  { destruct (carries_feed reply) eqn:Ec; destruct (existsb is_CacheRSS writes) eqn:Ew;
      try (split; reflexivity);
      (destruct Hfeed as [url [Hu|Hu]]; [auto | |];
       [apply Hr in Hu | apply Hs in Hu]; congruence). }
  destruct Hno as [Hc Hw].
  specialize (IH (written ++ writes)%list k').
  destruct (serve rt w rssGenerator statusText rest k') as [served k''].
  cbn [fst]. constructor; [cbn [fst snd]; auto|].
  apply IH; [rewrite existsb_app, Hrss, Hw; reflexivity
            | rewrite existsb_app, Hinfo, Hwi; reflexivity | exact H].
Qed.

End Service.

(** X25.  From caches that start empty, the service never replies with a
    feed of a site, made or cached, and never stores a feed or a
    classification: every request that reaches the coordinator fails
    there, so the cache of classifications stays empty, and without a
    classification no feed is made. *)
Theorem service_never_generates :
  forall (rt : Runtime) (w : World) (rssGenerator : Generator)
         (statusText : string -> string) (requests : list (Request * CacheReads))
         (k : nat),
    from_caches rt w rssGenerator statusText requests [] k ->
    Forall (fun served : Reply * list CacheWrite =>
              carries_feed (fst served) = false
              /\ existsb is_CacheRSS (snd served) = false
              /\ existsb is_CacheSiteInfo (snd served) = false)
      (fst (serve rt w rssGenerator statusText requests k)).
Proof.
  intros rt w rssGenerator statusText requests k H.
  now apply serve_no_feed with (written := []).
Qed.

Lemma service_never_generates_witness :
  let req := mkRequest "GET" (Some Sample.wp_url) None in
  let w := Sample.online 0 [(Sample.wp_url, mkResponse true 200 Sample.wp_html)] in
  let served :=
    fst (serve Sample.rt w Sample.sample_generator (fun _ => "OK")
           [(req, Sample.no_entry); (req, Sample.error_only [Sample.wp_url])] 0) in
  Forall (fun reply => carries_feed reply = false) (map fst served)
  /\ map (fun reply => code reply) (map fst served) = [500; 200].
Proof.
  intros req w served. split; [|vm_compute; reflexivity].
  apply Forall_map.
  eapply Forall_impl;
    [|apply (@service_never_generates Sample.rt w Sample.sample_generator
               (fun _ => "OK")
               [(req, Sample.no_entry); (req, Sample.error_only [Sample.wp_url])]
               0%nat)].
  - intros a (H & _). exact H.
  - vm_compute. repeat split; intros url H; now contradiction H.
Defined.

(** ** Every strategy at once *)

Lemma parseContent_Forall (rt : Runtime) (w : World) (this : ContentParser)
  (P : Article -> Prop) (html : string) (k : nat) :
  (forall i el k a, fst (generic_item rt w this i el k) = Some a -> P a) ->
  (forall i el k a, fst (portfolio_item rt w this i el k) = Some a -> P a) ->
  (forall i el k a, fst (blog_item rt w this i el k) = Some a -> P a) ->
  (forall i el k a, fst (news_item rt w this i el k) = Some a -> P a) ->
  (forall i el k a, fst (ecommerce_item rt w this i el k) = Some a -> P a) ->
  (forall i el k a, fst (repository_item rt w this i el k) = Some a -> P a) ->
  (forall dom k, Forall P (fst (parseMovableTypeBlog rt w this dom html k))) ->
  (forall articles k k',
     figma_try rt w this html k = (Ok (Some articles), k') -> Forall P articles) ->
  Forall P (fst (parseContent rt w this html k)).
Proof.
  intros Hgeneric Hportfolio Hblog Hnews Hshop Hrepo Hmt Hfigma.
  unfold parseContent.
  destruct (String.eqb (type (siteInfo this)) "portfolio").
  { unfold parsePortfolioContent.
    destruct (JsString.includes html "_json/" && JsString.includes html ".json").
    - unfold parseFigmaBasedSite.
      destruct (figma_try rt w this html k) as [[[[|a l]|]|e] k'] eqn:E;
        try (apply each_Forall; exact Hgeneric).
      cbn [List.length Nat.ltb Nat.leb]. cbn [fst].
      apply slice0_Forall. exact (Hfigma _ _ _ E).
    - unfold seq_clock, ret.
      pose proof (each_Forall (portfolio_item rt w this) P Hportfolio
                    (select_rule (load rt html)
                       (rule "articles" (selectors (siteInfo this)))) 0 k) as H.
      destruct (each _ _ _ _) as [l k']. now apply slice0_Forall. }
  destruct (String.eqb _ "blog").
  { unfold parseBlogContent. destruct (String.eqb _ "movable-type");
      [apply Hmt | apply each_Forall; exact Hblog]. }
  destruct (String.eqb _ "news"); [apply each_Forall; exact Hnews|].
  destruct (String.eqb _ "ecommerce"); [apply each_Forall; exact Hshop|].
  destruct (String.eqb _ "repository"); [apply each_Forall; exact Hrepo|].
  apply each_Forall. exact Hgeneric.
Qed.

Section Absolute.

Variable rt : Runtime.
Variable w : World.
Variable this : ContentParser.
Hypothesis base_http : JsString.startsWith (baseUrl this) "http" = true.
Hypothesis site_http : JsString.startsWith (url (siteInfo this)) "http" = true.

Lemma extractLink_http el selector :
  JsString.startsWith (extractLink this el selector) "http" = true.
Proof.
  unfold extractLink. cbv zeta. destruct (no_selector selector); [exact site_http|].
  match goal with
  | |- JsString.startsWith (if truthy ?l then _ else _) _ = _ => destruct (truthy l)
  end; [now apply resolveUrl_http | exact site_http].
Qed.

Lemma extractImage_http el selector src :
  extractImage this el selector = Some src -> JsString.startsWith src "http" = true.
Proof.
  unfold extractImage. destruct (no_selector selector); [discriminate|].
  destruct (Dom.first (find_rule el selector)) as [|img rest]; [discriminate|].
  cbv zeta.
  match goal with
  | |- (if truthy ?s then _ else _) = _ -> _ => destruct (truthy s)
  end; [|discriminate].
  intros [= <-]. now apply resolveUrl_http.
Qed.

Ltac absolute_item H :=
  pushed H; split;
  [apply extractLink_http
  | cbn [image]; first [discriminate | apply extractImage_http]].

Lemma parseContent_absolute html k :
  Forall absolute (fst (parseContent rt w this html k)).
Proof.
  apply parseContent_Forall.
  - intros i el k0 a H. absolute_item H.
  - intros i el k0 a H. absolute_item H.
  - intros i el k0 a H. absolute_item H.
  - intros i el k0 a H. absolute_item H.
  - intros i el k0 a H. absolute_item H.
  - intros i el k0 a H. absolute_item H.
  - intros dom k0. apply mt_Forall.
    + intros el [articles seen] k1 H.
      unfold mt_entry, seq_clock, Date_now_utc, ret. cbv beta iota zeta.
      match goal with
      | |- context [negb (String.eqb ?t "") && negb (has seen ?l)] =>
          destruct (negb (String.eqb t "") && negb (has seen l)); [|exact H]
      end.
      cbn [fst]. apply Forall_app. split; [exact H|].
      constructor; [|constructor]. split; cbn [fst link image]; [|discriminate].
      match goal with |- JsString.startsWith (if ?c then _ else _) _ = _ =>
        destruct c end; [now apply resolveUrl_http | exact site_http].
    + intros el [articles seen] k1 H.
      unfold mt_recent, seq_clock, Date_now_utc, ret. cbv beta iota zeta.
      destruct (Dom.length _ >? 0)%Z; [|exact H].
      match goal with
      | |- context [negb (String.eqb ?t "") && negb (has seen ?l) && ?c] =>
          destruct (negb (String.eqb t "") && negb (has seen l) && c); [|exact H]
      end.
      cbn [fst]. apply Forall_app. split; [exact H|].
      constructor; [|constructor]. split; cbn [fst link image]; [|discriminate].
      now apply resolveUrl_http.
    + intros a Ha. unfold enriched.
      destruct (fetchRuanyifengArticleContent rt w (link a)) as [c|]; [|exact Ha].
      destruct (String.eqb c ""); exact Ha.
  - intros articles k0 k' E.
    eapply Forall_impl; [|eapply figma_try_records; exact E].
    intros a (_ & _ & Hi & Hl). split; [|rewrite Hi; discriminate].
    destruct Hl as [(p & El & _)|(El & _)]; rewrite El; [|exact site_http].
    unfold JsString.startsWith in *. now apply prefix_append_l.
Qed.

End Absolute.

(** X26.  When the origin and the URL of the site begin with [http], the
    link of every record of a run begins with [http], and so does its
    image when it has one, whatever the strategy. *)
Theorem links_are_absolute :
  forall (rt : Runtime) (w : World) (this : ContentParser) (html : string)
         (k : nat) (a : Article),
    JsString.startsWith (baseUrl this) "http" = true ->
    JsString.startsWith (url (siteInfo this)) "http" = true ->
    In a (fst (parseContent rt w this html k)) ->
    JsString.startsWith (link a) "http" = true
    /\ forall src, image a = Some src -> JsString.startsWith src "http" = true.
Proof.
  intros rt w this html k a Hbase Hsite Hin.
  exact (proj1 (Forall_forall _ _)
           (@parseContent_absolute rt w this Hbase Hsite html k) a Hin).
Qed.

Lemma links_are_absolute_witness :
  Forall (fun a => JsString.startsWith (link a) "http" = true
                   /\ exists src, image a = Some src
                                  /\ JsString.startsWith src "http" = true)
    (fst (parseContent Sample.test_rt (Sample.offline 0)
            (mkContentParser Sample.portfolio_test_info "https://portfolio.example.com")
            Sample.portfolio_test_html 0%nat)).
Proof.
  apply Forall_forall. intros a Hin.
  destruct (@links_are_absolute Sample.test_rt (Sample.offline 0)
              (mkContentParser Sample.portfolio_test_info "https://portfolio.example.com")
              Sample.portfolio_test_html 0%nat a eq_refl eq_refl Hin) as [Hl Hi].
  split; [exact Hl|].
  vm_compute in Hin. destruct Hin as [<-|[]].
  eexists. split; [reflexivity|]. apply Hi. reflexivity.
Defined.

(** ** Dates *)

Lemma valid_date_or_dated (rt : Runtime) (dateText pubDate : string) :
  (exists t, pubDate = toUTCString rt t) ->
  exists t, valid_date_or rt dateText pubDate = toUTCString rt t.
Proof.
  intro H. unfold valid_date_or. destruct (String.eqb dateText ""); [exact H|].
  destruct (Date_parse rt dateText) as [t|]; [now exists t | exact H].
Qed.

Lemma parseMovableTypeBlog_dated (rt : Runtime) (w : World) (this : ContentParser)
  (dom : Dom.Document) (html : string) (k : nat) :
  Forall (dated rt) (fst (parseMovableTypeBlog rt w this dom html k)).
Proof.
  apply mt_Forall.
  - intros el [articles seen] k1 H.
    unfold mt_entry, seq_clock, Date_now_utc, ret. cbv beta iota zeta.
    match goal with
    | |- context [negb (String.eqb ?t "") && negb (has seen ?l)] =>
        destruct (negb (String.eqb t "") && negb (has seen l)); [|exact H]
    end.
    cbn [fst]. apply Forall_app. split; [exact H|].
    constructor; [|constructor]. unfold dated. cbn [fst pubDate].
    destruct (Dom.length _ >? 0)%Z; [|now eexists].
    apply valid_date_or_dated. now eexists.
  - intros el [articles seen] k1 H.
    unfold mt_recent, seq_clock, Date_now_utc, ret. cbv beta iota zeta.
    destruct (Dom.length _ >? 0)%Z; [|exact H].
    match goal with
    | |- context [negb (String.eqb ?t "") && negb (has seen ?l) && ?c] =>
        destruct (negb (String.eqb t "") && negb (has seen l) && c); [|exact H]
    end.
    cbn [fst]. apply Forall_app. split; [exact H|].
    constructor; [|constructor]. unfold dated. cbn [fst pubDate].
    destruct (Dom.length _ >? 0)%Z; [|now eexists].
    match goal with |- context [String.eqb ?d ""] => destruct (String.eqb d "") end;
      [now eexists|].
    apply valid_date_or_dated. now eexists.
  - intros a Ha. unfold enriched.
    destruct (fetchRuanyifengArticleContent rt w (link a)) as [c|]; [|exact Ha].
    destruct (String.eqb c ""); exact Ha.
Qed.

(** X27.  The date of a record of the Movable Type strategy is always the
    writing of a time: a date that does not parse is replaced by the time
    of the run.  The generic strategy has no such test: an element whose
    date does not parse gives a record dated [Invalid Date]. *)
Theorem pubDate_of_unparsable_date :
  forall (rt : Runtime) (w : World) (this : ContentParser) (dom : Dom.Document)
         (html : string) (k : nat),
    Forall (dated rt) (fst (parseMovableTypeBlog rt w this dom html k))
    /\ forall el d,
         In el (select_rule dom (rule "articles" (selectors (siteInfo this)))) ->
         generic_takes this el = true ->
         extractDate el (rule "date" (selectors (siteInfo this))) = Some d ->
         d <> "" -> Date_parse rt d = None ->
         exists a,
           In a (fst (parseGenericContent rt w this dom html k))
           /\ title a
              = JsString.trim
                  (extractText el (rule "title" (selectors (siteInfo this))))
           /\ pubDate a = "Invalid Date".
Proof.
  intros rt w this dom html k. split; [apply parseMovableTypeBlog_dated|].
  intros el d Hin Htakes Hdate Hd Hparse. unfold parseGenericContent.
  destruct (each_In (generic_item rt w this)
              (fun a => title a
                        = JsString.trim
                            (extractText el (rule "title" (selectors (siteInfo this))))
                        /\ pubDate a = "Invalid Date") el) with
    (els := select_rule dom (rule "articles" (selectors (siteInfo this))))
    (index := 0) (k := k) as (a & Ha & Hp); [|exact Hin|now exists a].
  intros i k'. unfold generic_item. cbv zeta. unfold generic_takes in Htakes.
  cbv zeta in Htakes. rewrite Htakes, Hdate. unfold pubDate_of.
  destruct (String.eqb_spec d ""); [contradiction|].
  unfold seq_clock, ret, Date_utc. rewrite Hparse. eexists. now repeat split.
Qed.

Lemma pubDate_of_unparsable_date_witness :
  exists a,
    In a (fst (parseGenericContent Sample.stale_rt (Sample.offline 0)
                 (mkContentParser (Sample.generic_info Sample.site) Sample.site)
                 Sample.stale_dom Sample.stale_html 0%nat))
    /\ title a = "Dated story" /\ pubDate a = "Invalid Date".
Proof.
  destruct (@pubDate_of_unparsable_date Sample.stale_rt (Sample.offline 0)
              (mkContentParser (Sample.generic_info Sample.site) Sample.site)
              Sample.stale_dom Sample.stale_html 0%nat) as [_ H].
  edestruct H as (a & Hin & Ht & Hd);
    [ vm_compute; left; reflexivity | vm_compute; reflexivity
    | vm_compute; reflexivity | discriminate | vm_compute; reflexivity |].
  exists a. split; [exact Hin|]. split; [|exact Hd].
  rewrite Ht. vm_compute. reflexivity.
Defined.
